(** * MemmapTensor: a tensor interface over a memory-mapped temporary file

    Shallow embedding of [torchrl/data/tensordict/memmap.py].

    The Python program is stateful: a [MemmapTensor] is a mutable object,
    its backing file lives in the file system, and several objects may map
    the same file.  The embedding therefore threads a [world] (directory
    entries, file contents, heap of live [MemmapTensor] objects) through a
    small state-and-exception monad [M].

    What is taken from the libraries the module calls is written out in
    the first half of the file and kept to what the module uses:
    - tempfile: a [NamedTemporaryFile] is created under a name not in use,
      and closing it unlinks [_closer.name] when [_closer.delete] is set;
    - numpy: [np.memmap] opens a file by name, in mode [r+] extends a
      file that is too short (an empty file also for an empty array, so
      that there is something to map), and maps the pages of the file,
      which stay readable after the name is unlinked; assignment
      broadcasts and converts;
    - torch: [torch.as_tensor] of an array shares its memory when the
      target device is the CPU and copies otherwise.
    Element values are integers: the integer and boolean dtypes are
    modelled, floating-point dtypes are not.

    The arithmetic operators, [__torch_function__], [stack] and [cat]
    hand their arguments to torch's numerical kernels, and [__repr__]
    formats a string; they are left out. *)

From stdpp Require Import gmap strings list fin_maps.
From Stdlib Require Import QArith.

Local Open Scope Z_scope.
Local Open Scope nat_scope.

(** ** Exceptions and results *)

Inductive exn :=
  | TypeError
  | RuntimeError
  | NotImplementedError
  | AttributeError
  | FileNotFoundError
  | ValueError
  | IndexError
  | ReferenceError.

Inductive result (A : Type) :=
  | Ok (a : A)
  | Raise (e : exn).
Arguments Ok {A} a.
Arguments Raise {A} e.

Global Instance exn_eq_dec : EqDecision exn.
Proof. solve_decision. Defined.

(** ** torch and numpy data *)

(** The dtypes of [torch_to_numpy_dtype_dict] whose elements are integers.
    The table itself lives in [torchrl.data.utils]; it pairs each torch
    dtype with the numpy dtype of the same name, so one type serves both
    libraries and the lookup is the identity. *)
Inductive dtype := torch_bool | torch_uint8 | torch_int8 | torch_int16
                 | torch_int32 | torch_int64.

Global Instance dtype_eq_dec : EqDecision dtype.
Proof. solve_decision. Defined.

Definition torch_to_numpy_dtype_dict (d : dtype) : dtype := d.

Inductive device := cpu | cuda (n : nat).

Global Instance device_eq_dec : EqDecision device.
Proof. solve_decision. Defined.

(** Two's-complement wrap-around of a [bits]-wide signed integer. *)
Definition wrap_signed (bits : Z) (x : Z) : Z :=
  ((x + 2 ^ (bits - 1)) mod 2 ^ bits - 2 ^ (bits - 1))%Z.

(** C-style conversion of a value to a dtype, as numpy and torch apply it
    when an assignment crosses dtypes. *)
Definition cast_elem (d : dtype) (x : Z) : Z :=
  match d with
  | torch_bool => if (x =? 0)%Z then 0%Z else 1%Z
  | torch_uint8 => (x mod 256)%Z
  | torch_int8 => wrap_signed 8 x
  | torch_int16 => wrap_signed 16 x
  | torch_int32 => wrap_signed 32 x
  | torch_int64 => wrap_signed 64 x
  end.

(** Elements keep their value when source and destination dtype agree. *)
Definition convert (from to : dtype) (x : Z) : Z :=
  if decide (from = to) then x else cast_elem to x.

(** Where the elements of an array live: in the pages of a mapped file
    (shared by every array over that file) or in memory of its own. *)
Inductive storage :=
  | Mapped (ino : nat)
  | Memory (data : list Z).

(** A [torch.Tensor]: a window of [numel t_shape] elements starting at
    [t_offset] of its storage, in row-major order. *)
Record Tensor := mkTensor {
  t_storage : storage;
  t_offset : nat;
  t_shape : list nat;
  t_dtype : dtype;
  t_device : device;
  t_requires_grad : bool
}.

(** A [numpy.ndarray], same layout. *)
Record ndarray := mkNdarray {
  a_storage : storage;
  a_offset : nat;
  a_shape : list nat;
  a_dtype : dtype
}.

Inductive mmap_mode := mode_r | mode_rplus.

Global Instance mmap_mode_eq_dec : EqDecision mmap_mode.
Proof. solve_decision. Defined.

(** A [numpy.memmap] object over a whole file.  [mm_id] is the identity
    of the Python object (what [is] compares). *)
Record memmap := mkMemmap {
  mm_id : nat;
  mm_ino : nat;
  mm_mode : mmap_mode;
  mm_dtype : dtype;
  mm_shape : list nat
}.

Definition memmap_view (mm : memmap) : ndarray :=
  mkNdarray (Mapped (mm_ino mm)) 0 (mm_shape mm) (mm_dtype mm).

(** Indices: a Python int or a slice [start:stop] along the first
    dimension ([ISlice None None] is [:]). *)
Inductive index :=
  | IInt (i : Z)
  | ISlice (start stop : option Z).

Definition numel (shape : list nat) : nat := foldr Nat.mul 1 shape.

(** ** tempfile *)

(** [tempfile._TemporaryFileWrapper] and its [_closer]
    ([tempfile._TemporaryFileCloser]), with the attributes the module
    reads and writes. *)
Module tempfile.

Record _TemporaryFileCloser := mkCloser {
  closer_name : string;
  closer_delete : bool;
  close_called : bool
}.

Record _TemporaryFileWrapper := mkWrapper {
  name : string;
  delete : bool;
  _closer : _TemporaryFileCloser
}.

End tempfile.

(** ** The MemmapTensor object *)

(** The instance dictionary of a [MemmapTensor].  The dictionary that
    [__getstate__] returns has the same keys, with [file] and
    [_memmap_array] set to [None]. *)
Record MemmapTensor := mkMemmapTensor {
  idx : option index;
  _memmap_array : option memmap;
  file : option tempfile._TemporaryFileWrapper;
  filename : string;
  _device : device;
  _shape : list nat;
  transfer_ownership : bool;
  np_shape : list nat;
  _dtype : dtype;
  _tensor_dir : list string;
  _ndim : nat;
  _numel : nat;
  mode : mmap_mode;
  _has_ownership : bool
}.

(** Python values that reach the module's [isinstance] tests.  [PyAttr]
    stands for an attribute of a materialised tensor that is not a plain
    datum (a bound method such as [__array__]); [PyOther] for any object
    of a class the module does not know. *)
Inductive pyval :=
  | PyNone
  | PyBool (b : bool)
  | PyInt (z : Z)
  | PyFloat (q : Q)
  | PyStr (s : string)
  | PyTensor (t : Tensor)
  | PyNdarray (a : ndarray)
  | PyMemmapTensor (l : nat)
  | PyAttr (t : Tensor) (attr : string)
  | PyOther (descr : string).

(** ** The world *)

Record world := mkWorld {
  fs_paths : gmap string nat;       (* directory entries: path to inode *)
  fs_inodes : gmap nat (list Z);     (* file contents, one entry per element *)
  heap : gmap nat MemmapTensor;      (* live MemmapTensor objects *)
  next_id : nat                      (* identities of numpy.memmap objects *)
}.

Definition empty_world : world := mkWorld ∅ ∅ ∅ 0.

Definition set_paths (p : gmap string nat) (w : world) : world :=
  mkWorld p (fs_inodes w) (heap w) (next_id w).
Definition set_inodes (i : gmap nat (list Z)) (w : world) : world :=
  mkWorld (fs_paths w) i (heap w) (next_id w).
Definition set_heap (h : gmap nat MemmapTensor) (w : world) : world :=
  mkWorld (fs_paths w) (fs_inodes w) h (next_id w).
Definition set_next_id (n : nat) (w : world) : world :=
  mkWorld (fs_paths w) (fs_inodes w) (heap w) n.

(** ** The monad: state passing with exceptions.  A raised exception
    keeps the effects performed before it. *)

Definition M (A : Type) : Type := world → result A * world.

Global Instance M_ret : MRet M := λ A a w, (Ok a, w).
Global Instance M_bind : MBind M := λ A B f m w,
  match m w with
  | (Ok a, w') => f a w'
  | (Raise e, w') => (Raise e, w')
  end.

Definition raise {A} (e : exn) : M A := λ w, (Raise e, w).
Definition get_world : M world := λ w, (Ok w, w).
Definition modify (f : world → world) : M unit := λ w, (Ok tt, f w).

(** [try: m  except: h] *)
Definition catch {A} (m : M A) (h : exn → M A) : M A := λ w,
  match m w with
  | (Ok a, w') => (Ok a, w')
  | (Raise e, w') => h e w'
  end.

(** Attribute access through a reference.  A reference keeps its object
    alive in Python, so [ReferenceError] only arises for a location that
    was never allocated or was already destroyed. *)
Definition deref (l : nat) : M MemmapTensor := λ w,
  match heap w !! l with
  | Some o => (Ok o, w)
  | None => (Raise ReferenceError, w)
  end.

Definition setobj (l : nat) (o : MemmapTensor) : M unit :=
  modify (λ w, set_heap (<[l := o]> (heap w)) w).

(** ** File system and tempfile *)

(** [os.unlink] *)
Definition os_unlink (path : string) : M unit := λ w,
  match fs_paths w !! path with
  | Some _ => (Ok tt, set_paths (delete path (fs_paths w)) w)
  | None => (Raise FileNotFoundError, w)
  end.

(** [tempfile.NamedTemporaryFile(delete=...)]: creates an empty file
    under a name that no directory entry uses at that moment. *)
Definition NamedTemporaryFile (delete : bool) : M tempfile._TemporaryFileWrapper :=
  λ w,
    let path : string := fresh (dom (fs_paths w)) in
    let ino : nat := fresh (dom (fs_inodes w)) in
    (Ok (tempfile.mkWrapper path delete (tempfile.mkCloser path delete false)),
     set_paths (<[path := ino]> (fs_paths w))
       (set_inodes (<[ino := []]> (fs_inodes w)) w)).

(** [_TemporaryFileCloser.close]: the first call closes the descriptor
    and, when [delete] is set, unlinks [name]. *)
Definition _TemporaryFileCloser_close (c : tempfile._TemporaryFileCloser)
  : M tempfile._TemporaryFileCloser :=
  if tempfile.close_called c then mret c
  else
    let c' := tempfile.mkCloser (tempfile.closer_name c)
                (tempfile.closer_delete c) true in
    if tempfile.closer_delete c
    then _ ← os_unlink (tempfile.closer_name c); mret c'
    else mret c'.

(** [_TemporaryFileWrapper.close] *)
Definition _TemporaryFileWrapper_close (f : tempfile._TemporaryFileWrapper)
  : M tempfile._TemporaryFileWrapper :=
  c ← _TemporaryFileCloser_close (tempfile._closer f);
  mret (tempfile.mkWrapper (tempfile.name f) (tempfile.delete f) c).

(** ** Windows of a storage *)

Definition storage_data (w : world) (s : storage) : list Z :=
  match s with
  | Mapped ino => default [] (fs_inodes w !! ino)
  | Memory d => d
  end.

Definition read_window (w : world) (s : storage) (off n : nat) : list Z :=
  take n (drop off (storage_data w s)).

Definition write_window (d : list Z) (off : nat) (new : list Z) : list Z :=
  take off d ++ new ++ drop (off + length new) d.

Definition tensor_data (w : world) (t : Tensor) : list Z :=
  read_window w (t_storage t) (t_offset t) (numel (t_shape t)).

Definition ndarray_data (w : world) (a : ndarray) : list Z :=
  read_window w (a_storage a) (a_offset a) (numel (a_shape a)).

(** ** Indexing *)

Definition normalize_int (n : nat) (i : Z) : option nat :=
  let i' := if (i <? 0)%Z then (i + Z.of_nat n)%Z else i in
  if decide (0 ≤ i' < Z.of_nat n)%Z then Some (Z.to_nat i') else None.

(** One bound of [slice.indices(n)] for step 1. *)
Definition clamp_bound (n : nat) (b : option Z) (dflt : nat) : nat :=
  match b with
  | None => dflt
  | Some z =>
      let z' := if (z <? 0)%Z then (z + Z.of_nat n)%Z else z in
      Z.to_nat (Z.min (Z.max z' 0) (Z.of_nat n))
  end.

(** The window selected by an index in an array of the given shape whose
    own window starts at [off]: offset and shape of the result.  A 0-d
    array takes no index. *)
Definition index_region (shape : list nat) (off : nat) (ix : index)
  : result (nat * list nat) :=
  match shape with
  | [] => Raise IndexError
  | n :: rest =>
      match ix with
      | IInt i =>
          match normalize_int n i with
          | Some k => Ok (off + k * numel rest, rest)
          | None => Raise IndexError
          end
      | ISlice a b =>
          let lo := clamp_bound n a 0 in
          let hi := clamp_bound n b n in
          Ok (off + lo * numel rest, (hi - lo) :: rest)
      end
  end.

(** ** Broadcasting *)

(** [count] consecutive chunks of [k] elements. *)
Fixpoint chunks (k count : nat) (d : list Z) : list (list Z) :=
  match count with
  | 0 => []
  | S c => take k d :: chunks k c (drop k d)
  end.

(** Broadcast data of shape [src] to shape [dst], both of one length. *)
Fixpoint broadcast_aligned (src dst : list nat) (d : list Z)
  : option (list Z) :=
  match src, dst with
  | [], [] => Some d
  | s :: src', n :: dst' =>
      if decide (s = n) then
        @concat Z <$> mapM (broadcast_aligned src' dst') (chunks (numel src') s d)
      else if decide (s = 1) then
        x ← broadcast_aligned src' dst' d; Some (concat (replicate n x))
      else None
  | _, _ => None
  end.

(** Leading dimensions of size 1 in excess of the target rank are
    dropped, as an assignment does. *)
Fixpoint strip_leading_ones (excess : nat) (shape : list nat) : list nat :=
  match excess, shape with
  | S e, 1 :: rest => strip_leading_ones e rest
  | _, _ => shape
  end.

Definition broadcast_to (src dst : list nat) (d : list Z) : option (list Z) :=
  let src' := strip_leading_ones (length src - length dst) src in
  if decide (length src' ≤ length dst)
  then broadcast_aligned (replicate (length dst - length src') 1 ++ src') dst d
  else None.

Fixpoint broadcast_shapes_rev (a b : list nat) : option (list nat) :=
  match a, b with
  | [], _ => Some b
  | _, [] => Some a
  | x :: a', y :: b' =>
      r ← broadcast_shapes_rev a' b';
      if decide (x = y) then Some (x :: r)
      else if decide (x = 1) then Some (y :: r)
      else if decide (y = 1) then Some (x :: r)
      else None
  end.

(** The common shape of two operands of an elementwise operation. *)
Definition broadcast_shapes (a b : list nat) : option (list nat) :=
  @rev nat <$> broadcast_shapes_rev (rev a) (rev b).

(** ** numpy *)

(** [numpy.memmap(filename, dtype, mode, shape)].  In mode [r+] a file
    shorter than the array is first extended with zeros, and an empty
    file is extended even when the array has no element, since an empty
    file cannot be mapped (numpy writes one byte there; a file is counted
    in elements here, so the padding counts as one).  In mode [r] an
    empty file and a file that is too short are refused. *)
Definition np_memmap (filename : string) (dt : dtype) (md : mmap_mode)
    (shape : list nat) : M memmap := λ w,
  match fs_paths w !! filename with
  | None => (Raise FileNotFoundError, w)
  | Some ino =>
      let content := default [] (fs_inodes w !! ino) in
      let n := numel shape in
      let content' :=
        match md with
        | mode_rplus => content ++ replicate (Nat.max n 1 - length content) 0%Z
        | mode_r => content
        end in
      if decide (length content' = 0) then (Raise ValueError, w)
      else if decide (length content' < n) then (Raise ValueError, w)
      else (Ok (mkMemmap (next_id w) ino md dt shape),
            set_next_id (S (next_id w))
              (set_inodes (<[ino := content']> (fs_inodes w)) w))
  end.

(** Writing [new] at offset [off] of a storage.  Pages of a mapped file
    are shared; memory of its own is returned updated. *)
Definition storage_write (s : storage) (off : nat) (new : list Z) : M storage :=
  match s with
  | Mapped ino =>
      _ ← modify (λ w, set_inodes
             (<[ino := write_window (storage_data w s) off new]> (fs_inodes w)) w);
      mret s
  | Memory d => mret (Memory (write_window d off new))
  end.

(** [mm[ix] = src] for a [numpy.memmap] *)
Definition memmap_setitem (mm : memmap) (ix : index) (src : ndarray) : M unit :=
  match mm_mode mm with
  | mode_r => raise ValueError
  | mode_rplus =>
      match index_region (mm_shape mm) 0 ix with
      | Raise e => raise e
      | Ok (off, shape) =>
          w ← get_world;
          match broadcast_to (a_shape src) shape (ndarray_data w src) with
          | None => raise ValueError
          | Some d =>
              _ ← storage_write (Mapped (mm_ino mm)) off
                    (convert (a_dtype src) (mm_dtype mm) <$> d);
              mret tt
          end
      end
  end.

(** [a[ix]] for an [ndarray]: a view, or a scalar copied out when the
    result has no dimension left. *)
Definition ndarray_getitem (a : ndarray) (ix : index) : M ndarray :=
  match index_region (a_shape a) (a_offset a) ix with
  | Raise e => raise e
  | Ok (off, []) =>
      w ← get_world;
      mret (mkNdarray (Memory (read_window w (a_storage a) off 1)) 0 [] (a_dtype a))
  | Ok (off, shape) => mret (mkNdarray (a_storage a) off shape (a_dtype a))
  end.

(** ** torch *)

(** [torch.as_tensor(a, device=dev)]: shares the array's memory when the
    target is the CPU, copies to the device otherwise. *)
Definition torch_as_tensor (a : ndarray) (dev : device) : M Tensor :=
  match dev with
  | cpu => mret (mkTensor (a_storage a) (a_offset a) (a_shape a) (a_dtype a) cpu false)
  | cuda _ =>
      w ← get_world;
      mret (mkTensor (Memory (ndarray_data w a)) 0 (a_shape a) (a_dtype a) dev false)
  end.

(** [t[ix]]: a view of [t]. *)
Definition Tensor___getitem__ (t : Tensor) (ix : index) : M Tensor :=
  match index_region (t_shape t) (t_offset t) ix with
  | Raise e => raise e
  | Ok (off, shape) =>
      mret (mkTensor (t_storage t) off shape (t_dtype t) (t_device t)
              (t_requires_grad t))
  end.

(** [t[ix] = value]: returns [t] as it is after the assignment. *)
Definition Tensor___setitem__ (t : Tensor) (ix : index) (value : Tensor)
  : M Tensor :=
  match index_region (t_shape t) (t_offset t) ix with
  | Raise e => raise e
  | Ok (off, shape) =>
      w ← get_world;
      match broadcast_to (t_shape value) shape (tensor_data w value) with
      | None => raise RuntimeError
      | Some d =>
          s ← storage_write (t_storage t) off
                (convert (t_dtype value) (t_dtype t) <$> d);
          mret (mkTensor s (t_offset t) (t_shape t) (t_dtype t) (t_device t)
                  (t_requires_grad t))
      end
  end.

(** [t.cpu()] *)
Definition Tensor_cpu (t : Tensor) : M Tensor :=
  match t_device t with
  | cpu => mret t
  | cuda _ =>
      w ← get_world;
      mret (mkTensor (Memory (tensor_data w t)) 0 (t_shape t) (t_dtype t) cpu
              (t_requires_grad t))
  end.

(** [t.numpy()]: an array over the memory of a CPU tensor. *)
Definition Tensor_numpy (t : Tensor) : M ndarray :=
  if t_requires_grad t then raise RuntimeError
  else match t_device t with
       | cpu => mret (mkNdarray (t_storage t) (t_offset t) (t_shape t) (t_dtype t))
       | cuda _ => raise TypeError
       end.

(** Device of the result of a binary operation: operands sit on one
    device, a 0-d CPU tensor goes with any. *)
Definition result_device (t1 t2 : Tensor) : option device :=
  if decide (t_device t1 = t_device t2) then Some (t_device t1)
  else if decide (t_shape t2 = [] ∧ t_device t2 = cpu) then Some (t_device t1)
  else if decide (t_shape t1 = [] ∧ t_device t1 = cpu) then Some (t_device t2)
  else None.

Definition eq_elem (x y : Z) : Z := if (x =? y)%Z then 1%Z else 0%Z.

(** [torch.eq(t1, t2)]: elementwise, after broadcasting. *)
Definition torch_eq (t1 t2 : Tensor) : M Tensor :=
  match result_device t1 t2, broadcast_shapes (t_shape t1) (t_shape t2) with
  | Some dev, Some shape =>
      w ← get_world;
      match broadcast_to (t_shape t1) shape (tensor_data w t1),
            broadcast_to (t_shape t2) shape (tensor_data w t2) with
      | Some d1, Some d2 =>
          mret (mkTensor (Memory (zip_with eq_elem d1 d2)) 0 shape torch_bool dev false)
      | _, _ => raise RuntimeError
      end
  | _, _ => raise RuntimeError
  end.

(** [torch.eq(t, q)] for a Python number [q], compared exactly.  That
    is what torch computes for an [int] that the dtype of [t] can
    represent.  For a [float], and for an [int] out of range, torch goes
    through its own conversions first (to [float32], or by wrapping);
    nothing below is stated about those operands. *)
Definition torch_eq_scalar (t : Tensor) (q : Q) : M Tensor :=
  w ← get_world;
  mret (mkTensor
          (Memory ((λ x, if Qeq_bool (inject_Z x) q then 1%Z else 0%Z)
                     <$> tensor_data w t))
          0 (t_shape t) torch_bool (t_device t) false).

(** ** Classes and [isinstance] *)

Inductive pyclass :=
  | C_NoneType | C_bool | C_int | C_float | C_str
  | C_Tensor | C_ndarray | C_MemmapTensor | C_object.

Global Instance pyclass_eq_dec : EqDecision pyclass.
Proof. solve_decision. Defined.

Definition type_of (v : pyval) : pyclass :=
  match v with
  | PyNone => C_NoneType
  | PyBool _ => C_bool
  | PyInt _ => C_int
  | PyFloat _ => C_float
  | PyStr _ => C_str
  | PyTensor _ => C_Tensor
  | PyNdarray _ => C_ndarray
  | PyMemmapTensor _ => C_MemmapTensor
  | PyAttr _ _ => C_object
  | PyOther _ => C_object
  end.

(** [bool] is a subclass of [int]. *)
Definition issubclass (c d : pyclass) : bool :=
  bool_decide (c = d) || bool_decide (c = C_bool ∧ d = C_int)
  || bool_decide (d = C_object).

Definition isinstance (v : pyval) (classes : list pyclass) : bool :=
  existsb (issubclass (type_of v)) classes.

(** ** MemmapTensor *)

Definition with__memmap_array (v : option memmap) (o : MemmapTensor) :=
  mkMemmapTensor (idx o) v (file o) (filename o) (_device o) (_shape o)
    (transfer_ownership o) (np_shape o) (_dtype o) (_tensor_dir o) (_ndim o)
    (_numel o) (mode o) (_has_ownership o).
Definition with_file (v : option tempfile._TemporaryFileWrapper) (o : MemmapTensor) :=
  mkMemmapTensor (idx o) (_memmap_array o) v (filename o) (_device o) (_shape o)
    (transfer_ownership o) (np_shape o) (_dtype o) (_tensor_dir o) (_ndim o)
    (_numel o) (mode o) (_has_ownership o).
Definition with_transfer_ownership (v : bool) (o : MemmapTensor) :=
  mkMemmapTensor (idx o) (_memmap_array o) (file o) (filename o) (_device o)
    (_shape o) v (np_shape o) (_dtype o) (_tensor_dir o) (_ndim o)
    (_numel o) (mode o) (_has_ownership o).
Definition with__has_ownership (v : bool) (o : MemmapTensor) :=
  mkMemmapTensor (idx o) (_memmap_array o) (file o) (filename o) (_device o)
    (_shape o) (transfer_ownership o) (np_shape o) (_dtype o) (_tensor_dir o)
    (_ndim o) (_numel o) (mode o) v.

(** Names in [dir] of a tensor: the attributes of a tensor that this
    file has something to say about.  The list torch returns has several
    hundred names more; it is cut down to these, so nothing below rests
    on a name being absent from it, only on these being present. *)
Definition Tensor___dir__ : list string :=
  ["requires_grad"; "__array__"; "shape"; "dtype"; "device"; "ndimension";
   "numel"; "cpu"; "numpy"; "clone"; "to"; "unbind"; "detach"; "contiguous";
   "__eq__"; "__getitem__"; "__setitem__"; "__dir__"].

(** [dir] of a [MemmapTensor]: the keys of its instance dictionary, the
    names the class defines, and those inherited from [object]. *)
Definition MemmapTensor___dir__ : list string :=
  ["idx"; "_memmap_array"; "file"; "filename"; "_device"; "_shape";
   "transfer_ownership"; "np_shape"; "_dtype"; "_tensor_dir"; "_ndim";
   "_numel"; "mode"; "_has_ownership";
   "__init__"; "_get_memmap_array"; "_set_memmap_array"; "memmap_array";
   "_save_item"; "_copy_item"; "_load_item"; "_np_to_tensor";
   "__torch_function__"; "_tensor"; "ndimension"; "numel"; "clone";
   "contiguous"; "device"; "dtype"; "shape"; "cpu"; "numpy"; "copy_";
   "set_transfer_ownership"; "__del__"; "__eq__"; "__getattr__"; "is_shared";
   "__add__"; "__truediv__"; "__neg__"; "__sub__"; "__matmul__"; "__mul__";
   "__pow__"; "__repr__"; "__getitem__"; "__setitem__"; "__setstate__";
   "__getstate__"; "__reduce__"; "to"; "unbind";
   "__module__"; "__doc__"; "__dict__"; "__weakref__"; "__hash__";
   "__class__"; "__delattr__"; "__dir__"; "__format__"; "__ge__";
   "__getattribute__"; "__gt__"; "__init_subclass__"; "__le__"; "__lt__";
   "__ne__"; "__new__"; "__reduce_ex__"; "__setattr__"; "__sizeof__";
   "__str__"; "__subclasshook__"].

Definition _get_memmap_array (self : nat) : M memmap :=
  o ← deref self;
  match _memmap_array o with
  | Some mm => mret mm
  | None =>
      mm ← np_memmap (filename o) (torch_to_numpy_dtype_dict (_dtype o))
             (mode o) (np_shape o);
      _ ← setobj self (with__memmap_array (Some mm) o);
      mret mm
  end.

Definition _np_to_tensor (self : nat) (memmap_array : ndarray) : M Tensor :=
  o ← deref self;
  torch_as_tensor memmap_array (_device o).

Definition _load_item (self : nat) (idx : option index)
    (memmap_array : option ndarray) : M Tensor :=
  memmap_array ←
    match memmap_array with
    | None => mm ← _get_memmap_array self; mret (memmap_view mm)
    | Some a => mret a
    end;
  memmap_array ←
    match idx with
    | Some i => ndarray_getitem memmap_array i
    | None => mret memmap_array
    end;
  _np_to_tensor self memmap_array.

(** The [_tensor] property *)
Definition _tensor (self : nat) : M Tensor := _load_item self None None.

(** [getattr(t, attr)] on a tensor *)
Definition Tensor_getattr (t : Tensor) (attr : string) : M pyval :=
  if decide (attr = "requires_grad") then mret (PyBool (t_requires_grad t))
  else if decide (attr ∈ Tensor___dir__) then mret (PyAttr t attr)
  else raise AttributeError.

(** Ordinary attribute lookup for a name in [dir(self)]. *)
Definition MemmapTensor___getattribute__ (self : nat) (attr : string) : M pyval :=
  o ← deref self;
  if decide (attr = "_tensor") then t ← _tensor self; mret (PyTensor t)
  else if decide (attr = "transfer_ownership") then mret (PyBool (transfer_ownership o))
  else if decide (attr = "_has_ownership") then mret (PyBool (_has_ownership o))
  else if decide (attr = "filename") then mret (PyStr (filename o))
  else if decide (attr = "_ndim") then mret (PyInt (Z.of_nat (_ndim o)))
  else if decide (attr = "_numel") then mret (PyInt (Z.of_nat (_numel o)))
  else if decide (attr ∈ MemmapTensor___dir__) then mret (PyOther attr)
  else raise AttributeError.

(** [__getattr__], called for a name that ordinary lookup did not find. *)
Definition MemmapTensor___getattr__ (self : nat) (attr : string) : M pyval :=
  o ← deref self;
  if decide (attr ∈ MemmapTensor___dir__) then
    MemmapTensor___getattribute__ self attr
  else if decide (attr ∉ _tensor_dir o) then raise AttributeError
  else t ← _tensor self; Tensor_getattr t attr.

(** What [_save_item] is given, by its annotation. *)
Inductive array_like :=
  | AL_Tensor (t : Tensor)
  | AL_MemmapTensor (l : nat)
  | AL_ndarray (a : ndarray).

(** numpy's conversion of the right-hand side of an assignment: an
    array is taken as it is, any other object through its [__array__]
    attribute, which a [MemmapTensor] only has through [__getattr__].
    When that lookup ends in [AttributeError] numpy goes on without the
    attribute and finds nothing it can store as a number. *)
Definition np_asarray (v : ndarray + nat) : M ndarray :=
  match v with
  | inl a => mret a
  | inr l =>
      m ← catch (MemmapTensor___getattr__ l "__array__")
            (λ e, if decide (e = AttributeError) then mret PyNone else raise e);
      match m with
      | PyAttr t _ => Tensor_numpy t
      | _ => raise TypeError
      end
  end.

Definition _save_item (self : nat) (value : array_like) (idx : option index)
  : M unit :=
  np_array ←
    match value with
    | AL_Tensor t => t' ← Tensor_cpu t; a ← Tensor_numpy t'; mret (inl a)
    | AL_ndarray a => mret (inl a)
    | AL_MemmapTensor l => mret (inr l)
    end;
  memmap_array ← _get_memmap_array self;
  src ← np_asarray np_array;
  match idx with
  | None => memmap_setitem memmap_array (ISlice None None) src
  | Some i => memmap_setitem memmap_array i src
  end.

Definition _copy_item (self : nat) (filename : string) : M unit :=
  o ← deref self;
  src ← np_memmap filename (torch_to_numpy_dtype_dict (_dtype o)) mode_r (np_shape o);
  memmap_array ← _get_memmap_array self;
  memmap_setitem memmap_array (ISlice None None) (memmap_view src).

(** Truth value of what [elem.requires_grad] evaluates to. *)
Definition truthy (v : pyval) : bool :=
  match v with
  | PyNone => false
  | PyBool b => b
  | PyInt z => negb (z =? 0)%Z
  | PyFloat q => negb (Qeq_bool q 0)
  | PyStr s => negb (bool_decide (s = ""))
  | _ => true
  end.

(** [elem.requires_grad]: an attribute of a tensor; a [MemmapTensor]
    does not define it, so the lookup ends in its [__getattr__]. *)
Definition getattr_requires_grad (elem : pyval) : M pyval :=
  match elem with
  | PyTensor t => mret (PyBool (t_requires_grad t))
  | PyMemmapTensor l => MemmapTensor___getattr__ l "requires_grad"
  | _ => raise AttributeError
  end.

(** [__init__].  [self] is the object [object.__new__] has just made; it
    has no attribute, and no entry in the heap, until the assignments
    below give it its dictionary.  [transfer_ownership] has its annotated
    type. *)
Definition MemmapTensor___init__ (self : nat) (elem : pyval)
    (transfer_ownership : bool) : M unit :=
  if negb (isinstance elem [C_Tensor; C_MemmapTensor]) then raise TypeError
  else
    rg ← getattr_requires_grad elem;
    if truthy rg then raise RuntimeError
    else
      file ← NamedTemporaryFile true;
      match elem with
      | PyTensor t =>
          _ ← setobj self
                (mkMemmapTensor None None (Some file) (tempfile.name file)
                   (t_device t) (t_shape t) transfer_ownership (t_shape t)
                   (t_dtype t) Tensor___dir__ (length (t_shape t))
                   (numel (t_shape t)) mode_rplus true);
          _save_item self (AL_Tensor t) None
      | PyMemmapTensor e =>
          eo ← deref e;
          _ ← setobj self
                (mkMemmapTensor None None (Some file) (tempfile.name file)
                   (_device eo) (_shape eo) transfer_ownership (_shape eo)
                   (_dtype eo) MemmapTensor___dir__ (_ndim eo) (_numel eo)
                   mode_rplus true);
          let prev_filename := filename eo in
          _ ← _copy_item self prev_filename;
          a ← _get_memmap_array self;
          b ← _get_memmap_array e;
          if decide (mm_id a = mm_id b) then raise RuntimeError else mret tt
      | _ => raise TypeError
      end.

(** [__del__]: [hasattr(self, "file")] holds once the object has its
    dictionary. *)
Definition MemmapTensor___del__ (self : nat) : M unit :=
  w ← get_world;
  match heap w !! self with
  | None => mret tt
  | Some o =>
      match file o with
      | None => raise AttributeError
      | Some f =>
          f' ← _TemporaryFileWrapper_close f;
          setobj self (with_file (Some f') o)
      end
  end.

(** The last reference to [self] goes away: [__del__] runs, an exception
    it raises is dropped, and the object is gone. *)
Definition destroy (self : nat) : M unit :=
  _ ← catch (MemmapTensor___del__ self) (λ _, mret tt);
  modify (λ w, set_heap (delete self (heap w)) w).

(** The call [MemmapTensor(elem, transfer_ownership)].  When [__init__]
    raises, nothing refers to the new object any more. *)
Definition MemmapTensor_new (elem : pyval) (transfer_ownership : bool) : M nat :=
  w ← get_world;
  let self := fresh (dom (heap w)) in
  _ ← catch (MemmapTensor___init__ self elem transfer_ownership)
        (λ e, _ ← destroy self; raise e);
  mret self.

Definition clone (self : nat) : M nat :=
  MemmapTensor_new (PyMemmapTensor self) false.

Definition copy_ (self : nat) (other : array_like) : M nat :=
  _ ← _save_item self other None;
  mret self.

Definition MemmapTensor_set_transfer_ownership (self : nat) (value : pyval)
  : M nat :=
  if negb (isinstance value [C_bool]) then raise TypeError
  else
    match value with
    | PyBool b =>
        o ← deref self;
        _ ← setobj self (with_transfer_ownership b o);
        mret self
    | _ => raise TypeError
    end.

(** [t == other] for a tensor [t].  A [MemmapTensor] operand is handed
    to [MemmapTensor.__torch_function__], which replaces it by its
    [_tensor] (evaluated once by [hasattr] and once for the value). *)
Definition Tensor___eq__ (t : Tensor) (other : pyval) : M Tensor :=
  match other with
  | PyMemmapTensor l => _ ← _tensor l; t2 ← _tensor l; torch_eq t t2
  | PyTensor t2 => torch_eq t t2
  | PyNdarray a =>
      torch_eq t (mkTensor (a_storage a) (a_offset a) (a_shape a) (a_dtype a)
                    cpu false)
  | PyBool b => torch_eq_scalar t (inject_Z (Z.b2z b))
  | PyInt z => torch_eq_scalar t (inject_Z z)
  | PyFloat q => torch_eq_scalar t q
  | _ => raise TypeError
  end.

Definition MemmapTensor___eq__ (self : nat) (other : pyval) : M Tensor :=
  if negb (isinstance other [C_MemmapTensor; C_Tensor; C_float; C_int; C_ndarray])
  then raise NotImplementedError
  else t ← _tensor self; Tensor___eq__ t other.

Definition MemmapTensor___getitem__ (self : nat) (item : index) : M Tensor :=
  t ← _load_item self None None;
  Tensor___getitem__ t item.

Definition MemmapTensor___setitem__ (self : nat) (idx : index) (value : Tensor)
  : M unit :=
  t ← _load_item self None None;
  _ ← Tensor___setitem__ t idx value;
  mret tt.

Definition MemmapTensor___setstate__ (self : nat) (state : MemmapTensor)
  : M unit :=
  state ←
    match file state with
    | None =>
        let delete := transfer_ownership state && _has_ownership state in
        let state := with__has_ownership delete state in
        tmpfile ← NamedTemporaryFile delete;
        let closer := tempfile._closer tmpfile in
        let tmpfile :=
          tempfile.mkWrapper (filename state) (tempfile.delete tmpfile)
            (tempfile.mkCloser (filename state) (tempfile.closer_delete closer)
               (tempfile.close_called closer)) in
        mret (with_file (Some tmpfile) state)
    | Some _ => mret state
    end;
  setobj self state.

Definition MemmapTensor___getstate__ (self : nat) : M MemmapTensor :=
  o ← deref self;
  let state := with__memmap_array None (with_file None o) in
  match file o with
  | None => raise AttributeError
  | Some f =>
      _ ← setobj self (with__has_ownership (tempfile.delete f) o);
      mret state
  end.

(** [object.__reduce__]: the state it records is what [__getstate__]
    returns. *)
Definition object___reduce__ (self : nat) : M MemmapTensor :=
  MemmapTensor___getstate__ self.

Definition MemmapTensor___reduce__ (self : nat) : M MemmapTensor :=
  o ← deref self;
  _ ← (if transfer_ownership o then
         match file o with
         | None => raise AttributeError
         | Some f =>
             let c := tempfile._closer f in
             setobj self
               (with_file
                  (Some (tempfile.mkWrapper (tempfile.name f) false
                           (tempfile.mkCloser (tempfile.closer_name c) false
                              (tempfile.close_called c)))) o)
         end
       else mret tt);
  object___reduce__ self.

(** Rebuilding an object from a recorded state: a new object, then
    [__setstate__]. *)
Definition unpickle (state : MemmapTensor) : M nat :=
  w ← get_world;
  let self := fresh (dom (heap w)) in
  _ ← MemmapTensor___setstate__ self state;
  mret self.

(** The module-level function. *)
Definition set_transfer_ownership (memmap : pyval) (value : pyval) : M unit :=
  if isinstance memmap [C_MemmapTensor] then
    match memmap with
    | PyMemmapTensor l => _ ← MemmapTensor_set_transfer_ownership l value; mret tt
    | _ => mret tt
    end
  else mret tt.

(** ** The rest of torch that the class calls *)

(** [t.clone()]: the same elements in memory of its own. *)
Definition Tensor_clone (t : Tensor) : M Tensor :=
  w ← get_world;
  mret (mkTensor (Memory (tensor_data w t)) 0 (t_shape t) (t_dtype t)
          (t_device t) (t_requires_grad t)).

(** [t.detach()]: the same memory, no gradient tracking. *)
Definition Tensor_detach (t : Tensor) : M Tensor :=
  mret (mkTensor (t_storage t) (t_offset t) (t_shape t) (t_dtype t)
          (t_device t) false).

(** [t.to(device)]: [t] itself when it is on that device already, a copy
    on the device otherwise. *)
Definition Tensor_to_device (t : Tensor) (dev : device) : M Tensor :=
  if decide (t_device t = dev) then mret t
  else
    w ← get_world;
    mret (mkTensor (Memory (tensor_data w t)) 0 (t_shape t) (t_dtype t) dev
            (t_requires_grad t)).

(** [t.to(dtype)]: [t] itself when it has that dtype already, a converted
    copy otherwise. *)
Definition Tensor_to_dtype (t : Tensor) (dt : dtype) : M Tensor :=
  if decide (t_dtype t = dt) then mret t
  else
    w ← get_world;
    mret (mkTensor (Memory (cast_elem dt <$> tensor_data w t)) 0 (t_shape t) dt
            (t_device t) (t_requires_grad t)).

(** The view [t[:, ..., :, i]] with [sv_dim] full slices before the
    index: the elements of [sv_base] whose index along dimension [sv_dim]
    is [sv_index].  It shares the memory of [sv_base]. *)
Record SelectView := mkSelectView {
  sv_base : Tensor;
  sv_dim : nat;
  sv_index : nat
}.

Definition select_shape (shape : list nat) (d : nat) : list nat :=
  take d shape ++ drop (S d) shape.

(** The elements, in row-major order, that have index [i] along
    dimension [d]. *)
Definition select_data (shape : list nat) (d i : nat) (data : list Z) : list Z :=
  let outer := numel (take d shape) in
  let n := default 0 (shape !! d) in
  let inner := numel (drop (S d) shape) in
  concat ((λ a, take inner (drop (a * n * inner + i * inner) data)) <$> seq 0 outer).

Definition view_shape (v : SelectView) : list nat :=
  select_shape (t_shape (sv_base v)) (sv_dim v).

Definition view_data (w : world) (v : SelectView) : list Z :=
  select_data (t_shape (sv_base v)) (sv_dim v) (sv_index v)
    (tensor_data w (sv_base v)).

(** [t[idx]] for the tuple [idx] of [d] full slices followed by the int
    [i]. *)
Definition Tensor_select (t : Tensor) (d : nat) (i : Z) : M SelectView :=
  match t_shape t !! d with
  | None => raise IndexError
  | Some n =>
      match normalize_int n i with
      | Some k => mret (mkSelectView t d k)
      | None => raise IndexError
      end
  end.

(** [shape[dim]] for a Python tuple and a Python int. *)
Definition tuple_getitem (shape : list nat) (dim : Z) : result nat :=
  match normalize_int (length shape) dim with
  | Some k =>
      match shape !! k with
      | Some n => Ok n
      | None => Raise IndexError
      end
  | None => Raise IndexError
  end.

(** [tuple(f(a) for a in l)] *)
Fixpoint for_each {A B} (f : A → M B) (l : list A) : M (list B) :=
  match l with
  | [] => mret []
  | a :: l => b ← f a; bs ← for_each f l; mret (b :: bs)
  end.

(** ** The rest of the module *)


Definition ndimension (self : nat) : M nat :=
  o ← deref self; mret (_ndim o).

Definition MemmapTensor_numel (self : nat) : M nat :=
  o ← deref self; mret (_numel o).

(** The properties [device], [dtype] and [shape]. *)
Definition MemmapTensor_device (self : nat) : M device :=
  o ← deref self; mret (_device o).

Definition MemmapTensor_dtype (self : nat) : M dtype :=
  o ← deref self; mret (_dtype o).

Definition MemmapTensor_shape (self : nat) : M (list nat) :=
  o ← deref self; mret (_shape o).

Definition contiguous (self : nat) : M Tensor :=
  t ← _tensor self;
  Tensor_clone t.

Definition MemmapTensor_cpu (self : nat) : M Tensor :=
  t ← _tensor self;
  Tensor_cpu t.

Definition MemmapTensor_numpy (self : nat) : M ndarray :=
  t ← _tensor self;
  Tensor_numpy t.

Definition is_shared (self : nat) : M bool := mret false.

(** What [to] may be given: a Python value, a [torch.device] or a
    [torch.dtype]. *)
Inductive to_dest :=
  | dest_value (v : pyval)
  | dest_device (d : device)
  | dest_dtype (dt : dtype).

(** [to].  [torch_device] is the constructor [torch.device] on an int or
    a string (which device a string names is torch's business). *)
Definition MemmapTensor_to (torch_device : pyval → result device)
    (self : nat) (dest : to_dest) : M (Tensor + nat) :=
  let on_device (dev : result device) : M (Tensor + nat) :=
    match dev with
    | Raise e => raise e
    | Ok d =>
        t ← _tensor self;
        t' ← Tensor_to_device t d;
        mret (inl t')
    end in
  match dest with
  | dest_value v =>
      if isinstance v [C_int; C_str] then on_device (torch_device v)
      else raise NotImplementedError
  | dest_device d => on_device (Ok d)
  | dest_dtype dt =>
      t ← _tensor self;
      t' ← Tensor_to_dtype t dt;
      l ← MemmapTensor_new (PyTensor t') false;
      mret (inr l)
  end.

(** [self[_idx]] for one of the tuples [unbind] builds. *)
Definition MemmapTensor___getitem___select (self : nat) (d : nat) (i : Z)
  : M SelectView :=
  t ← _load_item self None None;
  Tensor_select t d i.

(** The method [unbind].  [range(dim)] is empty for a negative [dim], so
    the tuples then hold the index alone. *)
Definition MemmapTensor_unbind (self : nat) (dim : Z) : M (list SelectView) :=
  o ← deref self;
  match tuple_getitem (_shape o) dim with
  | Raise e => raise e
  | Ok n =>
      for_each
        (λ i, MemmapTensor___getitem___select self (Z.to_nat dim) (Z.of_nat i))
        (seq 0 n)
  end.

(** The module-level [unbind], registered for [torch.unbind]. *)
Definition unbind (memmap : nat) (dim : Z) : M (list SelectView) :=
  MemmapTensor_unbind memmap dim.

(** * Vocabulary of the statements *)

(** Two dictionaries that agree on every key but [transfer_ownership]. *)
Definition same_but_transfer_ownership (o o' : MemmapTensor) : Prop :=
  idx o' = idx o ∧ _memmap_array o' = _memmap_array o ∧ file o' = file o ∧
  filename o' = filename o ∧ _device o' = _device o ∧ _shape o' = _shape o ∧
  np_shape o' = np_shape o ∧ _dtype o' = _dtype o ∧
  _tensor_dir o' = _tensor_dir o ∧ _ndim o' = _ndim o ∧ _numel o' = _numel o ∧
  mode o' = mode o ∧ _has_ownership o' = _has_ownership o.

(** A handle in good standing: its temporary-file object is open, will
    unlink the handle's own [filename], and both of its delete flags say
    what [_has_ownership] says.  [__init__] and [__setstate__] make
    handles so and the methods other than [__del__] keep them so (see
    [constructed_ok], [restored_ok], [transfer_on_serialization] and
    [same_but_memmap_array_ok]). *)
Definition handle_ok (o : MemmapTensor) : bool :=
  match file o with
  | None => false
  | Some f =>
      bool_decide (tempfile.delete f = _has_ownership o)
      && bool_decide (tempfile.closer_delete (tempfile._closer f) = _has_ownership o)
      && negb (tempfile.close_called (tempfile._closer f))
      && bool_decide (tempfile.closer_name (tempfile._closer f) = filename o)
  end.

(** The temporary-file object once [__reduce__] has cleared its flags. *)
Definition cleared (f : tempfile._TemporaryFileWrapper)
  : tempfile._TemporaryFileWrapper :=
  tempfile.mkWrapper (tempfile.name f) false
    (tempfile.mkCloser (tempfile.closer_name (tempfile._closer f)) false
       (tempfile.close_called (tempfile._closer f))).

(** The dictionary [__setstate__] installs for a recorded state. *)
Definition restored (state : MemmapTensor) : MemmapTensor :=
  let delete := transfer_ownership state && _has_ownership state in
  with_file
    (Some (tempfile.mkWrapper (filename state) delete
             (tempfile.mkCloser (filename state) delete false)))
    (with__has_ownership delete state).

(** Two dictionaries that agree on every key but [_memmap_array]. *)
Definition same_but_memmap_array (o o' : MemmapTensor) : Prop :=
  with__memmap_array None o' = with__memmap_array None o.

(** From [w] to [w']: no directory entry changed, every object is still
    there, the same but for the mapping it may have opened, and no object
    was added. *)
Definition quiet_step (w w' : world) : Prop :=
  fs_paths w' = fs_paths w ∧
  (∀ l o, heap w !! l = Some o →
          ∃ o', heap w' !! l = Some o' ∧ same_but_memmap_array o o') ∧
  (∀ l, heap w !! l = None → heap w' !! l = None).

(** A computation that only ever takes quiet steps, whatever it returns
    or raises. *)
Definition quiet {A} (m : M A) : Prop := ∀ w, quiet_step w (m w).2.

(** What a caller may go on doing with a handle. *)
Inductive handle_op :=
  | op_set_transfer_ownership (value : pyval)
  | op_reduce
  | op_copy_ (other : array_like)
  | op_getitem (item : index)
  | op_setitem (ix : index) (value : Tensor)
  | op_eq (other : pyval).

(** One such step; the caller catches what it raises. *)
Definition run_op (l : nat) (op : handle_op) : M unit :=
  catch
    match op with
    | op_set_transfer_ownership v =>
        _ ← MemmapTensor_set_transfer_ownership l v; mret tt
    | op_reduce => _ ← MemmapTensor___reduce__ l; mret tt
    | op_copy_ other => _ ← copy_ l other; mret tt
    | op_getitem item => _ ← MemmapTensor___getitem__ l item; mret tt
    | op_setitem ix v => MemmapTensor___setitem__ l ix v
    | op_eq other => _ ← MemmapTensor___eq__ l other; mret tt
    end
    (λ _, mret tt).

(** Any number of them, one after the other. *)
Fixpoint run_ops (l : nat) (ops : list handle_op) : M unit :=
  match ops with
  | [] => mret tt
  | op :: ops => _ ← run_op l op; run_ops l ops
  end.

(** The handle at [l] has given up its file. *)
Definition relinquished (l : nat) (w : world) : Prop :=
  ∃ o, heap w !! l = Some o ∧ handle_ok o = true ∧ _has_ownership o = false.

(** The dictionary of a [MemmapTensor] just built from the tensor [x] in
    the world [w]. *)
Definition constructed (w : world) (x : Tensor) (to : bool) : MemmapTensor :=
  let p : string := fresh (dom (fs_paths w)) in
  let i : nat := fresh (dom (fs_inodes w)) in
  mkMemmapTensor None
    (Some (mkMemmap (next_id w) i mode_rplus (t_dtype x) (t_shape x)))
    (Some (tempfile.mkWrapper p true (tempfile.mkCloser p true false))) p
    (t_device x) (t_shape x) to (t_shape x) (t_dtype x) Tensor___dir__
    (length (t_shape x)) (numel (t_shape x)) mode_rplus true.

(** A source tensor with something in it that the class can store: no
    gradient tracking, at least one dimension, at least one element, and
    its data is there to read. *)
Definition supported (w : world) (x : Tensor) : bool :=
  negb (t_requires_grad x)
  && bool_decide (t_shape x ≠ [])
  && bool_decide (0 < numel (t_shape x))
  && bool_decide (length (tensor_data w x) = numel (t_shape x)).

(** The inode a handle reads and writes: that of its open mapping, or the
    one its [filename] leads to while the mapping is still to be opened. *)
Definition handle_inode (w : world) (o : MemmapTensor) : option nat :=
  match _memmap_array o with
  | Some mm => Some (mm_ino mm)
  | None => fs_paths w !! filename o
  end.

(** The elements the handle maps. *)
Definition mapped_content (w : world) (o : MemmapTensor) : list Z :=
  match handle_inode w o with
  | Some ino => take (numel (np_shape o)) (storage_data w (Mapped ino))
  | None => []
  end.

(** The handle has a file of the right size behind it, and its open
    mapping, if any, is one that [_get_memmap_array] made earlier. *)
Definition mapping_ok (w : world) (o : MemmapTensor) : bool :=
  match handle_inode w o with
  | None => false
  | Some ino =>
      match fs_inodes w !! ino with
      | None => false
      | Some d =>
          bool_decide (0 < numel (np_shape o) ≤ length d)
          && match _memmap_array o with
             | Some mm =>
                 bool_decide (mm_shape mm = np_shape o ∧ mm_dtype mm = _dtype o
                              ∧ mm_mode mm = mode_rplus ∧ mm_id mm < next_id w)
             | None => bool_decide (mode o = mode_rplus)
             end
      end
  end.

(** What [_tensor] returns for a handle over inode [ino]: on the CPU a
    view of the file itself, on another device a copy of its content. *)
Definition materialised (w : world) (o : MemmapTensor) (ino : nat) : Tensor :=
  mkTensor
    match _device o with
    | cpu => Mapped ino
    | cuda _ => Memory (mapped_content w o)
    end
    0 (np_shape o) (_dtype o) (_device o) false.

(** A handle built from the tensor [[1, 2]] (int64, CPU) in the empty
    world; it is the object at location 0. *)
Definition demo_tensor : Tensor :=
  mkTensor (Memory [1; 2]%Z) 0 [2] torch_int64 cpu false.

Definition demo_world : world :=
  (MemmapTensor_new (PyTensor demo_tensor) false empty_world).2.

(** A write through the handle at [l], whose inode is [ino], changes at
    most the content of that inode and the handle's own cached mapping. *)
Definition write_frame (w w1 : world) (l ino : nat) : Prop :=
  fs_paths w1 = fs_paths w ∧
  next_id w ≤ next_id w1 ∧
  (∀ j, j ≠ ino → fs_inodes w1 !! j = fs_inodes w !! j) ∧
  (∀ l', l' ≠ l → heap w1 !! l' = heap w !! l').

Definition demo_cuda_tensor : Tensor :=
  mkTensor (Memory [1; 2]%Z) 0 [2] torch_int64 (cuda 0) false.

Definition seven (dev : device) : Tensor :=
  mkTensor (Memory [7]%Z) 0 [] torch_int64 dev false.

(** What [m[0]] holds after [m[0] = 7], for [m = MemmapTensor(x)]. *)
Definition setitem_then_getitem (x : Tensor) : result (list Z) :=
  ((m ← MemmapTensor_new (PyTensor x) false;
    _ ← MemmapTensor___setitem__ m (IInt 0) (seven (t_device x));
    t ← MemmapTensor___getitem__ m (IInt 0);
    w ← get_world;
    mret (tensor_data w t)) empty_world).1.

(** What [m[0]] holds after [m.copy_(v)] with [v = [7, 7]]. *)
Definition copy_then_getitem (x : Tensor) : result (list Z) :=
  ((m ← MemmapTensor_new (PyTensor x) false;
    _ ← copy_ m (AL_Tensor (mkTensor (Memory [7; 7]%Z) 0 [2] torch_int64
                              (t_device x) false));
    t ← MemmapTensor___getitem__ m (IInt 0);
    w ← get_world;
    mret (tensor_data w t)) empty_world).1.

(** The same handle as in [demo_world], built with
    [transfer_ownership=True]. *)
Definition demo_world_transfer : world :=
  (MemmapTensor_new (PyTensor demo_tensor) true empty_world).2.

(** A handle over the tensor [[[1, 2, 3], [4, 5, 6]]] (int64, CPU) in the
    empty world; it is the object at location 0. *)
Definition demo_matrix : Tensor :=
  mkTensor (Memory [1; 2; 3; 4; 5; 6]%Z) 0 [2; 3] torch_int64 cpu false.

Definition demo_world_matrix : world :=
  (MemmapTensor_new (PyTensor demo_matrix) false empty_world).2.

(** The same on a device other than the CPU. *)
Definition demo_world_cuda : world :=
  (MemmapTensor_new (PyTensor demo_cuda_tensor) false empty_world).2.

(** The state that [__reduce__] records for the handle of
    [demo_world_transfer], and the world it leaves. *)
Definition demo_state : MemmapTensor :=
  with__memmap_array None
    (with_file None (constructed empty_world demo_tensor true)).

Definition demo_world_reduced : world :=
  (MemmapTensor___reduce__ 0 demo_world_transfer).2.

(** The world with two handles over one file: the handle of
    [demo_world_transfer] at location 0 and the one restored from
    [demo_state] at location 1. *)
Definition demo_world_shared : world :=
  (unpickle demo_state demo_world_reduced).2.

Definition sevens : Tensor :=
  mkTensor (Memory [7; 7]%Z) 0 [2] torch_int64 cpu false.

(** What the accessors answer, taken together: [shape], [dtype],
    [device], [ndimension()] and [numel()]. *)
Definition describe (self : nat) : M (list nat * dtype * device * nat * nat) :=
  s ← MemmapTensor_shape self;
  dt ← MemmapTensor_dtype self;
  dev ← MemmapTensor_device self;
  nd ← ndimension self;
  ne ← MemmapTensor_numel self;
  mret (s, dt, dev, nd, ne).

(** Two dictionaries that describe the same array in the same file. *)
Definition same_metadata (o o' : MemmapTensor) : Prop :=
  _shape o' = _shape o ∧ _dtype o' = _dtype o ∧ _device o' = _device o ∧
  _ndim o' = _ndim o ∧ _numel o' = _numel o ∧ np_shape o' = np_shape o ∧
  filename o' = filename o.

(** * Properties *)

(** ** Running the monad *)

Lemma bind_ok {A B} (m : M A) (f : A → M B) w a w' :
  m w = (Ok a, w') → (m ≫= f) w = f a w'.
Proof. intros H. unfold mbind, M_bind. by rewrite H. Qed.

Lemma bind_raise {A B} (m : M A) (f : A → M B) w e w' :
  m w = (Raise e, w') → (m ≫= f) w = (Raise e, w').
Proof. intros H. unfold mbind, M_bind. by rewrite H. Qed.

Lemma catch_ok {A} (m : M A) h w a w' :
  m w = (Ok a, w') → catch m h w = (Ok a, w').
Proof. intros H. unfold catch. by rewrite H. Qed.

Lemma catch_raise {A} (m : M A) h w e w' :
  m w = (Raise e, w') → catch m h w = h e w'.
Proof. intros H. unfold catch. by rewrite H. Qed.

Lemma deref_ok w l o : heap w !! l = Some o → deref l w = (Ok o, w).
Proof. intros H. unfold deref. by rewrite H. Qed.

Lemma deref_none w l : heap w !! l = None → deref l w = (Raise ReferenceError, w).
Proof. intros H. unfold deref. by rewrite H. Qed.

Lemma set_heap_id w : set_heap (heap w) w = w.
Proof. by destruct w. Qed.

Lemma fresh_loc_free w : heap w !! fresh (dom (heap w)) = None.
Proof. apply not_elem_of_dom, is_fresh. Qed.

Lemma fresh_path_free w : fs_paths w !! fresh (dom (fs_paths w)) = None.
Proof. apply not_elem_of_dom, is_fresh. Qed.

Lemma fresh_inode_free w : fs_inodes w !! fresh (dom (fs_inodes w)) = None.
Proof. apply not_elem_of_dom, is_fresh. Qed.

(** ** set_transfer_ownership *)

Lemma isinstance_bool v :
  isinstance v [C_bool] = true ↔ ∃ b, v = PyBool b.
Proof.
  split.
  - destruct v; cbn; try discriminate. eauto.
  - intros [b ->]. reflexivity.
Qed.

Lemma isinstance_MemmapTensor v :
  isinstance v [C_MemmapTensor] = true ↔ ∃ l, v = PyMemmapTensor l.
Proof.
  split.
  - destruct v; cbn; try discriminate. eauto.
  - intros [l ->]. reflexivity.
Qed.

(** C9.  On a live handle [l], the method [set_transfer_ownership(value)]
    raises [TypeError] and changes nothing when [value] is not a [bool];
    for a [bool] it returns [l] itself, the object at [l] then has
    [transfer_ownership] equal to that value and every other attribute as
    before, and neither another object nor the file system changes. *)
Theorem set_transfer_ownership_method (w : world) (l : nat) (o : MemmapTensor)
    (value : pyval) :
  heap w !! l = Some o →
  (isinstance value [C_bool] = false →
     MemmapTensor_set_transfer_ownership l value w = (Raise TypeError, w)) ∧
  (∀ b, value = PyBool b →
     ∃ w' o',
       MemmapTensor_set_transfer_ownership l value w = (Ok l, w') ∧
       heap w' !! l = Some o' ∧
       transfer_ownership o' = b ∧
       same_but_transfer_ownership o o' ∧
       (∀ l', l' ≠ l → heap w' !! l' = heap w !! l') ∧
       fs_paths w' = fs_paths w ∧ fs_inodes w' = fs_inodes w ∧
       next_id w' = next_id w).
Proof.
  intros Hl. split.
  - intros Hv. unfold MemmapTensor_set_transfer_ownership. by rewrite Hv.
  - intros b ->. unfold MemmapTensor_set_transfer_ownership.
    rewrite (proj2 (isinstance_bool _)) by eauto. cbn [negb].
    rewrite (bind_ok _ _ _ _ _ (deref_ok _ _ _ Hl)).
    eexists _, _. split; [reflexivity|]. cbn.
    rewrite lookup_insert_eq. split; [reflexivity|].
    split; [reflexivity|]. split; [by repeat split|].
    split; [|done]. intros l' Hne. by rewrite lookup_insert_ne.
Qed.

Lemma set_transfer_ownership_method_witness :
  ∃ w l o,
    heap w !! l = Some o ∧
    MemmapTensor_set_transfer_ownership l (PyInt 1) w = (Raise TypeError, w) ∧
    ∃ w' o', MemmapTensor_set_transfer_ownership l (PyBool true) w = (Ok l, w') ∧
             heap w' !! l = Some o' ∧ transfer_ownership o' = true.
Proof.
  set (o := mkMemmapTensor None None None "f" cpu [2] false [2] torch_int64
              Tensor___dir__ 1 2 mode_rplus true).
  set (w := mkWorld ∅ ∅ {[ 0 := o ]} 0).
  assert (Hl : heap w !! 0 = Some o) by (vm_compute; reflexivity).
  exists w, 0, o. split; [exact Hl|]. split.
  - apply (proj1 (set_transfer_ownership_method w 0 o (PyInt 1) Hl)).
    reflexivity.
  - destruct (proj2 (set_transfer_ownership_method w 0 o (PyBool true) Hl)
                true eq_refl) as (w' & o' & H1 & H2 & H3 & _).
    exists w', o'. auto.
Defined.

(** C10.  The module-level [set_transfer_ownership(memmap, value)]
    returns [None] without raising and leaves the world as it was when
    [memmap] is not a [MemmapTensor]; for a [MemmapTensor] it does what
    the method of that name does, result dropped. *)
Theorem set_transfer_ownership_function (w : world) (memmap value : pyval) :
  (isinstance memmap [C_MemmapTensor] = false →
     set_transfer_ownership memmap value w = (Ok tt, w)) ∧
  (∀ l, memmap = PyMemmapTensor l →
     set_transfer_ownership memmap value w =
       match MemmapTensor_set_transfer_ownership l value w with
       | (Ok _, w') => (Ok tt, w')
       | (Raise e, w') => (Raise e, w')
       end).
Proof.
  split.
  - intros H. unfold set_transfer_ownership. by rewrite H.
  - intros l ->. unfold set_transfer_ownership. cbn [isinstance type_of existsb].
    replace (issubclass C_MemmapTensor C_MemmapTensor || false) with true
      by reflexivity.
    unfold mbind, M_bind.
    by destruct (MemmapTensor_set_transfer_ownership l value w) as [[?|?] ?].
Qed.

Lemma set_transfer_ownership_function_witness :
  set_transfer_ownership (PyStr "memmap") (PyBool true) empty_world
    = (Ok tt, empty_world) ∧
  set_transfer_ownership (PyMemmapTensor 0) (PyInt 3) empty_world
    = (Raise TypeError, empty_world).
Proof.
  split.
  - apply (proj1 (set_transfer_ownership_function empty_world
                    (PyStr "memmap") (PyBool true))).
    reflexivity.
  - rewrite (proj2 (set_transfer_ownership_function empty_world
                      (PyMemmapTensor 0) (PyInt 3)) 0 eq_refl).
    reflexivity.
Defined.

(** ** Construction *)

Lemma destroy_unallocated w l :
  heap w !! l = None → destroy l w = (Ok tt, w).
Proof.
  intros H. unfold destroy, catch, MemmapTensor___del__, get_world, modify.
  unfold mbind, M_bind. rewrite H. cbn.
  f_equal. rewrite delete_id by done. apply set_heap_id.
Qed.

(** A constructor call whose [__init__] raises before the object has any
    attribute leaves no trace. *)
Lemma MemmapTensor_new_early_raise w elem to e :
  MemmapTensor___init__ (fresh (dom (heap w))) elem to w = (Raise e, w) →
  MemmapTensor_new elem to w = (Raise e, w).
Proof.
  intros H. unfold MemmapTensor_new, get_world.
  unfold mbind at 1. unfold M_bind at 1.
  erewrite bind_raise; [reflexivity|].
  erewrite catch_raise by exact H.
  erewrite bind_ok by (apply destroy_unallocated, fresh_loc_free).
  reflexivity.
Qed.

(** C7.  [MemmapTensor(elem)] raises [TypeError] when [elem] is neither a
    [torch.Tensor] nor a [MemmapTensor], and [RuntimeError] (the module's
    gradient-tracking error) when [elem] is a tensor with [requires_grad];
    in both cases the world, hence the file system, is unchanged: no
    backing file is created. *)
Theorem construction_rejects (w : world) (elem : pyval) (to : bool) :
  (isinstance elem [C_Tensor; C_MemmapTensor] = false →
     MemmapTensor_new elem to w = (Raise TypeError, w)) ∧
  (∀ t, elem = PyTensor t → t_requires_grad t = true →
     MemmapTensor_new elem to w = (Raise RuntimeError, w)).
Proof.
  split.
  - intros H. apply MemmapTensor_new_early_raise.
    unfold MemmapTensor___init__. by rewrite H.
  - intros t -> Hg. apply MemmapTensor_new_early_raise.
    unfold MemmapTensor___init__. cbn. by rewrite Hg.
Qed.

Lemma construction_rejects_witness :
  MemmapTensor_new (PyStr "abc") false empty_world
    = (Raise TypeError, empty_world) ∧
  MemmapTensor_new
    (PyTensor (mkTensor (Memory [1; 2]%Z) 0 [2] torch_int64 cpu true))
    false empty_world
    = (Raise RuntimeError, empty_world).
Proof.
  split.
  - apply (proj1 (construction_rejects empty_world (PyStr "abc") false)).
    reflexivity.
  - apply (proj2 (construction_rejects empty_world
                    (PyTensor (mkTensor (Memory [1; 2]%Z) 0 [2] torch_int64
                                 cpu true)) false) _ eq_refl).
    reflexivity.
Defined.

(** ** Ownership across serialization *)

Lemma handle_ok_inv o :
  handle_ok o = true →
  ∃ f, file o = Some f ∧
       tempfile.delete f = _has_ownership o ∧
       tempfile.closer_delete (tempfile._closer f) = _has_ownership o ∧
       tempfile.close_called (tempfile._closer f) = false ∧
       tempfile.closer_name (tempfile._closer f) = filename o.
Proof.
  unfold handle_ok. destruct (file o) as [f|]; [|discriminate].
  rewrite !andb_true_iff, !bool_decide_eq_true, negb_true_iff.
  intros [[[? ?] ?] ?]. eauto 10.
Qed.

Lemma getstate_spec w l o f :
  heap w !! l = Some o → file o = Some f →
  MemmapTensor___getstate__ l w =
    (Ok (with__memmap_array None (with_file None o)),
     set_heap (<[l := with__has_ownership (tempfile.delete f) o]> (heap w)) w).
Proof.
  intros Hl Hf. unfold MemmapTensor___getstate__.
  rewrite (bind_ok _ _ _ _ _ (deref_ok _ _ _ Hl)). by rewrite Hf.
Qed.

Lemma reduce_spec w l o f :
  heap w !! l = Some o → file o = Some f →
  MemmapTensor___reduce__ l w =
    (Ok (with__memmap_array None (with_file None o)),
     set_heap
       (<[l := if transfer_ownership o
               then with__has_ownership false (with_file (Some (cleared f)) o)
               else with__has_ownership (tempfile.delete f) o]> (heap w)) w).
Proof.
  intros Hl Hf. unfold MemmapTensor___reduce__, object___reduce__.
  rewrite (bind_ok _ _ _ _ _ (deref_ok _ _ _ Hl)).
  destruct (transfer_ownership o) eqn:Ht.
  - rewrite Hf.
    set (w1 := set_heap (<[l := with_file (Some (cleared f)) o]> (heap w)) w).
    assert (H1 : setobj l (with_file (Some (cleared f)) o) w = (Ok tt, w1))
      by reflexivity.
    unfold cleared in H1. rewrite (bind_ok _ _ _ _ _ H1). fold (cleared f).
    rewrite (getstate_spec w1 l (with_file (Some (cleared f)) o) (cleared f));
      [|by (subst w1; cbn; rewrite lookup_insert_eq)|done].
    subst w1. cbn. by rewrite insert_insert_eq.
  - erewrite bind_ok by reflexivity. by apply getstate_spec.
Qed.

Lemma unpickle_spec w state :
  file state = None →
  unpickle state w =
    (Ok (fresh (dom (heap w))),
     set_heap (<[fresh (dom (heap w)) := restored state]> (heap w))
       (set_paths (<[fresh (dom (fs_paths w)) := fresh (dom (fs_inodes w))]>
                     (fs_paths w))
          (set_inodes (<[fresh (dom (fs_inodes w)) := []]> (fs_inodes w)) w))).
Proof.
  intros Hf. unfold unpickle, MemmapTensor___setstate__. by rewrite Hf.
Qed.

Lemma restored_ok state : handle_ok (restored state) = true.
Proof.
  unfold handle_ok, restored. cbn.
  by rewrite !bool_decide_eq_true_2.
Qed.

(** ** Destruction *)

Lemma set_paths_id w : set_paths (fs_paths w) w = w.
Proof. by destruct w. Qed.

Lemma destroy_spec w l o :
  heap w !! l = Some o → handle_ok o = true →
  destroy l w =
    (Ok tt,
     set_heap (delete l (heap w))
       (set_paths (if _has_ownership o then delete (filename o) (fs_paths w)
                   else fs_paths w) w)).
Proof.
  intros Hl Hok.
  destruct (handle_ok_inv o Hok) as (f & Hf & Hd & Hcd & Hcc & Hcn).
  unfold destroy, catch, MemmapTensor___del__, get_world,
    _TemporaryFileWrapper_close, _TemporaryFileCloser_close, os_unlink,
    setobj, modify, mbind, M_bind, mret, M_ret.
  rewrite Hl, Hf, Hcc, Hcd, Hcn.
  destruct (_has_ownership o) eqn:Hown.
  - destruct (fs_paths w !! filename o) as [ino|] eqn:Hp; cbn.
    + by rewrite delete_insert_eq.
    + rewrite (delete_id (fs_paths w)) by done. by rewrite set_paths_id.
  - cbn. rewrite delete_insert_eq. by rewrite set_paths_id.
Qed.

(** C3.  Destroying a live handle in good standing succeeds; when its
    [_has_ownership] flag is true the backing file's directory entry is
    gone afterwards and no other entry changes, and when the flag is
    false every directory entry, that of the backing file included, is as
    before.  File contents are untouched either way. *)
Theorem destroy_deletes_iff_owner (w : world) (l : nat) (o : MemmapTensor) :
  heap w !! l = Some o → handle_ok o = true →
  ∃ w',
    destroy l w = (Ok tt, w') ∧
    heap w' !! l = None ∧
    fs_inodes w' = fs_inodes w ∧
    (_has_ownership o = true →
       fs_paths w' !! filename o = None ∧
       ∀ p, p ≠ filename o → fs_paths w' !! p = fs_paths w !! p) ∧
    (_has_ownership o = false → fs_paths w' = fs_paths w).
Proof.
  intros Hl Hok. eexists. split; [by apply destroy_spec|].
  cbn. split; [apply lookup_delete_eq|]. split; [done|]. split.
  - intros ->. split; [apply lookup_delete_eq|].
    intros p Hp. by rewrite lookup_delete_ne.
  - by intros ->.
Qed.

(** C1.  Pickling a live handle in good standing and rebuilding a handle
    from the recorded state both succeed, whether or not the handle owns
    its file.  The recorded state carries the handle's [transfer_ownership]
    and [_has_ownership] as they were, and the rebuilt handle's
    [_has_ownership] is the conjunction of the two, with its
    temporary-file object set up to match; so a handle that does not own
    its file hands on nothing, whatever its [transfer_ownership].  The
    original is left without ownership when [transfer_ownership] is true
    and exactly as it was when it is false.  For a handle that owns its
    file this means: with [transfer_ownership] true the rebuilt handle
    owns the file and the original does not any more; with
    [transfer_ownership] false the original is still the owner and the
    rebuilt handle does not own the file. *)
Theorem transfer_on_serialization (w : world) (l : nat) (o : MemmapTensor) :
  heap w !! l = Some o → handle_ok o = true →
  ∃ state w1 l2 w2 o1 o2,
    MemmapTensor___reduce__ l w = (Ok state, w1) ∧
    unpickle state w1 = (Ok l2, w2) ∧
    l2 ≠ l ∧
    heap w1 !! l = Some o1 ∧ heap w2 !! l = Some o1 ∧ heap w2 !! l2 = Some o2 ∧
    handle_ok o1 = true ∧ handle_ok o2 = true ∧
    filename o2 = filename o ∧
    transfer_ownership state = transfer_ownership o ∧
    _has_ownership state = _has_ownership o ∧
    _has_ownership o2 = transfer_ownership state && _has_ownership state ∧
    (transfer_ownership o = true → _has_ownership o1 = false) ∧
    (transfer_ownership o = false → o1 = o) ∧
    (_has_ownership o = true →
       (transfer_ownership o = true →
          _has_ownership o2 = true ∧ _has_ownership o1 = false) ∧
       (transfer_ownership o = false →
          _has_ownership o1 = true ∧ _has_ownership o2 = false)) ∧
    (_has_ownership o = false →
       _has_ownership o2 = false ∧ _has_ownership o1 = false).
Proof.
  intros Hl Hok.
  destruct (handle_ok_inv o Hok) as (f & Hf & Hd & Hcd & Hcc & Hcn).
  pose proof (reduce_spec w l o f Hl Hf) as Hred.
  set (o1 := if transfer_ownership o
             then with__has_ownership false (with_file (Some (cleared f)) o)
             else with__has_ownership (tempfile.delete f) o) in Hred.
  set (w1 := set_heap (<[l := o1]> (heap w)) w) in Hred.
  set (state := with__memmap_array None (with_file None o)) in Hred.
  pose proof (unpickle_spec w1 state eq_refl) as Hun.
  assert (Hl1 : heap w1 !! l = Some o1) by (subst w1; cbn; apply lookup_insert_eq).
  assert (Hne : fresh (dom (heap w1)) ≠ l).
  { intros E. pose proof (fresh_loc_free w1) as Hfr. rewrite E in Hfr. congruence. }
  assert (Hkeep : transfer_ownership o = false → o1 = o).
  { intros Ht. subst o1. rewrite Ht, Hd. by destruct o. }
  assert (Hgive : transfer_ownership o = true → _has_ownership o1 = false).
  { intros Ht. subst o1. by rewrite Ht. }
  eexists state, w1, _, _, o1, (restored state).
  split; [exact Hred|]. split; [exact Hun|]. split; [exact Hne|].
  split; [exact Hl1|]. cbn [heap set_heap set_paths set_inodes].
  split; [by rewrite lookup_insert_ne|].
  split; [by rewrite lookup_insert_eq|].
  split.
  { subst o1. unfold handle_ok. destruct (transfer_ownership o); cbn.
    - rewrite Hcc, Hcn. cbn. by rewrite !bool_decide_eq_true_2.
    - rewrite Hf, Hcc, Hcn, Hcd. cbn. by rewrite !bool_decide_eq_true_2. }
  split; [apply restored_ok|]. do 4 (split; [reflexivity|]).
  split; [exact Hgive|]. split; [exact Hkeep|]. split.
  - intros Hown. split.
    + intros Ht. split; [|by apply Hgive]. subst state. cbn. by rewrite Ht, Hown.
    + intros Ht. rewrite (Hkeep Ht). split; [exact Hown|].
      subst state. cbn. by rewrite Ht.
  - intros Hown. split.
    + subst state. cbn. rewrite Hown. apply andb_false_r.
    + destruct (transfer_ownership o) eqn:Ht; [by apply Hgive|].
      by rewrite (Hkeep eq_refl).
Qed.

(** ** Methods that leave ownership alone *)

Lemma quiet_step_refl w : quiet_step w w.
Proof. split; [done|]. split; [|done]. intros l o H. by exists o. Qed.

Lemma quiet_step_trans w1 w2 w3 :
  quiet_step w1 w2 → quiet_step w2 w3 → quiet_step w1 w3.
Proof.
  intros (P1 & H1 & N1) (P2 & H2 & N2). split; [congruence|].
  split; [|by auto].
  intros l o Hl. destruct (H1 l o Hl) as (o' & Hl' & E1).
  destruct (H2 l o' Hl') as (o'' & Hl'' & E2).
  exists o''. split; [done|]. unfold same_but_memmap_array in *. congruence.
Qed.

Lemma quiet_step_heap w w' :
  fs_paths w' = fs_paths w → heap w' = heap w → quiet_step w w'.
Proof.
  intros P H. split; [done|]. split; [|by rewrite H].
  intros l o Hl. exists o. by rewrite H.
Qed.

Lemma quiet_ret {A} (a : A) : quiet (mret a).
Proof. intros w. apply quiet_step_refl. Qed.

Lemma quiet_raise {A} e : quiet (@raise A e).
Proof. intros w. apply quiet_step_refl. Qed.

Lemma quiet_get_world : quiet get_world.
Proof. intros w. apply quiet_step_refl. Qed.

Lemma quiet_deref l : quiet (deref l).
Proof. intros w. unfold deref. destruct (heap w !! l); apply quiet_step_refl. Qed.

Lemma quiet_bind {A B} (m : M A) (f : A → M B) :
  quiet m → (∀ a, quiet (f a)) → quiet (m ≫= f).
Proof.
  intros Hm Hf w. unfold mbind, M_bind. specialize (Hm w).
  destruct (m w) as [[a|e] w']; [|done].
  eapply quiet_step_trans; [exact Hm|apply Hf].
Qed.

Lemma quiet_catch {A} (m : M A) h :
  quiet m → (∀ e, quiet (h e)) → quiet (catch m h).
Proof.
  intros Hm Hh w. unfold catch. specialize (Hm w).
  destruct (m w) as [[a|e] w']; [done|].
  eapply quiet_step_trans; [exact Hm|apply Hh].
Qed.

Lemma quiet_modify_inodes (g : world → gmap nat (list Z)) :
  quiet (modify (λ w, set_inodes (g w) w)).
Proof. intros w. by apply quiet_step_heap. Qed.

Lemma quiet_np_memmap filename dt md shape : quiet (np_memmap filename dt md shape).
Proof.
  intros w. unfold np_memmap.
  destruct (fs_paths w !! filename); [|apply quiet_step_refl].
  repeat case_decide; try apply quiet_step_refl. by apply quiet_step_heap.
Qed.

Lemma quiet__get_memmap_array self : quiet (_get_memmap_array self).
Proof.
  intros w. unfold _get_memmap_array, deref, mbind, M_bind.
  destruct (heap w !! self) as [o|] eqn:Hs; [|apply quiet_step_refl].
  destruct (_memmap_array o); [apply quiet_step_refl|].
  pose proof (quiet_np_memmap (filename o) (torch_to_numpy_dtype_dict (_dtype o))
                (mode o) (np_shape o) w) as Hq.
  destruct (np_memmap _ _ _ _ w) as [[mm|e] w']; [|done].
  cbn in *. destruct Hq as (Hp & Hq & Hn). split; [done|]. split.
  - intros l o' Hl. unfold set_heap; cbn [heap].
    destruct (decide (l = self)) as [->|Hne].
    + rewrite lookup_insert_eq. eexists. split; [done|].
      rewrite Hs in Hl. by injection Hl as <-.
    + rewrite lookup_insert_ne by done. by apply Hq.
  - intros l Hl. unfold set_heap; cbn [heap].
    rewrite lookup_insert_ne by congruence. by apply Hn.
Qed.

Create HintDb quiet.
Hint Resolve quiet_ret quiet_raise quiet_get_world quiet_deref
  quiet_modify_inodes quiet_np_memmap quiet__get_memmap_array : quiet.

Ltac quiet_tac :=
  repeat first
    [ progress intros
    | apply quiet_ret | apply quiet_raise
    | solve [eauto with quiet]
    | apply quiet_bind
    | apply quiet_catch
    | case_match ].

Lemma quiet_storage_write s off new : quiet (storage_write s off new).
Proof. unfold storage_write. quiet_tac. Qed.
Hint Resolve quiet_storage_write : quiet.

Lemma quiet_memmap_setitem mm ix src : quiet (memmap_setitem mm ix src).
Proof. unfold memmap_setitem. quiet_tac. Qed.
Hint Resolve quiet_memmap_setitem : quiet.

Lemma quiet_ndarray_getitem a ix : quiet (ndarray_getitem a ix).
Proof. unfold ndarray_getitem. quiet_tac. Qed.
Hint Resolve quiet_ndarray_getitem : quiet.

Lemma quiet_torch_as_tensor a dev : quiet (torch_as_tensor a dev).
Proof. unfold torch_as_tensor. quiet_tac. Qed.
Hint Resolve quiet_torch_as_tensor : quiet.

Lemma quiet_Tensor___getitem__ t ix : quiet (Tensor___getitem__ t ix).
Proof. unfold Tensor___getitem__. quiet_tac. Qed.
Lemma quiet_Tensor___setitem__ t ix v : quiet (Tensor___setitem__ t ix v).
Proof. unfold Tensor___setitem__. quiet_tac. Qed.
Lemma quiet_Tensor_cpu t : quiet (Tensor_cpu t).
Proof. unfold Tensor_cpu. quiet_tac. Qed.
Lemma quiet_Tensor_numpy t : quiet (Tensor_numpy t).
Proof. unfold Tensor_numpy. quiet_tac. Qed.
Lemma quiet_torch_eq t1 t2 : quiet (torch_eq t1 t2).
Proof. unfold torch_eq. quiet_tac. Qed.
Lemma quiet_torch_eq_scalar t q : quiet (torch_eq_scalar t q).
Proof. unfold torch_eq_scalar. quiet_tac. Qed.
Hint Resolve quiet_Tensor___getitem__ quiet_Tensor___setitem__ quiet_Tensor_cpu
  quiet_Tensor_numpy quiet_torch_eq quiet_torch_eq_scalar : quiet.

Lemma quiet__load_item self idx a : quiet (_load_item self idx a).
Proof. unfold _load_item, _np_to_tensor. quiet_tac. Qed.
Hint Resolve quiet__load_item : quiet.

Lemma quiet__tensor self : quiet (_tensor self).
Proof. apply quiet__load_item. Qed.
Hint Resolve quiet__tensor : quiet.

Lemma quiet___getattr__ self attr : quiet (MemmapTensor___getattr__ self attr).
Proof.
  unfold MemmapTensor___getattr__, MemmapTensor___getattribute__, Tensor_getattr.
  quiet_tac.
Qed.
Hint Resolve quiet___getattr__ : quiet.

Lemma quiet__save_item self value idx : quiet (_save_item self value idx).
Proof. unfold _save_item, np_asarray. quiet_tac. Qed.
Hint Resolve quiet__save_item : quiet.

Lemma quiet_copy_ self other : quiet (copy_ self other).
Proof. unfold copy_. quiet_tac. Qed.

Lemma quiet___getitem__ self item : quiet (MemmapTensor___getitem__ self item).
Proof. unfold MemmapTensor___getitem__. quiet_tac. Qed.

Lemma quiet___setitem__ self ix v : quiet (MemmapTensor___setitem__ self ix v).
Proof. unfold MemmapTensor___setitem__. quiet_tac. Qed.

Lemma quiet___eq__ self other : quiet (MemmapTensor___eq__ self other).
Proof. unfold MemmapTensor___eq__, Tensor___eq__. quiet_tac. Qed.

Lemma same_but_memmap_array_ok o o' :
  same_but_memmap_array o o' →
  handle_ok o' = handle_ok o ∧ _has_ownership o' = _has_ownership o.
Proof.
  unfold same_but_memmap_array. intros E.
  assert (Hf : file o' = file o) by exact (f_equal file E).
  assert (Hn : filename o' = filename o) by exact (f_equal filename E).
  assert (Hh : _has_ownership o' = _has_ownership o)
    by exact (f_equal _has_ownership E).
  unfold handle_ok. by rewrite Hf, Hn, Hh.
Qed.

Lemma quiet_relinquished {A} (m : M A) l w :
  quiet m → relinquished l w → relinquished l (m w).2.
Proof.
  intros Hq (o & Hl & Hok & Hown). destruct (Hq w) as (_ & Hobj & _).
  destruct (Hobj l o Hl) as (o' & Hl' & E).
  destruct (same_but_memmap_array_ok o o' E) as [E1 E2].
  exists o'. split; [done|]. split; congruence.
Qed.

Lemma quiet_paths {A} (m : M A) w : quiet m → fs_paths (m w).2 = fs_paths w.
Proof. intros Hq. by destruct (Hq w). Qed.

Lemma set_transfer_ownership_relinquished l v w :
  relinquished l w →
  relinquished l (MemmapTensor_set_transfer_ownership l v w).2 ∧
  fs_paths (MemmapTensor_set_transfer_ownership l v w).2 = fs_paths w.
Proof.
  intros (o & Hl & Hok & Hown). unfold MemmapTensor_set_transfer_ownership.
  destruct (negb (isinstance v [C_bool])); [by split; [exists o|]|].
  destruct v; try by (split; [exists o|]).
  rewrite (bind_ok _ _ _ _ _ (deref_ok _ _ _ Hl)).
  unfold setobj, modify, mbind, M_bind, mret, M_ret, set_heap. cbn.
  split; [|done].
  eexists. simpl. rewrite lookup_insert_eq. split; [done|]. by split.
Qed.

Lemma reduce_relinquished l w :
  relinquished l w →
  relinquished l (MemmapTensor___reduce__ l w).2 ∧
  fs_paths (MemmapTensor___reduce__ l w).2 = fs_paths w.
Proof.
  intros (o & Hl & Hok & Hown).
  destruct (handle_ok_inv o Hok) as (f & Hf & Hd & Hcd & Hcc & Hcn).
  rewrite (reduce_spec w l o f Hl Hf). unfold set_heap. cbn. split; [|done].
  eexists. simpl. rewrite lookup_insert_eq. split; [done|].
  unfold handle_ok. destruct (transfer_ownership o); cbn.
  - rewrite Hcc, Hcn. cbn. by rewrite !bool_decide_eq_true_2.
  - rewrite Hf, Hcc, Hcn, Hcd, Hd, Hown. cbn. by rewrite !bool_decide_eq_true_2.
Qed.

Lemma run_op_relinquished l op w :
  relinquished l w →
  ∃ w', run_op l op w = (Ok tt, w') ∧ relinquished l w' ∧
        fs_paths w' = fs_paths w.
Proof.
  intros Hr.
  assert (Hgen : ∀ (m : M unit),
            relinquished l (m w).2 → fs_paths (m w).2 = fs_paths w →
            ∃ w', catch m (λ _, mret tt) w = (Ok tt, w') ∧ relinquished l w' ∧
                  fs_paths w' = fs_paths w).
  { intros m H1 H2. unfold catch. destruct (m w) as [[[]|e] w']; by eexists. }
  assert (Hbind : ∀ {A} (m : M A),
            relinquished l (m w).2 → fs_paths (m w).2 = fs_paths w →
            relinquished l ((m ≫= λ _, mret tt) w).2 ∧
            fs_paths ((m ≫= λ _, mret tt) w).2 = fs_paths w).
  { intros A m H1 H2. unfold mbind, M_bind. by destruct (m w) as [[a|e] w']. }
  unfold run_op. destruct op; apply Hgen.
  - by apply Hbind; apply set_transfer_ownership_relinquished.
  - by apply Hbind; apply set_transfer_ownership_relinquished.
  - by apply Hbind; apply reduce_relinquished.
  - by apply Hbind; apply reduce_relinquished.
  - apply Hbind; [apply quiet_relinquished|apply quiet_paths]; auto using quiet_copy_.
  - apply Hbind; [apply quiet_relinquished|apply quiet_paths]; auto using quiet_copy_.
  - apply Hbind; [apply quiet_relinquished|apply quiet_paths]; auto using quiet___getitem__.
  - apply Hbind; [apply quiet_relinquished|apply quiet_paths]; auto using quiet___getitem__.
  - apply quiet_relinquished; auto using quiet___setitem__.
  - apply quiet_paths; auto using quiet___setitem__.
  - apply Hbind; [apply quiet_relinquished|apply quiet_paths]; auto using quiet___eq__.
  - apply Hbind; [apply quiet_relinquished|apply quiet_paths]; auto using quiet___eq__.
Qed.

Lemma run_ops_relinquished l ops w :
  relinquished l w →
  ∃ w', run_ops l ops w = (Ok tt, w') ∧ relinquished l w' ∧
        fs_paths w' = fs_paths w.
Proof.
  revert w. induction ops as [|op ops IH]; intros w Hr.
  - by exists w.
  - destruct (run_op_relinquished l op w Hr) as (w1 & E1 & Hr1 & P1).
    destruct (IH w1 Hr1) as (w2 & E2 & Hr2 & P2).
    exists w2. cbn. rewrite (bind_ok _ _ _ _ _ E1). split; [done|].
    split; [done|congruence].
Qed.

(** C8.  Capturing the state changes the live handle.  [__getstate__]
    returns the dictionary as it was (with [file] and [_memmap_array]
    blanked) and then overwrites the handle's own [_has_ownership] with
    the current delete flag of its file object.  With [transfer_ownership]
    true, [__reduce__] first clears both delete flags of the file object,
    so the handle comes out with the flags and [_has_ownership] false while
    the recorded state still carries the earlier [_has_ownership].  From
    then on, whatever else is done with the handle and whether or not the
    state is ever restored, destroying the handle leaves every directory
    entry in place. *)
Theorem serialization_side_effects (w : world) (l : nat) (o : MemmapTensor)
    (f : tempfile._TemporaryFileWrapper) :
  heap w !! l = Some o → file o = Some f →
  (∃ state w1 o1,
     MemmapTensor___getstate__ l w = (Ok state, w1) ∧
     heap w1 !! l = Some o1 ∧
     _has_ownership o1 = tempfile.delete f ∧
     _has_ownership state = _has_ownership o ∧
     file state = None ∧ _memmap_array state = None) ∧
  (transfer_ownership o = true →
     ∃ state w1 o1 f1,
       MemmapTensor___reduce__ l w = (Ok state, w1) ∧
       heap w1 !! l = Some o1 ∧
       file o1 = Some f1 ∧
       tempfile.delete f1 = false ∧
       tempfile.closer_delete (tempfile._closer f1) = false ∧
       _has_ownership o1 = false ∧
       _has_ownership state = _has_ownership o ∧
       fs_paths w1 = fs_paths w ∧
       (handle_ok o = true →
          ∀ ops, ∃ w2 w3,
            run_ops l ops w1 = (Ok tt, w2) ∧
            destroy l w2 = (Ok tt, w3) ∧
            fs_paths w3 = fs_paths w)).
Proof.
  intros Hl Hf. split.
  - eexists _, _, _. split; [by apply getstate_spec|]. simpl.
    rewrite lookup_insert_eq. by repeat split.
  - intros Ht. pose proof (reduce_spec w l o f Hl Hf) as Hred.
    rewrite Ht in Hred.
    eexists _, _, _, (cleared f). split; [exact Hred|]. simpl.
    rewrite lookup_insert_eq. do 7 (split; [reflexivity|]).
    intros Hok ops.
    destruct (handle_ok_inv o Hok) as (f' & Hf' & Hd & Hcd & Hcc & Hcn).
    assert (f' = f) as -> by congruence.
    match type of Hred with _ = (_, ?w1) =>
      assert (Hr : relinquished l w1) end.
    { eexists. simpl. rewrite lookup_insert_eq. split; [done|].
      split; [|done]. unfold handle_ok. cbn. rewrite Hcc, Hcn. cbn.
      by rewrite !bool_decide_eq_true_2. }
    destruct (run_ops_relinquished l ops _ Hr) as (w2 & E2 & (o2 & Hl2 & Hok2 & Hown2) & P2).
    exists w2. eexists. split; [exact E2|].
    split; [by apply (destroy_spec w2 l o2)|].
    simpl. by rewrite Hown2, P2.
Qed.

(** ** Broadcasting a shape to itself *)

Lemma concat_chunks k count (d : list Z) :
  length d = count * k → concat (chunks k count d) = d.
Proof.
  revert d. induction count as [|c IH]; intros d Hd; cbn in *.
  - by destruct d.
  - rewrite IH; [apply take_drop|]. rewrite length_drop. lia.
Qed.

Lemma mapM_chunks (f : list Z → option (list Z)) k count d :
  (∀ c, length c = k → f c = Some c) → length d = count * k →
  mapM f (chunks k count d) = Some (chunks k count d).
Proof.
  intros Hf. revert d. induction count as [|c IH]; intros d Hd; cbn in *.
  - done.
  - rewrite Hf by (rewrite length_take; lia).
    cbn. rewrite IH by (rewrite length_drop; lia). done.
Qed.

Lemma broadcast_aligned_same shape d :
  length d = numel shape → broadcast_aligned shape shape d = Some d.
Proof.
  revert d. induction shape as [|n shape IH]; intros d Hd.
  - done.
  - change (numel (n :: shape)) with (n * numel shape) in Hd.
    cbn [broadcast_aligned]. rewrite decide_True by done.
    rewrite (mapM_chunks _ (numel shape) n d); [|by intros; apply IH|done].
    cbn. by rewrite concat_chunks.
Qed.

Lemma strip_leading_ones_0 shape : strip_leading_ones 0 shape = shape.
Proof. by destruct shape. Qed.

Lemma broadcast_to_same shape d :
  length d = numel shape → broadcast_to shape shape d = Some d.
Proof.
  intros Hd. unfold broadcast_to. rewrite Nat.sub_diag, strip_leading_ones_0.
  rewrite decide_True by done. rewrite Nat.sub_diag. cbn.
  by apply broadcast_aligned_same.
Qed.



Lemma convert_same d (l : list Z) : convert d d <$> l = l.
Proof.
  induction l as [|x l IH]; cbn; [done|]. rewrite IH. unfold convert.
  by rewrite decide_True.
Qed.

Lemma index_region_full n rest :
  index_region (n :: rest) 0 (ISlice None None) = Ok (0, n :: rest).
Proof. cbn. by rewrite Nat.sub_0_r. Qed.

Lemma write_window_all (old new : list Z) :
  length old = length new → write_window old 0 new = new.
Proof.
  intros H. unfold write_window. cbn. rewrite drop_ge by lia.
  by rewrite app_nil_r.
Qed.

(** ** Opening the mapping, writing through it, materialising *)

Lemma get_memmap_array_cached w self o mm :
  heap w !! self = Some o → _memmap_array o = Some mm →
  _get_memmap_array self w = (Ok mm, w).
Proof.
  intros Hl Hm. unfold _get_memmap_array.
  rewrite (bind_ok _ _ _ _ _ (deref_ok _ _ _ Hl)). by rewrite Hm.
Qed.

Lemma get_memmap_array_open_any w self o ino d :
  heap w !! self = Some o → _memmap_array o = None → mode o = mode_rplus →
  fs_paths w !! filename o = Some ino → fs_inodes w !! ino = Some d →
  _get_memmap_array self w =
    (Ok (mkMemmap (next_id w) ino mode_rplus (_dtype o) (np_shape o)),
     mkWorld (fs_paths w)
       (<[ino := d ++ replicate (Nat.max (numel (np_shape o)) 1 - length d) 0%Z]>
          (fs_inodes w))
       (<[self := with__memmap_array
                    (Some (mkMemmap (next_id w) ino mode_rplus (_dtype o) (np_shape o)))
                    o]> (heap w))
       (S (next_id w))).
Proof.
  intros Hl Hm Hmode Hp Hi. unfold _get_memmap_array.
  rewrite (bind_ok _ _ _ _ _ (deref_ok _ _ _ Hl)). rewrite Hm.
  unfold np_memmap, mbind, M_bind. rewrite Hp, Hi, Hmode.
  cbn [default from_option id torch_to_numpy_dtype_dict].
  rewrite decide_False by (rewrite length_app, length_replicate; lia).
  rewrite decide_False by (rewrite length_app, length_replicate; lia).
  reflexivity.
Qed.

Lemma get_memmap_array_open w self o ino d :
  heap w !! self = Some o → _memmap_array o = None → mode o = mode_rplus →
  fs_paths w !! filename o = Some ino → fs_inodes w !! ino = Some d →
  0 < numel (np_shape o) ∨ 0 < length d →
  _get_memmap_array self w =
    (Ok (mkMemmap (next_id w) ino mode_rplus (_dtype o) (np_shape o)),
     mkWorld (fs_paths w)
       (<[ino := d ++ replicate (numel (np_shape o) - length d) 0%Z]> (fs_inodes w))
       (<[self := with__memmap_array
                    (Some (mkMemmap (next_id w) ino mode_rplus (_dtype o) (np_shape o)))
                    o]> (heap w))
       (S (next_id w))).
Proof.
  intros Hl Hm Hmode Hp Hi Hn.
  rewrite (get_memmap_array_open_any w self o ino d Hl Hm Hmode Hp Hi).
  by replace (Nat.max (numel (np_shape o)) 1 - length d)
    with (numel (np_shape o) - length d) by lia.
Qed.

Lemma memmap_setitem_full w mm src n rest d :
  mm_mode mm = mode_rplus → mm_shape mm = n :: rest →
  broadcast_to (a_shape src) (n :: rest) (ndarray_data w src) = Some d →
  memmap_setitem mm (ISlice None None) src w =
    (Ok tt,
     set_inodes
       (<[mm_ino mm :=
            write_window (storage_data w (Mapped (mm_ino mm))) 0
              (convert (a_dtype src) (mm_dtype mm) <$> d)]> (fs_inodes w)) w).
Proof.
  intros Hmode Hshape Hb. unfold memmap_setitem.
  rewrite Hmode, Hshape, index_region_full.
  erewrite bind_ok by reflexivity. rewrite Hb. reflexivity.
Qed.

Lemma tensor_cached w self o mm :
  heap w !! self = Some o → _memmap_array o = Some mm →
  ∃ t, _tensor self w = (Ok t, w) ∧
       tensor_data w t
         = take (numel (mm_shape mm)) (storage_data w (Mapped (mm_ino mm))) ∧
       t_shape t = mm_shape mm ∧ t_dtype t = mm_dtype mm ∧
       t_device t = _device o ∧ t_requires_grad t = false ∧
       (_device o = cpu → t_storage t = Mapped (mm_ino mm) ∧ t_offset t = 0).
Proof.
  intros Hl Hm. unfold _tensor, _load_item.
  erewrite bind_ok;
    [|rewrite (bind_ok _ _ _ _ _ (get_memmap_array_cached _ _ _ _ Hl Hm));
      reflexivity].
  erewrite bind_ok by reflexivity. unfold _np_to_tensor.
  rewrite (bind_ok _ _ _ _ _ (deref_ok _ _ _ Hl)).
  unfold torch_as_tensor. destruct (_device o) eqn:Hdev.
  - eexists. split; [reflexivity|]. by repeat split.
  - eexists. split; [reflexivity|]. unfold tensor_data, ndarray_data, read_window.
    simpl. rewrite !drop_0. split; [|by repeat split].
    by rewrite take_take, Nat.min_id.
Qed.

(** Reading a window is not disturbed by what happens to an inode that
    did not exist when the window was last read non-empty. *)
Lemma read_window_fresh w w' s off n :
  0 < length (read_window w s off n) →
  (∀ ino, ino ≠ fresh (dom (fs_inodes w)) →
          fs_inodes w' !! ino = fs_inodes w !! ino) →
  read_window w' s off n = read_window w s off n.
Proof.
  intros Hlen Hsame. destruct s as [ino|d]; [|done].
  unfold read_window, storage_data in *.
  destruct (decide (ino = fresh (dom (fs_inodes w)))) as [->|Hne].
  - rewrite fresh_inode_free in Hlen. simpl in Hlen.
    rewrite drop_nil, take_nil in Hlen. simpl in Hlen. lia.
  - by rewrite Hsame.
Qed.

(** ** Construction from a tensor *)

Lemma construct_from_tensor_any w x to :
  t_requires_grad x = false → t_shape x ≠ [] →
  length (tensor_data w x) = numel (t_shape x) →
  MemmapTensor_new (PyTensor x) to w =
    (Ok (fresh (dom (heap w))),
     mkWorld (<[fresh (dom (fs_paths w)) := fresh (dom (fs_inodes w))]> (fs_paths w))
       (<[fresh (dom (fs_inodes w)) :=
            tensor_data w x ++ replicate (1 - numel (t_shape x)) 0%Z]> (fs_inodes w))
       (<[fresh (dom (heap w)) := constructed w x to]> (heap w))
       (S (next_id w))).
Proof.
  intros Hg Hshape Hlen.
  destruct (t_shape x) as [|n rest] eqn:Hs; [done|]. clear Hshape.
  set (p := fresh (dom (fs_paths w))). set (i := fresh (dom (fs_inodes w))).
  set (l := fresh (dom (heap w))).
  unfold MemmapTensor_new. erewrite bind_ok by reflexivity. fold l.
  erewrite bind_ok; [reflexivity|]. apply catch_ok.
  unfold MemmapTensor___init__.
  change (negb (isinstance (PyTensor x) [C_Tensor; C_MemmapTensor])) with false.
  cbv iota. erewrite bind_ok by reflexivity.
  unfold truthy. rewrite Hg. cbv iota.
  erewrite bind_ok by reflexivity. fold p i.
  erewrite bind_ok by reflexivity.
  unfold set_heap, set_paths, set_inodes. simpl.
  set (o0 := mkMemmapTensor None None
               (Some (tempfile.mkWrapper p true (tempfile.mkCloser p true false)))
               p (t_device x) (t_shape x) to (t_shape x) (t_dtype x)
               Tensor___dir__ (length (t_shape x)) (numel (t_shape x))
               mode_rplus true).
  set (w2 := mkWorld (<[p:=i]> (fs_paths w)) (<[i:=[]]> (fs_inodes w))
               (<[l:=o0]> (heap w)) (next_id w)).
  assert (Hdata2 : ∀ w', (∀ ino, ino ≠ i → fs_inodes w' !! ino = fs_inodes w !! ino) →
                         tensor_data w' x = tensor_data w x).
  { intros w' Hw'. unfold tensor_data.
    destruct (decide (numel (t_shape x) = 0)) as [E|E].
    - unfold read_window. by rewrite E.
    - apply read_window_fresh; [|exact Hw'].
      fold (tensor_data w x). rewrite Hlen, <- Hs. lia. }
  assert (Hw2 : ∀ ino, ino ≠ i → fs_inodes w2 !! ino = fs_inodes w !! ino).
  { intros ino Hne. simpl. by rewrite lookup_insert_ne. }
  unfold _save_item.
  (* the source as a numpy array *)
  assert (Hsrc : ∃ a, (t' ← Tensor_cpu x; a ← Tensor_numpy t'; mret (inl a)) w2
                        = (Ok (@inl ndarray nat a), w2) ∧
                      a_shape a = t_shape x ∧ a_dtype a = t_dtype x ∧
                      ∀ w', (∀ ino, ino ≠ i → fs_inodes w' !! ino = fs_inodes w !! ino) →
                            ndarray_data w' a = tensor_data w x).
  { unfold Tensor_cpu, Tensor_numpy. destruct (t_device x) eqn:Hdev.
    - erewrite bind_ok by reflexivity. rewrite Hg, Hdev.
      eexists. split; [reflexivity|]. split; [done|]. split; [done|].
      intros w' Hw'. exact (Hdata2 w' Hw').
    - erewrite bind_ok by reflexivity. simpl. rewrite Hg.
      eexists. split; [reflexivity|]. split; [done|]. split; [done|].
      intros w' Hw'. unfold ndarray_data, read_window. simpl.
      rewrite drop_0, (Hdata2 w2 Hw2). apply take_ge. rewrite Hs in *. lia. }
  destruct Hsrc as (a & Hsrc & Hashape & Hadtype & Hadata).
  rewrite (bind_ok _ _ _ _ _ Hsrc).
  rewrite (bind_ok _ _ _ _ _
             (get_memmap_array_open_any w2 l o0 i [] ltac:(apply lookup_insert_eq)
                eq_refl eq_refl ltac:(apply lookup_insert_eq)
                ltac:(apply lookup_insert_eq))).
  erewrite bind_ok by reflexivity.
  erewrite memmap_setitem_full; [|reflexivity|simpl; exact Hs|].
  2:{ rewrite Hashape, Hs. apply broadcast_to_same.
      rewrite Hadata; [done|]. intros ino Hne. simpl.
      by rewrite !lookup_insert_ne. }
  unfold set_inodes, constructed. simpl.
  rewrite lookup_insert_eq. simpl. rewrite !insert_insert_eq.
  rewrite Hadtype, convert_same, Nat.sub_0_r.
  rewrite Hadata by (intros ino Hne; simpl; by rewrite !lookup_insert_ne).
  unfold write_window. rewrite take_0, drop_replicate. simpl.
  rewrite Hlen.
  replace (Nat.max (numel (t_shape x)) 1 - numel (n :: rest))
    with (1 - n * numel rest) by (rewrite Hs; simpl; lia).
  reflexivity.
Qed.

Lemma construct_from_tensor w x to :
  t_requires_grad x = false → t_shape x ≠ [] → 0 < numel (t_shape x) →
  length (tensor_data w x) = numel (t_shape x) →
  MemmapTensor_new (PyTensor x) to w =
    (Ok (fresh (dom (heap w))),
     mkWorld (<[fresh (dom (fs_paths w)) := fresh (dom (fs_inodes w))]> (fs_paths w))
       (<[fresh (dom (fs_inodes w)) := tensor_data w x]> (fs_inodes w))
       (<[fresh (dom (heap w)) := constructed w x to]> (heap w))
       (S (next_id w))).
Proof.
  intros Hg Hshape Hn Hlen.
  rewrite (construct_from_tensor_any w x to Hg Hshape Hlen).
  replace (1 - numel (t_shape x)) with 0 by lia. simpl.
  by rewrite app_nil_r.
Qed.

Lemma supported_inv w x :
  supported w x = true →
  t_requires_grad x = false ∧ t_shape x ≠ [] ∧ 0 < numel (t_shape x) ∧
  length (tensor_data w x) = numel (t_shape x).
Proof.
  unfold supported.
  rewrite !andb_true_iff, !bool_decide_eq_true, negb_true_iff. tauto.
Qed.

Lemma constructed_ok w x to : handle_ok (constructed w x to) = true.
Proof.
  unfold handle_ok, constructed. cbn. by rewrite !bool_decide_eq_true_2.
Qed.

(** ** The round trip, and the source that cannot be stored *)

Lemma tensor_data_inodes w w' t :
  fs_inodes w' = fs_inodes w → tensor_data w' t = tensor_data w t.
Proof.
  intros H. unfold tensor_data, read_window, storage_data. by rewrite H.
Qed.

(** [value.cpu().numpy()] for a tensor without gradient tracking. *)
Lemma tensor_to_numpy w v :
  t_requires_grad v = false →
  ∃ a, (t' ← Tensor_cpu v; a ← Tensor_numpy t'; mret (inl a)) w
         = (Ok (@inl ndarray nat a), w) ∧
       a_shape a = t_shape v ∧ a_dtype a = t_dtype v ∧
       (length (tensor_data w v) = numel (t_shape v) →
        ∀ w', fs_inodes w' = fs_inodes w → ndarray_data w' a = tensor_data w v).
Proof.
  intros Hg. unfold Tensor_cpu, Tensor_numpy. destruct (t_device v) eqn:Hdev.
  - erewrite bind_ok by reflexivity. rewrite Hg, Hdev.
    eexists. split; [reflexivity|]. split; [done|]. split; [done|].
    intros _ w' Hw'. by apply (tensor_data_inodes w w' v).
  - erewrite bind_ok by reflexivity. simpl. rewrite Hg.
    eexists. split; [reflexivity|]. split; [done|]. split; [done|].
    intros Hlen w' Hw'. unfold ndarray_data, read_window. simpl.
    rewrite drop_0. apply take_ge. lia.
Qed.

(** [MemmapTensor(...)] when [__init__] raises after the object got its
    dictionary and its temporary file: the abandoned object is destroyed,
    which removes the file again. *)
Lemma MemmapTensor_new_late_raise w elem to e w3 o3 :
  MemmapTensor___init__ (fresh (dom (heap w))) elem to w = (Raise e, w3) →
  heap w3 = <[fresh (dom (heap w)) := o3]> (heap w) →
  handle_ok o3 = true → _has_ownership o3 = true →
  fs_paths w !! filename o3 = None →
  (∀ p, p ≠ filename o3 → fs_paths w3 !! p = fs_paths w !! p) →
  ∃ w',
    MemmapTensor_new elem to w = (Raise e, w') ∧
    fs_paths w' = fs_paths w ∧ heap w' = heap w ∧
    fs_inodes w' = fs_inodes w3.
Proof.
  intros Hinit Hh Hok Hown Hfree Hpaths.
  set (l := fresh (dom (heap w))) in *.
  assert (Hl3 : heap w3 !! l = Some o3) by (rewrite Hh; apply lookup_insert_eq).
  pose proof (destroy_spec w3 l o3 Hl3 Hok) as Hd. rewrite Hown in Hd.
  eexists. split.
  { unfold MemmapTensor_new. erewrite bind_ok by reflexivity. fold l.
    erewrite bind_raise; [reflexivity|].
    erewrite catch_raise by exact Hinit.
    rewrite (bind_ok _ _ _ _ _ Hd). reflexivity. }
  cbn [fs_paths heap fs_inodes set_heap set_paths].
  split; [|split; [|done]].
  - apply map_eq. intros p. destruct (decide (p = filename o3)) as [->|Hne].
    + by rewrite lookup_delete_eq, Hfree.
    + rewrite lookup_delete_ne by done. by apply Hpaths.
  - rewrite Hh, delete_insert_eq. apply delete_id, fresh_loc_free.
Qed.

Lemma memmap_setitem_0d w mm ix src :
  mm_mode mm = mode_rplus → mm_shape mm = [] →
  memmap_setitem mm ix src w = (Raise IndexError, w).
Proof. intros Hm Hs. unfold memmap_setitem. by rewrite Hm, Hs. Qed.

(** A 0-d source passes the checks of [__init__] but cannot be stored:
    [memmap_array[:] = ...] raises [IndexError], and the temporary file
    that was created by then is deleted with the abandoned object. *)
Lemma construct_from_0d w x to :
  t_requires_grad x = false → t_shape x = [] →
  ∃ w',
    MemmapTensor_new (PyTensor x) to w = (Raise IndexError, w') ∧
    fs_paths w' = fs_paths w ∧ heap w' = heap w.
Proof.
  intros Hg Hs.
  set (p := fresh (dom (fs_paths w))). set (i := fresh (dom (fs_inodes w))).
  set (l := fresh (dom (heap w))).
  set (o0 := mkMemmapTensor None None
               (Some (tempfile.mkWrapper p true (tempfile.mkCloser p true false)))
               p (t_device x) (t_shape x) to (t_shape x) (t_dtype x)
               Tensor___dir__ (length (t_shape x)) (numel (t_shape x))
               mode_rplus true).
  set (w2 := mkWorld (<[p:=i]> (fs_paths w)) (<[i:=[]]> (fs_inodes w))
               (<[l:=o0]> (heap w)) (next_id w)).
  assert (Hinit0 : MemmapTensor___init__ l (PyTensor x) to w
                   = _save_item l (AL_Tensor x) None w2).
  { unfold MemmapTensor___init__.
    change (negb (isinstance (PyTensor x) [C_Tensor; C_MemmapTensor])) with false.
    cbv iota. erewrite bind_ok by reflexivity.
    unfold truthy. rewrite Hg. cbv iota.
    erewrite bind_ok by reflexivity. fold p i.
    erewrite bind_ok by reflexivity. reflexivity. }
  destruct (tensor_to_numpy w2 x Hg) as (a & Hsrc & Has & Had & _).
  assert (Hl2 : heap w2 !! l = Some o0) by apply lookup_insert_eq.
  assert (Hp2 : fs_paths w2 !! p = Some i) by apply lookup_insert_eq.
  assert (Hi2 : fs_inodes w2 !! i = Some []) by apply lookup_insert_eq.
  assert (Hok0 : handle_ok o0 = true).
  { unfold handle_ok, o0. cbn. by rewrite !bool_decide_eq_true_2. }
  assert (Hsave : ∃ w3 o3,
            _save_item l (AL_Tensor x) None w2 = (Raise IndexError, w3) ∧
            heap w3 = <[l := o3]> (heap w) ∧ fs_paths w3 = fs_paths w2 ∧
            handle_ok o3 = true ∧ _has_ownership o3 = true ∧
            filename o3 = p).
  { unfold _save_item. rewrite (bind_ok _ _ _ _ _ Hsrc).
    rewrite (bind_ok _ _ _ _ _
               (get_memmap_array_open_any w2 l o0 i [] Hl2 eq_refl eq_refl Hp2 Hi2)).
    erewrite bind_ok by reflexivity.
    erewrite memmap_setitem_0d; [|reflexivity|cbn; exact Hs].
    eexists _, _. split; [reflexivity|].
    cbn [heap fs_paths]. split; [unfold w2; cbn [heap]; apply insert_insert_eq|].
    split; [done|]. split; [exact Hok0|]. done. }
  destruct Hsave as (w3 & o3 & Hsave & Hh3 & Hp3 & Hok3 & Hown3 & Hf3).
  destruct (MemmapTensor_new_late_raise w (PyTensor x) to IndexError w3 o3)
    as (w' & Hnew & Hpaths & Hheap & _); try done.
  - fold l. by rewrite Hinit0.
  - rewrite Hf3. apply fresh_path_free.
  - intros q Hq. rewrite Hp3. unfold w2. cbn [fs_paths].
    rewrite lookup_insert_ne; [done|]. by rewrite Hf3 in Hq.
  - by exists w'.
Qed.



(** A handle just built from a supported tensor meets every assumption
    made of handles in this file. *)
Lemma constructed_sound w x to :
  supported w x = true →
  ∃ l w1 o,
    MemmapTensor_new (PyTensor x) to w = (Ok l, w1) ∧
    heap w1 !! l = Some o ∧
    handle_ok o = true ∧ _has_ownership o = true ∧
    transfer_ownership o = to ∧
    mapping_ok w1 o = true ∧
    mapped_content w1 o = tensor_data w x ∧
    "requires_grad" ∈ _tensor_dir o ∧
    _shape o = np_shape o ∧ np_shape o ≠ [] ∧
    fs_paths w !! filename o = None ∧
    fs_paths w1 !! filename o = handle_inode w1 o.
Proof.
  intros Hsup. destruct (supported_inv w x Hsup) as (Hg & Hs & Hn & Hlen).
  eexists _, _, (constructed w x to).
  split; [by apply construct_from_tensor|]. simpl.
  split; [apply lookup_insert_eq|]. split; [apply constructed_ok|].
  split; [done|]. split; [done|].
  split.
  { unfold mapping_ok, handle_inode. simpl. rewrite lookup_insert_eq.
    rewrite !bool_decide_eq_true_2; [done| |lia]. repeat split; lia. }
  split.
  { unfold mapped_content, handle_inode, storage_data. simpl.
    rewrite lookup_insert_eq. simpl. apply take_ge. lia. }
  split; [by apply (bool_decide_unpack _); vm_compute|].
  split; [done|]. split; [done|]. split; [apply fresh_path_free|].
  unfold handle_inode. simpl. apply lookup_insert_eq.
Qed.


(** ** Content of a handle *)

Lemma get_memmap_array_ok w l o :
  heap w !! l = Some o → mapping_ok w o = true →
  ∃ mm w',
    _get_memmap_array l w = (Ok mm, w') ∧
    handle_inode w o = Some (mm_ino mm) ∧
    mm_shape mm = np_shape o ∧ mm_dtype mm = _dtype o ∧
    mm_mode mm = mode_rplus ∧ mm_id mm < next_id w' ∧
    next_id w ≤ next_id w' ∧
    fs_paths w' = fs_paths w ∧ fs_inodes w' = fs_inodes w ∧
    heap w' = <[l := with__memmap_array (Some mm) o]> (heap w).
Proof.
  intros Hl Hok. unfold mapping_ok in Hok.
  destruct (handle_inode w o) as [ino|] eqn:Hino; [|done].
  destruct (fs_inodes w !! ino) as [d|] eqn:Hd; [|done].
  apply andb_true_iff in Hok as [Hn Hm]. apply bool_decide_eq_true in Hn.
  unfold handle_inode in Hino.
  destruct (_memmap_array o) as [mm|] eqn:Hmm.
  - apply bool_decide_eq_true in Hm as (? & ? & ? & ?).
    exists mm, w. split; [by apply (get_memmap_array_cached w l o)|].
    repeat split; try done.
    rewrite insert_id; [done|]. rewrite Hl. f_equal.
    destruct o; simpl in *; by subst.
  - apply bool_decide_eq_true in Hm.
    eexists _, _. split.
    { apply (get_memmap_array_open w l o ino d); auto. lia. }
    simpl. repeat split; try done; try lia.
    replace (numel (np_shape o) - length d) with 0 by lia. simpl.
    rewrite app_nil_r. by apply insert_id.
Qed.

Lemma mapped_content_length w o :
  mapping_ok w o = true → length (mapped_content w o) = numel (np_shape o).
Proof.
  unfold mapping_ok, mapped_content, storage_data.
  destruct (handle_inode w o) as [ino|]; [|done].
  destruct (fs_inodes w !! ino) as [d|]; [|done].
  intros [Hn _]%andb_true_iff. apply bool_decide_eq_true in Hn.
  simpl. rewrite length_take. lia.
Qed.

Lemma mapping_ok_inv w o :
  mapping_ok w o = true →
  ∃ ino d, handle_inode w o = Some ino ∧ fs_inodes w !! ino = Some d ∧
           0 < numel (np_shape o) ≤ length d ∧
           mapped_content w o = take (numel (np_shape o)) d.
Proof.
  unfold mapping_ok, mapped_content, storage_data.
  destruct (handle_inode w o) as [ino|]; [|done].
  destruct (fs_inodes w !! ino) as [d|] eqn:Hd; [|done].
  intros [Hn _]%andb_true_iff. apply bool_decide_eq_true in Hn.
  exists ino, d. by rewrite Hd.
Qed.

(** Materialising a handle with a sound mapping. *)
Lemma tensor_spec w l o :
  heap w !! l = Some o → mapping_ok w o = true →
  ∃ w' mm,
    _tensor l w = (Ok (materialised w o (mm_ino mm)), w') ∧
    handle_inode w o = Some (mm_ino mm) ∧
    tensor_data w' (materialised w o (mm_ino mm)) = mapped_content w o ∧
    fs_paths w' = fs_paths w ∧ fs_inodes w' = fs_inodes w ∧
    next_id w ≤ next_id w' ∧
    heap w' = <[l := with__memmap_array (Some mm) o]> (heap w) ∧
    mapping_ok w' (with__memmap_array (Some mm) o) = true ∧
    mapped_content w' (with__memmap_array (Some mm) o) = mapped_content w o.
Proof.
  intros Hl Hok.
  destruct (get_memmap_array_ok w l o Hl Hok)
    as (mm & w' & Hget & Hino & Hshape & Hdtype & Hmode & Hid & Hnext & Hp & Hi & Hh).
  destruct (mapping_ok_inv w o Hok) as (ino & d & Hino' & Hd & Hn & Hc).
  assert (ino = mm_ino mm) as -> by congruence.
  unfold _tensor, _load_item.
  erewrite bind_ok; [|rewrite (bind_ok _ _ _ _ _ Hget); reflexivity].
  erewrite bind_ok by reflexivity. unfold _np_to_tensor.
  assert (Hl' : heap w' !! l = Some (with__memmap_array (Some mm) o))
    by (rewrite Hh; apply lookup_insert_eq).
  rewrite (bind_ok _ _ _ _ _ (deref_ok _ _ _ Hl')).
  assert (Hcontent : take (numel (mm_shape mm)) (storage_data w' (Mapped (mm_ino mm)))
                     = mapped_content w o).
  { rewrite Hc, Hshape. unfold storage_data. by rewrite Hi, Hd. }
  assert (Hc' : mapped_content w' (with__memmap_array (Some mm) o)
                = mapped_content w o).
  { unfold mapped_content at 1, handle_inode. simpl. rewrite <- Hshape.
    exact Hcontent. }
  exists w', mm. unfold torch_as_tensor, materialised. simpl.
  rewrite Hshape, Hdtype.
  split.
  { destruct (_device o); [reflexivity|].
    erewrite bind_ok by reflexivity. unfold mret, M_ret. do 4 f_equal.
    unfold ndarray_data, read_window. simpl. rewrite drop_0. exact Hcontent. }
  split; [done|]. split.
  { unfold tensor_data, read_window. simpl. rewrite drop_0.
    destruct (_device o); simpl.
    - by rewrite <- Hshape.
    - rewrite Hc. by rewrite take_take, Nat.min_id. }
  do 4 (split; [done|]). split; [|done].
  unfold mapping_ok, handle_inode. simpl. rewrite Hi, Hd.
  rewrite !bool_decide_eq_true_2; done.
Qed.

(** ** Equality *)

(** What a handle maps after the file behind it was overwritten in
    place. *)
Lemma mapping_ok_rewritten w w1 o ino c c' :
  mapping_ok w o = true → handle_inode w o = Some ino →
  fs_inodes w !! ino = Some c →
  fs_paths w1 = fs_paths w → fs_inodes w1 !! ino = Some c' →
  length c' = length c → next_id w ≤ next_id w1 →
  mapping_ok w1 o = true ∧ handle_inode w1 o = Some ino ∧
  mapped_content w1 o = take (numel (np_shape o)) c'.
Proof.
  intros Hok Hino Hc Hp Hc' Hlen Hnext.
  assert (Hino1 : handle_inode w1 o = Some ino).
  { unfold handle_inode in *. destruct (_memmap_array o); [done|].
    by rewrite Hp. }
  unfold mapping_ok, mapped_content, storage_data in *.
  rewrite Hino1. rewrite Hino, Hc in Hok. rewrite Hc'. simpl.
  split; [|done]. rewrite Hlen.
  apply andb_true_iff in Hok as [H1 H2]. apply andb_true_iff. split; [done|].
  destruct (_memmap_array o) as [mm|]; [|done].
  apply bool_decide_eq_true in H2 as (? & ? & ? & ?).
  apply bool_decide_eq_true. repeat split; try done. lia.
Qed.







(** ** Windows, regions and broadcast lengths *)

Lemma index_region_bound shape off0 ix off s :
  index_region shape off0 ix = Ok (off, s) →
  off0 ≤ off ∧ off + numel s ≤ off0 + numel shape.
Proof.
  unfold index_region. destruct shape as [|n rest]; [done|].
  change (numel (n :: rest)) with (n * numel rest).
  destruct ix as [i|a b].
  - unfold normalize_int. case_decide; [|done]. intros [= <- <-].
    split; [lia|]. nia.
  - intros [= <- <-].
    change (numel (?k :: rest)) with (k * numel rest).
    assert (Ha : clamp_bound n a 0 ≤ n).
    { unfold clamp_bound. destruct a; lia. }
    assert (Hb : clamp_bound n b n ≤ n).
    { unfold clamp_bound. destruct b; lia. }
    split; [lia|]. nia.
Qed.

Lemma chunks_lengths k count d :
  length d = count * k → Forall (λ c, length c = k) (chunks k count d).
Proof.
  revert d. induction count as [|c IH]; intros d Hd; cbn in *; [done|].
  constructor; [rewrite length_take; lia|].
  apply IH. rewrite length_drop. lia.
Qed.

Lemma chunks_count k count d : length (chunks k count d) = count.
Proof. revert d. induction count as [|c IH]; intros d; cbn; [done|]. by rewrite IH. Qed.

Lemma concat_length_uniform (l : list (list Z)) k :
  Forall (λ c, length c = k) l → length (concat l) = length l * k.
Proof.
  induction 1 as [|c l Hc _ IH]; cbn; [done|]. rewrite length_app. lia.
Qed.

Lemma concat_replicate_length n (x : list Z) :
  length (concat (replicate n x)) = n * length x.
Proof. induction n as [|n IH]; cbn; [done|]. rewrite length_app. lia. Qed.

Lemma broadcast_aligned_length src dst d d' :
  broadcast_aligned src dst d = Some d' → length d = numel src →
  length d' = numel dst.
Proof.
  revert dst d d'. induction src as [|s src IH]; intros [|n dst] d d' H Hd;
    cbn in H; try done.
  - by injection H as <-.
  - change (numel (s :: src)) with (s * numel src) in Hd.
    change (numel (n :: dst)) with (n * numel dst).
    case_decide as Hsn.
    + subst n. destruct (mapM _ _) as [l|] eqn:HM; [|done].
      cbn in H. injection H as <-.
      apply mapM_Some in HM.
      assert (Hl : Forall (λ c, length c = numel dst) l).
      { pose proof (chunks_lengths (numel src) s d Hd) as Hch.
        revert Hch. induction HM as [|c c' cs cs' Hc _ IHl]; intros Hch;
          [constructor|].
        apply Forall_cons in Hch as [Hc1 Hch].
        constructor; [by eapply IH|by apply IHl]. }
      rewrite (concat_length_uniform l (numel dst) Hl).
      apply Forall2_length in HM. rewrite <- HM, chunks_count. done.
    + case_decide as Hs1; [|done]. subst s.
      destruct (broadcast_aligned src dst d) as [x|] eqn:Hx; [|done].
      cbn in H. injection H as <-.
      rewrite concat_replicate_length. rewrite (IH dst d x Hx); lia.
Qed.

Lemma numel_strip_leading_ones e shape :
  numel (strip_leading_ones e shape) = numel shape.
Proof.
  revert shape. induction e as [|e IH]; intros shape; [by destruct shape|].
  destruct shape as [|[|[|k]] rest]; try done.
  cbn [strip_leading_ones]. rewrite IH.
  change (numel (1 :: rest)) with (1 * numel rest). lia.
Qed.

Lemma numel_pad_ones k shape : numel (replicate k 1 ++ shape) = numel shape.
Proof.
  induction k as [|k IH]; [done|].
  change (numel (replicate (S k) 1 ++ shape))
    with (1 * numel (replicate k 1 ++ shape)). lia.
Qed.

Lemma broadcast_to_length src dst d d' :
  broadcast_to src dst d = Some d' → length d = numel src →
  length d' = numel dst.
Proof.
  unfold broadcast_to. case_decide; [|done]. intros Hb Hd.
  eapply broadcast_aligned_length; [exact Hb|].
  by rewrite numel_pad_ones, numel_strip_leading_ones.
Qed.

Lemma write_window_length (d : list Z) off new :
  off + length new ≤ length d → length (write_window d off new) = length d.
Proof.
  intros H. unfold write_window.
  rewrite !length_app, length_take, length_drop. lia.
Qed.

Lemma read_write_window (d : list Z) off new :
  off + length new ≤ length d →
  take (length new) (drop off (write_window d off new)) = new.
Proof.
  intros H. unfold write_window.
  rewrite drop_app_length' by (rewrite length_take; lia).
  by rewrite take_app_length.
Qed.

Lemma take_drop_take (c : list Z) off k n :
  off + k ≤ n → take k (drop off (take n c)) = take k (drop off c).
Proof.
  intros H. rewrite !take_drop_commute, take_take.
  do 2 f_equal. lia.
Qed.

Lemma fmap_convert_length from to (d : list Z) :
  length (convert from to <$> d) = length d.
Proof. apply length_fmap. Qed.

(** ** Writes that reach the file, and one that does not *)

Lemma mapping_ok_write w o ino c c' :
  mapping_ok w o = true → handle_inode w o = Some ino →
  fs_inodes w !! ino = Some c → length c' = length c →
  mapping_ok (set_inodes (<[ino := c']> (fs_inodes w)) w) o = true ∧
  mapped_content (set_inodes (<[ino := c']> (fs_inodes w)) w) o
    = take (numel (np_shape o)) c'.
Proof.
  intros Hok Hino Hc Hlen. unfold mapping_ok, mapped_content, storage_data in *.
  assert (Hino' : handle_inode (set_inodes (<[ino := c']> (fs_inodes w)) w) o
                  = Some ino) by exact Hino.
  rewrite Hino'. rewrite Hino, Hc in Hok. simpl.
  rewrite lookup_insert_eq. rewrite Hlen. split; [exact Hok|done].
Qed.

Lemma getitem_spec w l o ix off s :
  heap w !! l = Some o → mapping_ok w o = true →
  index_region (np_shape o) 0 ix = Ok (off, s) →
  ∃ t w',
    MemmapTensor___getitem__ l ix w = (Ok t, w') ∧
    t_shape t = s ∧ t_dtype t = _dtype o ∧ t_device t = _device o ∧
    tensor_data w' t = take (numel s) (drop off (mapped_content w o)) ∧
    fs_paths w' = fs_paths w ∧ fs_inodes w' = fs_inodes w.
Proof.
  intros Hl Hok Hix.
  destruct (tensor_spec w l o Hl Hok)
    as (w' & mm & Ht & Hino & Hdata & Hp & Hi & _).
  destruct (mapping_ok_inv w o Hok) as (ino & c & Hino' & Hc & Hn & Hmc).
  assert (ino = mm_ino mm) as -> by congruence.
  destruct (index_region_bound _ _ _ _ _ Hix) as [_ Hb].
  unfold MemmapTensor___getitem__. fold (_tensor l).
  rewrite (bind_ok _ _ _ _ _ Ht). unfold Tensor___getitem__. simpl.
  rewrite Hix. eexists _, w'. split; [reflexivity|]. simpl.
  do 3 (split; [done|]). split; [|done].
  unfold tensor_data, read_window. simpl. rewrite Hmc.
  destruct (_device o); simpl.
  - rewrite Hi, Hc. simpl. symmetry. apply take_drop_take. lia.
  - reflexivity.
Qed.

(** On the CPU an indexed write goes through the view into the file: a
    read at the same index returns what was written. *)
Lemma setitem_then_getitem_cpu w l o ix v off s d :
  heap w !! l = Some o → mapping_ok w o = true → _device o = cpu →
  index_region (np_shape o) 0 ix = Ok (off, s) →
  length (tensor_data w v) = numel (t_shape v) →
  broadcast_to (t_shape v) s (tensor_data w v) = Some d →
  ∃ w1 t w2,
    MemmapTensor___setitem__ l ix v w = (Ok tt, w1) ∧
    MemmapTensor___getitem__ l ix w1 = (Ok t, w2) ∧
    t_shape t = s ∧
    tensor_data w2 t = convert (t_dtype v) (_dtype o) <$> d.
Proof.
  intros Hl Hok Hdev Hix Hlen Hbc.
  destruct (tensor_spec w l o Hl Hok)
    as (w' & mm & Ht & Hino & Hdata & Hp & Hi & Hnext & Hh & Hok' & Hmc').
  destruct (mapping_ok_inv w o Hok) as (ino & c & Hino' & Hc & Hn & Hmc).
  assert (ino = mm_ino mm) as -> by congruence.
  destruct (index_region_bound _ _ _ _ _ Hix) as [_ Hb].
  pose proof (broadcast_to_length _ _ _ _ Hbc Hlen) as Hdlen.
  set (d' := convert (t_dtype v) (_dtype o) <$> d).
  assert (Hd'len : length d' = numel s) by (subst d'; by rewrite length_fmap).
  set (o' := with__memmap_array (Some mm) o) in *.
  set (c' := write_window c off d').
  set (w1 := set_inodes (<[mm_ino mm := c']> (fs_inodes w')) w').
  assert (Hc1 : fs_inodes w' !! mm_ino mm = Some c) by (by rewrite Hi).
  assert (Hset : MemmapTensor___setitem__ l ix v w = (Ok tt, w1)).
  { assert (Hts : ∃ T', Tensor___setitem__ (materialised w o (mm_ino mm)) ix v w'
                          = (Ok T', w1)).
    { unfold Tensor___setitem__, materialised. rewrite Hdev.
      cbn [t_shape t_offset t_storage t_dtype t_device t_requires_grad].
      rewrite Hix. erewrite bind_ok by reflexivity.
      rewrite (tensor_data_inodes w w' v Hi), Hbc.
      unfold storage_write, modify, mbind, M_bind, mret, M_ret, storage_data.
      rewrite Hc1. eexists. reflexivity. }
    destruct Hts as [T' Hts].
    unfold MemmapTensor___setitem__. fold (_tensor l).
    rewrite (bind_ok _ _ _ _ _ Ht). by rewrite (bind_ok _ _ _ _ _ Hts). }
  assert (Hl1 : heap w1 !! l = Some o').
  { subst w1. simpl. rewrite Hh. apply lookup_insert_eq. }
  assert (Hino1 : handle_inode w' o' = Some (mm_ino mm)) by reflexivity.
  assert (Hc'len : length c' = length c).
  { subst c'. apply write_window_length. lia. }
  destruct (mapping_ok_write w' o' (mm_ino mm) c c' Hok' Hino1 Hc1 Hc'len)
    as [Hok1 Hmc1].
  fold w1 in Hok1, Hmc1.
  assert (Hix' : index_region (np_shape o') 0 ix = Ok (off, s)) by exact Hix.
  destruct (getitem_spec w1 l o' ix off s Hl1 Hok1 Hix')
    as (t & w2 & Hget & Hts & _ & _ & Htd & _).
  exists w1, t, w2. split; [exact Hset|]. split; [exact Hget|].
  split; [exact Hts|]. rewrite Htd, Hmc1.
  change (np_shape o') with (np_shape o).
  rewrite take_drop_take by lia. subst c'. rewrite <- Hd'len.
  apply read_write_window. lia.
Qed.

(** Off the CPU the same statement writes into the copy that
    [torch.as_tensor] made on the device: no file changes, and a read at
    the same index returns the old elements. *)
Lemma setitem_then_getitem_off_cpu w l o k ix v off s d :
  heap w !! l = Some o → mapping_ok w o = true → _device o = cuda k →
  index_region (np_shape o) 0 ix = Ok (off, s) →
  broadcast_to (t_shape v) s (tensor_data w v) = Some d →
  ∃ w1 t w2,
    MemmapTensor___setitem__ l ix v w = (Ok tt, w1) ∧
    fs_inodes w1 = fs_inodes w ∧
    MemmapTensor___getitem__ l ix w1 = (Ok t, w2) ∧
    tensor_data w2 t = take (numel s) (drop off (mapped_content w o)).
Proof.
  intros Hl Hok Hdev Hix Hbc.
  destruct (tensor_spec w l o Hl Hok)
    as (w' & mm & Ht & Hino & Hdata & Hp & Hi & Hnext & Hh & Hok' & Hmc').
  set (o' := with__memmap_array (Some mm) o) in *.
  assert (Hset : MemmapTensor___setitem__ l ix v w = (Ok tt, w')).
  { assert (Hts : ∃ T', Tensor___setitem__ (materialised w o (mm_ino mm)) ix v w'
                          = (Ok T', w')).
    { unfold Tensor___setitem__, materialised. rewrite Hdev.
      cbn [t_shape t_offset t_storage t_dtype t_device t_requires_grad].
      rewrite Hix. erewrite bind_ok by reflexivity.
      rewrite (tensor_data_inodes w w' v Hi), Hbc.
      eexists. reflexivity. }
    destruct Hts as [T' Hts].
    unfold MemmapTensor___setitem__. fold (_tensor l).
    rewrite (bind_ok _ _ _ _ _ Ht). by rewrite (bind_ok _ _ _ _ _ Hts). }
  assert (Hl1 : heap w' !! l = Some o').
  { rewrite Hh. apply lookup_insert_eq. }
  assert (Hix' : index_region (np_shape o') 0 ix = Ok (off, s)) by exact Hix.
  destruct (getitem_spec w' l o' ix off s Hl1 Hok' Hix')
    as (t & w2 & Hget & _ & _ & _ & Htd & _).
  exists w', t, w2. split; [exact Hset|]. split; [exact Hi|].
  split; [exact Hget|]. by rewrite Htd, Hmc'.
Qed.

(** ** Full overwrite *)

Lemma mapping_ok_opened w w' o mm :
  mapping_ok w o = true → handle_inode w o = Some (mm_ino mm) →
  mm_shape mm = np_shape o → mm_dtype mm = _dtype o → mm_mode mm = mode_rplus →
  mm_id mm < next_id w' → fs_inodes w' = fs_inodes w →
  mapping_ok w' (with__memmap_array (Some mm) o) = true ∧
  mapped_content w' (with__memmap_array (Some mm) o) = mapped_content w o.
Proof.
  intros Hok Hino Hs Hd Hm Hid Hi.
  destruct (mapping_ok_inv w o Hok) as (ino & c & Hino' & Hc & Hn & Hmc).
  assert (ino = mm_ino mm) as -> by congruence.
  split.
  - unfold mapping_ok, handle_inode. simpl. rewrite Hi, Hc.
    by rewrite !bool_decide_eq_true_2.
  - rewrite Hmc. unfold mapped_content, handle_inode, storage_data. simpl.
    by rewrite Hi, Hc.
Qed.

(** [copy_] writes the (broadcast, converted) source into the mapping; a
    read at any index then returns the corresponding part of it, on any
    device. *)
Lemma copy_then_getitem_spec w l o v d ix off s :
  heap w !! l = Some o → mapping_ok w o = true → np_shape o ≠ [] →
  t_requires_grad v = false →
  length (tensor_data w v) = numel (t_shape v) →
  broadcast_to (t_shape v) (np_shape o) (tensor_data w v) = Some d →
  index_region (np_shape o) 0 ix = Ok (off, s) →
  ∃ w1 o1 t w2,
    copy_ l (AL_Tensor v) w = (Ok l, w1) ∧
    heap w1 !! l = Some o1 ∧
    mapped_content w1 o1 = convert (t_dtype v) (_dtype o) <$> d ∧
    MemmapTensor___getitem__ l ix w1 = (Ok t, w2) ∧
    t_shape t = s ∧
    tensor_data w2 t
      = take (numel s) (drop off (convert (t_dtype v) (_dtype o) <$> d)).
Proof.
  intros Hl Hok Hshape Hg Hlen Hbc Hix.
  destruct (np_shape o) as [|n rest] eqn:Hnp; [done|]. clear Hshape.
  destruct (tensor_to_numpy w v Hg) as (a & Hsrc & Has & Had & Hadata).
  destruct (get_memmap_array_ok w l o Hl Hok)
    as (mm & w' & Hget & Hino & Hms & Hmd & Hmm & Hid & Hnext & Hp & Hi & Hh).
  destruct (mapping_ok_inv w o Hok) as (ino & c & Hino' & Hc & Hn & Hmc).
  assert (ino = mm_ino mm) as -> by congruence.
  destruct (mapping_ok_opened w w' o mm Hok Hino Hms Hmd Hmm Hid Hi)
    as [Hok' Hmc'].
  set (o' := with__memmap_array (Some mm) o) in *.
  set (d' := convert (t_dtype v) (_dtype o) <$> d).
  pose proof (broadcast_to_length _ _ _ _ Hbc Hlen) as Hdlen.
  assert (Hd'len : length d' = numel (n :: rest))
    by (subst d'; by rewrite length_fmap).
  set (c' := write_window c 0 d').
  set (w1 := set_inodes (<[mm_ino mm := c']> (fs_inodes w')) w').
  assert (Hc1 : fs_inodes w' !! mm_ino mm = Some c) by (by rewrite Hi).
  assert (Hcopy : copy_ l (AL_Tensor v) w = (Ok l, w1)).
  { unfold copy_, _save_item. erewrite bind_ok; [reflexivity|].
    rewrite (bind_ok _ _ _ _ _ Hsrc), (bind_ok _ _ _ _ _ Hget).
    erewrite bind_ok by reflexivity.
    rewrite (memmap_setitem_full w' mm a n rest d Hmm); [|congruence|].
    2:{ rewrite Has, (Hadata Hlen w' Hi). exact Hbc. }
    subst w1 c' d'. unfold storage_data. by rewrite Hc1, Had, Hmd. }
  assert (Hl1 : heap w1 !! l = Some o').
  { subst w1. simpl. rewrite Hh. apply lookup_insert_eq. }
  assert (Hc'len : length c' = length c).
  { subst c'. apply write_window_length. rewrite Hnp in Hn. lia. }
  destruct (mapping_ok_write w' o' (mm_ino mm) c c' Hok' eq_refl Hc1 Hc'len)
    as [Hok1 Hmc1].
  fold w1 in Hok1, Hmc1.
  assert (Hcontent : mapped_content w1 o' = d').
  { rewrite Hmc1. change (np_shape o') with (np_shape o). rewrite Hnp.
    rewrite <- Hd'len. rewrite <- (drop_0 c').
    subst c'. apply read_write_window. rewrite Hnp in Hn. lia. }
  assert (Hix' : index_region (np_shape o') 0 ix = Ok (off, s))
    by (change (np_shape o') with (np_shape o); by rewrite Hnp).
  destruct (getitem_spec w1 l o' ix off s Hl1 Hok1 Hix')
    as (t & w2 & Hget' & Hts & _ & _ & Htd & _).
  exists w1, o', t, w2. split; [exact Hcopy|]. split; [exact Hl1|].
  split; [exact Hcontent|]. split; [exact Hget'|]. split; [exact Hts|].
  by rewrite Htd, Hcontent.
Qed.

(** ** What a write may change *)

Lemma write_frame_inodes w w0 w1 l ino :
  fs_paths w0 = fs_paths w → next_id w ≤ next_id w0 →
  fs_inodes w0 = fs_inodes w →
  (∀ l', l' ≠ l → heap w0 !! l' = heap w !! l') →
  fs_paths w1 = fs_paths w0 → next_id w1 = next_id w0 → heap w1 = heap w0 →
  (∀ j, j ≠ ino → fs_inodes w1 !! j = fs_inodes w0 !! j) →
  write_frame w w1 l ino.
Proof.
  intros Hp Hn Hi Hh Hp1 Hn1 Hh1 Hi1. unfold write_frame.
  rewrite Hp1, Hn1, Hh1. repeat split; try done.
  intros j Hj. by rewrite Hi1, Hi.
Qed.

Lemma storage_write_mapped_frame ino off new w :
  let w1 := (storage_write (Mapped ino) off new w).2 in
  fs_paths w1 = fs_paths w ∧ next_id w1 = next_id w ∧ heap w1 = heap w ∧
  ∀ j, j ≠ ino → fs_inodes w1 !! j = fs_inodes w !! j.
Proof.
  simpl. repeat split. intros j Hj. by rewrite lookup_insert_ne.
Qed.

Lemma memmap_setitem_frame mm ix src w :
  let w1 := (memmap_setitem mm ix src w).2 in
  fs_paths w1 = fs_paths w ∧ next_id w1 = next_id w ∧ heap w1 = heap w ∧
  ∀ j, j ≠ mm_ino mm → fs_inodes w1 !! j = fs_inodes w !! j.
Proof.
  unfold memmap_setitem. destruct (mm_mode mm); [done|].
  destruct (index_region _ _ _) as [[off s]|e]; [|done].
  unfold mbind, M_bind, get_world.
  destruct (broadcast_to _ _ _) as [d|]; [|done].
  simpl. repeat split. intros j Hj. by rewrite lookup_insert_ne.
Qed.

Lemma Tensor___setitem___frame t ix v w :
  let w1 := (Tensor___setitem__ t ix v w).2 in
  fs_paths w1 = fs_paths w ∧ next_id w1 = next_id w ∧ heap w1 = heap w ∧
  ∀ ino, (∀ j, t_storage t = Mapped j → j = ino) →
         ∀ j, j ≠ ino → fs_inodes w1 !! j = fs_inodes w !! j.
Proof.
  unfold Tensor___setitem__.
  destruct (index_region _ _ _) as [[off s]|e]; [|done].
  unfold mbind, M_bind, get_world.
  destruct (broadcast_to _ _ _) as [d|]; [|done].
  destruct (t_storage t) as [i|m] eqn:Hst; simpl; [|done].
  repeat split. intros ino Hino j Hj. rewrite lookup_insert_ne; [done|].
  intros ->. apply Hj. by apply Hino.
Qed.

Lemma setitem_frame w l o ino ix v :
  heap w !! l = Some o → mapping_ok w o = true → handle_inode w o = Some ino →
  write_frame w (MemmapTensor___setitem__ l ix v w).2 l ino.
Proof.
  intros Hl Hok Hino.
  destruct (tensor_spec w l o Hl Hok)
    as (w' & mm & Ht & Hino' & _ & Hp & Hi & Hnext & Hh & _).
  assert (ino = mm_ino mm) as -> by congruence.
  unfold MemmapTensor___setitem__. fold (_tensor l).
  rewrite (bind_ok _ _ _ _ _ Ht).
  pose proof (Tensor___setitem___frame (materialised w o (mm_ino mm)) ix v w')
    as Hf. simpl in Hf. destruct Hf as (Hp1 & Hn1 & Hh1 & Hi1).
  unfold mbind, M_bind.
  destruct (Tensor___setitem__ _ ix v w') as [[T'|e] w1]; simpl in *.
  all: apply (write_frame_inodes w w' w1 l (mm_ino mm)); try done.
  all: try (intros l' Hl'; rewrite Hh; by apply lookup_insert_ne).
  all: apply Hi1; intros j; unfold materialised; simpl;
    destruct (_device o); congruence.
Qed.

Lemma tensor_conv_cases v w :
  (∃ a, (t' ← Tensor_cpu v; a ← Tensor_numpy t'; mret (inl a)) w
          = (Ok (@inl ndarray nat a), w)) ∨
  (∃ e, (t' ← Tensor_cpu v; a ← Tensor_numpy t'; mret (inl a)) w
          = (@Raise (ndarray + nat) e, w)).
Proof.
  unfold Tensor_cpu, Tensor_numpy, mbind, M_bind, get_world, raise, mret, M_ret.
  destruct (t_device v) eqn:Hd, (t_requires_grad v) eqn:Hg; simpl;
    rewrite ?Hd, ?Hg; eauto.
Qed.

Lemma copy_frame w l o ino v :
  heap w !! l = Some o → mapping_ok w o = true → handle_inode w o = Some ino →
  write_frame w (copy_ l (AL_Tensor v) w).2 l ino.
Proof.
  intros Hl Hok Hino.
  destruct (get_memmap_array_ok w l o Hl Hok)
    as (mm & w' & Hget & Hino' & _ & _ & _ & _ & Hnext & Hp & Hi & Hh).
  assert (ino = mm_ino mm) as -> by congruence.
  assert (Hrefl : write_frame w w l (mm_ino mm)) by (by repeat split).
  unfold copy_, _save_item.
  destruct (tensor_conv_cases v w) as [[a Hc]|[e Hc]].
  2:{ erewrite bind_raise; [exact Hrefl|]. by erewrite bind_raise. }
  pose proof (memmap_setitem_frame mm (ISlice None None) a w') as Hf.
  simpl in Hf. destruct Hf as (Hp1 & Hn1 & Hh1 & Hi1).
  assert (Hw1 : write_frame w (memmap_setitem mm (ISlice None None) a w').2 l
                  (mm_ino mm)).
  { apply (write_frame_inodes w w' _ l (mm_ino mm)); try done.
    intros l' Hl'. rewrite Hh. by apply lookup_insert_ne. }
  destruct (memmap_setitem mm (ISlice None None) a w') as [[[]|e] w1] eqn:Hset.
  - erewrite bind_ok; [exact Hw1|].
    rewrite (bind_ok _ _ _ _ _ Hc), (bind_ok _ _ _ _ _ Hget).
    erewrite bind_ok by reflexivity. exact Hset.
  - erewrite bind_raise; [exact Hw1|].
    rewrite (bind_ok _ _ _ _ _ Hc), (bind_ok _ _ _ _ _ Hget).
    erewrite bind_ok by reflexivity. exact Hset.
Qed.

(** The content mapped by another handle, over another inode, is not
    affected. *)
Lemma mapped_content_frame w w1 l ino ob j :
  write_frame w w1 l ino → handle_inode w ob = Some j → j ≠ ino →
  handle_inode w1 ob = Some j ∧ mapped_content w1 ob = mapped_content w ob.
Proof.
  intros (Hp & _ & Hi & _) Hj Hne.
  assert (Hj1 : handle_inode w1 ob = Some j).
  { unfold handle_inode in *. destruct (_memmap_array ob); [done|].
    by rewrite Hp. }
  split; [done|]. unfold mapped_content, storage_data.
  by rewrite Hj, Hj1, Hi.
Qed.

(** ** Cloning a handle built from a tensor *)

Lemma requires_grad_not_in_dir : "requires_grad" ∉ MemmapTensor___dir__.
Proof. apply (bool_decide_unpack _). by vm_compute. Qed.

(** [elem.requires_grad] for a handle whose [_tensor_dir] is that of a
    tensor: the fallback materialises the handle and finds [False]. *)
Lemma getattr_requires_grad_spec w l o :
  heap w !! l = Some o → mapping_ok w o = true →
  "requires_grad" ∈ _tensor_dir o →
  ∃ w' mm,
    getattr_requires_grad (PyMemmapTensor l) w = (Ok (PyBool false), w') ∧
    _tensor l w = (Ok (materialised w o (mm_ino mm)), w') ∧
    handle_inode w o = Some (mm_ino mm) ∧
    fs_paths w' = fs_paths w ∧ fs_inodes w' = fs_inodes w ∧
    next_id w ≤ next_id w' ∧
    heap w' = <[l := with__memmap_array (Some mm) o]> (heap w) ∧
    mapping_ok w' (with__memmap_array (Some mm) o) = true ∧
    mapped_content w' (with__memmap_array (Some mm) o) = mapped_content w o.
Proof.
  intros Hl Hok Hdir.
  destruct (tensor_spec w l o Hl Hok) as (w' & mm & Ht & Hrest).
  exists w', mm. split; [|split; [exact Ht|]].
  - unfold getattr_requires_grad, MemmapTensor___getattr__.
    rewrite (bind_ok _ _ _ _ _ (deref_ok _ _ _ Hl)).
    rewrite (decide_False (P := "requires_grad" ∈ MemmapTensor___dir__))
      by apply requires_grad_not_in_dir.
    rewrite (decide_False (P := "requires_grad" ∉ _tensor_dir o)) by auto.
    rewrite (bind_ok _ _ _ _ _ Ht). reflexivity.
  - destruct Hrest as (? & _ & ? & ? & ? & ? & ? & ?). by repeat split.
Qed.

(** A clone of a clone: the attribute is not found. *)
Lemma getattr_requires_grad_missing w l o :
  heap w !! l = Some o → "requires_grad" ∉ _tensor_dir o →
  getattr_requires_grad (PyMemmapTensor l) w = (Raise AttributeError, w).
Proof.
  intros Hl Hdir. unfold getattr_requires_grad, MemmapTensor___getattr__.
  rewrite (bind_ok _ _ _ _ _ (deref_ok _ _ _ Hl)).
  rewrite (decide_False (P := "requires_grad" ∈ MemmapTensor___dir__))
    by apply requires_grad_not_in_dir.
  by rewrite (decide_True (P := "requires_grad" ∉ _tensor_dir o)).
Qed.

(** Cloning a handle that was itself built from a [MemmapTensor] raises
    [AttributeError] and leaves the world as it was. *)
Lemma clone_of_MemmapTensor_built w l o :
  heap w !! l = Some o → _tensor_dir o = MemmapTensor___dir__ →
  clone l w = (Raise AttributeError, w).
Proof.
  intros Hl Hdir. apply MemmapTensor_new_early_raise.
  unfold MemmapTensor___init__.
  change (negb (isinstance (PyMemmapTensor l) _)) with false. cbv iota.
  erewrite bind_raise; [reflexivity|].
  apply (getattr_requires_grad_missing w l o Hl).
  rewrite Hdir. apply requires_grad_not_in_dir.
Qed.

Local Arguments numel : simpl never.

Lemma clone_spec w l o ino :
  heap w !! l = Some o → mapping_ok w o = true →
  "requires_grad" ∈ _tensor_dir o →
  _shape o = np_shape o → np_shape o ≠ [] →
  handle_inode w o = Some ino → fs_paths w !! filename o = Some ino →
  ∃ l2 w1 o1 o2 ino2,
    clone l w = (Ok l2, w1) ∧ l2 ≠ l ∧
    heap w1 !! l = Some o1 ∧ heap w1 !! l2 = Some o2 ∧
    filename o1 = filename o ∧ filename o2 ≠ filename o ∧
    fs_paths w !! filename o2 = None ∧
    handle_inode w1 o1 = Some ino ∧ handle_inode w1 o2 = Some ino2 ∧
    ino2 ≠ ino ∧
    mapping_ok w1 o1 = true ∧ mapping_ok w1 o2 = true ∧
    mapped_content w1 o1 = mapped_content w o ∧
    mapped_content w1 o2 = mapped_content w o ∧
    np_shape o2 = np_shape o ∧ _dtype o2 = _dtype o ∧ _device o2 = _device o ∧
    handle_ok o2 = true ∧ _has_ownership o2 = true ∧
    transfer_ownership o2 = false ∧
    _tensor_dir o2 = MemmapTensor___dir__ ∧
    _shape o2 = _shape o ∧ _ndim o2 = _ndim o ∧ _numel o2 = _numel o ∧
    fs_paths w1 !! filename o2 = Some ino2 ∧
    same_but_memmap_array o o1.
Proof.
  intros Hl Hok Hdir Hshape Hnil Hino Hpath.
  destruct (getattr_requires_grad_spec w l o Hl Hok Hdir)
    as (w' & mm & Hrg & _ & Hino' & Hp & Hi & Hnext & Hh & Hok' & Hmc').
  assert (ino = mm_ino mm) as -> by congruence.
  destruct (mapping_ok_inv w o Hok) as (ino & c & Hino'' & Hc & Hn & Hmc).
  assert (ino = mm_ino mm) as -> by congruence. clear Hino' Hino''.
  destruct (np_shape o) as [|n rest] eqn:Hnp; [done|]. clear Hnil.
  set (o' := with__memmap_array (Some mm) o) in *.
  set (l2 := fresh (dom (heap w))).
  set (p2 := fresh (dom (fs_paths w'))). set (i2 := fresh (dom (fs_inodes w'))).
  assert (Hl2 : l2 ≠ l).
  { intros E. pose proof (fresh_loc_free w) as Hfr. fold l2 in Hfr.
    rewrite E in Hfr. congruence. }
  assert (Hp2 : p2 ≠ filename o).
  { intros E. pose proof (fresh_path_free w') as Hfr. fold p2 in Hfr.
    rewrite E, Hp in Hfr. congruence. }
  assert (Hi2 : i2 ≠ mm_ino mm).
  { intros E. pose proof (fresh_inode_free w') as Hfr. fold i2 in Hfr.
    rewrite E, Hi in Hfr. congruence. }
  assert (Hc' : fs_inodes w' !! mm_ino mm = Some c) by (by rewrite Hi).
  assert (Hpath' : fs_paths w' !! filename o = Some (mm_ino mm))
    by (by rewrite Hp).
  assert (Hmmid : mm_id mm < next_id w').
  { unfold mapping_ok in Hok'. simpl in Hok'.
    destruct (fs_inodes w' !! mm_ino mm); [|done].
    apply andb_true_iff in Hok' as [_ Hb].
    apply bool_decide_eq_true in Hb. tauto. }
  set (file2 := tempfile.mkWrapper p2 true (tempfile.mkCloser p2 true false)).
  set (o2a := mkMemmapTensor None None (Some file2) p2 (_device o) (_shape o)
                false (_shape o) (_dtype o) MemmapTensor___dir__ (_ndim o)
                (_numel o) mode_rplus true).
  set (mm2 := mkMemmap (S (next_id w')) i2 mode_rplus (_dtype o) (_shape o)).
  set (o2 := with__memmap_array (Some mm2) o2a).
  set (w1 := mkWorld (<[p2 := i2]> (fs_paths w'))
               (<[i2 := take (numel (n :: rest)) c]> (fs_inodes w'))
               (<[l2 := o2]> (heap w')) (S (S (next_id w')))).
  assert (Hclone : clone l w = (Ok l2, w1)).
  { unfold clone, MemmapTensor_new. erewrite bind_ok by reflexivity. fold l2.
    erewrite bind_ok; [reflexivity|]. apply catch_ok.
    unfold MemmapTensor___init__.
    change (negb (isinstance (PyMemmapTensor l) _)) with false. cbv iota.
    rewrite (bind_ok _ _ _ _ _ Hrg). cbv iota beta. unfold truthy. cbv iota.
    erewrite bind_ok by reflexivity. fold p2 i2.
    set (wa := set_paths (<[p2:=i2]> (fs_paths w'))
                 (set_inodes (<[i2:=[]]> (fs_inodes w')) w')).
    assert (Hla : heap wa !! l = Some o')
      by (subst wa; simpl; rewrite Hh; apply lookup_insert_eq).
    rewrite (bind_ok _ _ _ _ _ (deref_ok _ _ _ Hla)).
    erewrite bind_ok by reflexivity.
    change (tempfile.name _) with p2. change (_device o') with (_device o).
    change (_shape o') with (_shape o). change (_dtype o') with (_dtype o).
    change (_ndim o') with (_ndim o). change (_numel o') with (_numel o).
    change (filename o') with (filename o). fold file2. fold o2a.
    set (wb := mkWorld (<[p2:=i2]> (fs_paths w')) (<[i2:=[]]> (fs_inodes w'))
                 (<[l2:=o2a]> (heap w')) (next_id w')).
    change (set_heap _ wa) with wb.
    (* _copy_item *)
    set (src := mkMemmap (next_id w') (mm_ino mm) mode_r (_dtype o) (_shape o)).
    set (wc := mkWorld (<[p2:=i2]> (fs_paths w'))
                 (<[mm_ino mm := c]> (<[i2:=[]]> (fs_inodes w')))
                 (<[l2:=o2a]> (heap w')) (S (next_id w'))).
    assert (Hsrc : np_memmap (filename o) (torch_to_numpy_dtype_dict (_dtype o))
                     mode_r (_shape o) wb = (Ok src, wc)).
    { unfold np_memmap. simpl.
      rewrite lookup_insert_ne by done. rewrite Hpath'.
      rewrite lookup_insert_ne by done. rewrite Hc'. simpl.
      rewrite decide_False by lia.
      rewrite decide_False by (rewrite Hshape; lia). reflexivity. }
    set (wd := mkWorld (<[p2:=i2]> (fs_paths w'))
                 (<[i2 := replicate (numel (n :: rest)) 0%Z]>
                    (<[mm_ino mm := c]> (<[i2:=[]]> (fs_inodes w'))))
                 (<[l2:=o2]> (<[l2:=o2a]> (heap w'))) (S (S (next_id w')))).
    assert (Hopen : _get_memmap_array l2 wc = (Ok mm2, wd)).
    { rewrite (get_memmap_array_open wc l2 o2a i2 []); simpl.
      - subst wd mm2 o2. simpl. rewrite Hshape, Nat.sub_0_r. reflexivity.
      - apply lookup_insert_eq.
      - reflexivity.
      - reflexivity.
      - apply lookup_insert_eq.
      - rewrite lookup_insert_ne by done. apply lookup_insert_eq.
      - left. rewrite Hshape. lia. }
    set (we := set_inodes (<[i2 := take (numel (n :: rest)) c]> (fs_inodes wd)) wd).
    assert (Hwrite : memmap_setitem mm2 (ISlice None None) (memmap_view src) wd
                     = (Ok tt, we)).
    { rewrite (memmap_setitem_full wd mm2 (memmap_view src) n rest
                 (take (numel (n :: rest)) c)); [|reflexivity|exact Hshape|].
      - subst we. simpl. rewrite lookup_insert_eq. simpl.
        rewrite convert_same, write_window_all; [reflexivity|].
        rewrite length_replicate, length_take. lia.
      - assert (Hd : ndarray_data wd (memmap_view src) = take (numel (n :: rest)) c).
        { unfold ndarray_data, read_window. simpl.
          rewrite lookup_insert_ne by done. rewrite lookup_insert_eq. simpl.
          by rewrite drop_0, Hshape. }
        rewrite Hd. simpl. rewrite Hshape. apply broadcast_to_same.
        rewrite length_take. lia. }
    assert (Hcopy : _copy_item l2 (filename o) wb = (Ok tt, we)).
    { unfold _copy_item.
      assert (Hlb : heap wb !! l2 = Some o2a) by apply lookup_insert_eq.
      rewrite (bind_ok _ _ _ _ _ (deref_ok _ _ _ Hlb)).
      change (np_shape o2a) with (_shape o). change (_dtype o2a) with (_dtype o).
      rewrite (bind_ok _ _ _ _ _ Hsrc), (bind_ok _ _ _ _ _ Hopen).
      exact Hwrite. }
    rewrite (bind_ok _ _ _ _ _ Hcopy).
    assert (Hle2 : heap we !! l2 = Some o2) by apply lookup_insert_eq.
    assert (Hle : heap we !! l = Some o').
    { subst we wd. simpl. rewrite !lookup_insert_ne by done.
      rewrite Hh. apply lookup_insert_eq. }
    rewrite (bind_ok _ _ _ _ _ (get_memmap_array_cached we l2 o2 mm2 Hle2 eq_refl)).
    rewrite (bind_ok _ _ _ _ _ (get_memmap_array_cached we l o' mm Hle eq_refl)).
    rewrite decide_False by (simpl; lia).
    unfold mret, M_ret. f_equal. subst we wd w1. unfold set_inodes. simpl.
    f_equal.
    - rewrite insert_insert_eq.
      rewrite (insert_insert_ne (fs_inodes w') (mm_ino mm) i2) by done.
      rewrite insert_insert_eq. f_equal. by apply insert_id.
    - by rewrite insert_insert_eq. }
  assert (Hmm : mm_shape mm = n :: rest ∧ mm_dtype mm = _dtype o ∧
                mm_mode mm = mode_rplus).
  { unfold mapping_ok in Hok'. simpl in Hok'. rewrite Hc' in Hok'.
    apply andb_true_iff in Hok' as [_ Hb].
    apply bool_decide_eq_true in Hb. rewrite Hnp in Hb. tauto. }
  destruct Hmm as (Hms & Hmd & Hmo).
  assert (Hfree : fs_paths w !! p2 = None).
  { rewrite <- Hp. apply fresh_path_free. }
  exists l2, w1, o', o2, i2.
  split; [exact Hclone|]. split; [exact Hl2|].
  split. { subst w1. simpl. rewrite lookup_insert_ne by done.
           rewrite Hh. apply lookup_insert_eq. }
  split. { subst w1. simpl. apply lookup_insert_eq. }
  split; [reflexivity|]. split; [exact Hp2|]. split; [exact Hfree|].
  split; [reflexivity|]. split; [reflexivity|]. split; [exact Hi2|].
  split.
  { unfold mapping_ok, handle_inode. simpl.
    rewrite lookup_insert_ne by done. rewrite Hc', Hnp.
    rewrite !bool_decide_eq_true_2; [done| |lia]. repeat split; try done. lia. }
  split.
  { unfold mapping_ok, handle_inode. simpl. rewrite lookup_insert_eq, Hshape.
    rewrite !bool_decide_eq_true_2; [done| |].
    - repeat split; try done. lia.
    - rewrite length_take. lia. }
  split.
  { rewrite Hmc. unfold mapped_content, handle_inode, storage_data. simpl.
    rewrite lookup_insert_ne by done. by rewrite Hc', Hnp. }
  split.
  { rewrite Hmc. unfold mapped_content, handle_inode, storage_data. simpl.
    rewrite lookup_insert_eq, Hshape. simpl. apply take_idemp. }
  split; [exact Hshape|]. split; [reflexivity|]. split; [reflexivity|].
  split; [unfold handle_ok; simpl; by rewrite !bool_decide_eq_true_2|].
  do 6 (split; [reflexivity|]).
  split; [subst w1; simpl; apply lookup_insert_eq|reflexivity].
Qed.

(** A handle built from a tensor and its clone do not share storage: the
    clone has a file of its own with the same content, and a write
    through either handle ([copy_] or an indexed assignment, whatever its
    arguments and its outcome) leaves the content mapped by the other as
    it was. *)
Lemma clone_independent w l o ino :
  heap w !! l = Some o → mapping_ok w o = true →
  "requires_grad" ∈ _tensor_dir o →
  _shape o = np_shape o → np_shape o ≠ [] →
  handle_inode w o = Some ino → fs_paths w !! filename o = Some ino →
  ∃ l2 w1 o1 o2,
    clone l w = (Ok l2, w1) ∧
    heap w1 !! l = Some o1 ∧ heap w1 !! l2 = Some o2 ∧
    filename o2 ≠ filename o1 ∧
    handle_inode w1 o2 ≠ handle_inode w1 o1 ∧
    mapped_content w1 o2 = mapped_content w o ∧
    mapped_content w1 o1 = mapped_content w o ∧
    (∀ v, mapped_content (copy_ l2 (AL_Tensor v) w1).2 o1 = mapped_content w1 o1) ∧
    (∀ ix v, mapped_content (MemmapTensor___setitem__ l2 ix v w1).2 o1
             = mapped_content w1 o1) ∧
    (∀ v, mapped_content (copy_ l (AL_Tensor v) w1).2 o2 = mapped_content w1 o2) ∧
    (∀ ix v, mapped_content (MemmapTensor___setitem__ l ix v w1).2 o2
             = mapped_content w1 o2).
Proof.
  intros Hl Hok Hdir Hshape Hnil Hino Hpath.
  destruct (clone_spec w l o ino Hl Hok Hdir Hshape Hnil Hino Hpath)
    as (l2 & w1 & o1 & o2 & ino2 & Hclone & Hne & Hl1 & Hl2 & Hf1 & Hf2 & _
        & Hi1 & Hi2 & Hino2 & Hok1 & Hok2 & Hc1 & Hc2 & _).
  exists l2, w1, o1, o2. split; [exact Hclone|]. split; [exact Hl1|].
  split; [exact Hl2|]. split; [congruence|]. split; [congruence|].
  split; [exact Hc2|]. split; [exact Hc1|].
  split; [|split; [|split]].
  - intros v.
    exact (proj2 (mapped_content_frame w1 _ l2 ino2 o1 ino
                    (copy_frame w1 l2 o2 ino2 v Hl2 Hok2 Hi2) Hi1
                    ltac:(congruence))).
  - intros ix v.
    exact (proj2 (mapped_content_frame w1 _ l2 ino2 o1 ino
                    (setitem_frame w1 l2 o2 ino2 ix v Hl2 Hok2 Hi2) Hi1
                    ltac:(congruence))).
  - intros v.
    exact (proj2 (mapped_content_frame w1 _ l ino o2 ino2
                    (copy_frame w1 l o1 ino v Hl1 Hok1 Hi1) Hi2 Hino2)).
  - intros ix v.
    exact (proj2 (mapped_content_frame w1 _ l ino o2 ino2
                    (setitem_frame w1 l o1 ino ix v Hl1 Hok1 Hi1) Hi2 Hino2)).
Qed.

(** Every handle built from a supported tensor can be cloned, and the
    clone is independent of it. *)
Lemma clone_after_construction w x to :
  supported w x = true →
  ∃ l w1 l2 w2 o1 o2,
    MemmapTensor_new (PyTensor x) to w = (Ok l, w1) ∧
    clone l w1 = (Ok l2, w2) ∧
    heap w2 !! l = Some o1 ∧ heap w2 !! l2 = Some o2 ∧
    filename o2 ≠ filename o1 ∧
    handle_inode w2 o2 ≠ handle_inode w2 o1 ∧
    mapped_content w2 o2 = tensor_data w x ∧
    mapped_content w2 o1 = tensor_data w x ∧
    (∀ v, mapped_content (copy_ l2 (AL_Tensor v) w2).2 o1 = mapped_content w2 o1) ∧
    (∀ ix v, mapped_content (MemmapTensor___setitem__ l2 ix v w2).2 o1
             = mapped_content w2 o1) ∧
    (∀ v, mapped_content (copy_ l (AL_Tensor v) w2).2 o2 = mapped_content w2 o2) ∧
    (∀ ix v, mapped_content (MemmapTensor___setitem__ l ix v w2).2 o2
             = mapped_content w2 o2).
Proof.
  intros Hsup.
  destruct (constructed_sound w x to Hsup)
    as (l & w1 & o & Hnew & Hl & _ & _ & _ & Hok & Hc & Hdir & Hs & Hnil & _ & Hp).
  destruct (mapping_ok_inv w1 o Hok) as (ino & d & Hino & _).
  rewrite Hino in Hp.
  destruct (clone_independent w1 l o ino Hl Hok Hdir Hs Hnil Hino Hp)
    as (l2 & w2 & o1 & o2 & Hclone & Hl1 & Hl2 & Hf & Hi & Hc2 & Hc1 & Hrest).
  exists l, w1, l2, w2, o1, o2. rewrite <- Hc.
  split; [exact Hnew|]. split; [exact Hclone|]. auto 10.
Qed.

(** ** Write, then read *)

(** C2 at the failing input.  For a handle whose device is [cuda:0],
    [m[0] = 7] followed by [m[0]] gives back the old element 1: the write
    went to the copy that [torch.as_tensor] made on the device and never
    reached the mapping.  On the CPU the same statements give 7, and
    [copy_], which writes into the mapping itself, is read back on either
    device. *)
Theorem setitem_lost_off_cpu :
  setitem_then_getitem demo_cuda_tensor = Ok [1%Z] ∧
  setitem_then_getitem demo_tensor = Ok [7%Z] ∧
  copy_then_getitem demo_cuda_tensor = Ok [7%Z] ∧
  copy_then_getitem demo_tensor = Ok [7%Z].
Proof. repeat split; vm_compute; reflexivity. Qed.

(** ** Cloning *)

(** C5 at the failing input.  A first clone succeeds: it has a file of
    its own (another name, another inode) with the same content.  But the
    clone recorded [dir] of a [MemmapTensor] as its [_tensor_dir], which
    does not list [requires_grad]; cloning the clone therefore stops in
    [__init__] with [AttributeError], before any file is created. *)
Theorem clone_of_clone_raises :
  let '(r1, w1) :=
    (m ← MemmapTensor_new (PyTensor demo_tensor) false; clone m) empty_world in
  let '(r2, w2) := (c ← mret 1; clone c) w1 in
  r1 = Ok 1 ∧
  (filename <$> heap w1 !! 0) = Some "0"%string ∧
  (filename <$> heap w1 !! 1) = Some "1"%string ∧
  (mapped_content w1 <$> heap w1 !! 0) = Some [1; 2]%Z ∧
  (mapped_content w1 <$> heap w1 !! 1) = Some [1; 2]%Z ∧
  r2 = Raise AttributeError ∧
  fs_paths w2 = fs_paths w1.
Proof. vm_compute. repeat split. Qed.

(** ** The theorems at work on a concrete handle *)

Lemma transfer_on_serialization_witness :
  (∃ state w1 l2 w2 o1 o2,
     MemmapTensor___reduce__ 0 demo_world_transfer = (Ok state, w1) ∧
     unpickle state w1 = (Ok l2, w2) ∧
     heap w2 !! 0 = Some o1 ∧ heap w2 !! l2 = Some o2 ∧
     _has_ownership o2 = true ∧ _has_ownership o1 = false) ∧
  (∃ state w1 l2 w2 o1 o2,
     MemmapTensor___reduce__ 0 demo_world = (Ok state, w1) ∧
     unpickle state w1 = (Ok l2, w2) ∧
     heap w2 !! 0 = Some o1 ∧ heap w2 !! l2 = Some o2 ∧
     _has_ownership o1 = true ∧ _has_ownership o2 = false) ∧
  (∃ state w1 l2 w2 o1 o2,
     MemmapTensor___reduce__ 0 demo_world_reduced = (Ok state, w1) ∧
     unpickle state w1 = (Ok l2, w2) ∧
     heap w2 !! 0 = Some o1 ∧ heap w2 !! l2 = Some o2 ∧
     transfer_ownership state = true ∧
     _has_ownership o2 = false ∧ _has_ownership o1 = false).
Proof.
  split; [|split].
  - destruct (transfer_on_serialization demo_world_transfer 0
                (constructed empty_world demo_tensor true)
                ltac:(vm_compute; reflexivity) eq_refl)
      as (state & w1 & l2 & w2 & o1 & o2 & H1 & H2 & _ & _ & H3 & H4 & _ & _
          & _ & _ & _ & _ & _ & _ & Hown & _).
    exists state, w1, l2, w2, o1, o2.
    destruct (proj1 (Hown eq_refl) eq_refl). auto 10.
  - destruct (transfer_on_serialization demo_world 0
                (constructed empty_world demo_tensor false)
                ltac:(vm_compute; reflexivity) eq_refl)
      as (state & w1 & l2 & w2 & o1 & o2 & H1 & H2 & _ & _ & H3 & H4 & _ & _
          & _ & _ & _ & _ & _ & _ & Hown & _).
    exists state, w1, l2, w2, o1, o2.
    destruct (proj2 (Hown eq_refl) eq_refl). auto 10.
  - destruct (transfer_on_serialization demo_world_reduced 0
                (default (constructed empty_world demo_tensor true)
                   (heap demo_world_reduced !! 0)))
      as (state & w1 & l2 & w2 & o1 & o2 & H1 & H2 & _ & _ & H3 & H4 & _ & _
          & _ & Ht & _ & _ & _ & _ & _ & Hnot);
      [vm_compute; reflexivity|vm_compute; reflexivity|].
    exists state, w1, l2, w2, o1, o2.
    destruct (Hnot ltac:(vm_compute; reflexivity)).
    split; [exact H1|]. split; [exact H2|]. split; [exact H3|].
    split; [exact H4|]. split; [|by split].
    rewrite Ht. vm_compute. reflexivity.
Defined.

Lemma destroy_deletes_iff_owner_witness :
  ∃ w', destroy 0 demo_world = (Ok tt, w') ∧
        heap w' !! 0 = None ∧
        fs_paths w' !! "0"%string = None.
Proof.
  destruct (destroy_deletes_iff_owner demo_world 0
              (constructed empty_world demo_tensor false)
              ltac:(vm_compute; reflexivity) eq_refl)
    as (w' & H1 & H2 & _ & Hown & _).
  exists w'. split; [exact H1|]. split; [exact H2|].
  exact (proj1 (Hown eq_refl)).
Defined.

Lemma serialization_side_effects_witness :
  ∃ state w1 o1,
    MemmapTensor___reduce__ 0 demo_world_transfer = (Ok state, w1) ∧
    heap w1 !! 0 = Some o1 ∧
    _has_ownership o1 = false ∧
    _has_ownership state = true ∧
    ∃ w2 w3,
      run_ops 0 [op_set_transfer_ownership (PyBool false); op_reduce;
                 op_getitem (IInt 1)] w1 = (Ok tt, w2) ∧
      destroy 0 w2 = (Ok tt, w3) ∧
      fs_paths w3 = fs_paths demo_world_transfer.
Proof.
  destruct (serialization_side_effects demo_world_transfer 0
              (constructed empty_world demo_tensor true)
              (tempfile.mkWrapper "0" true (tempfile.mkCloser "0" true false))
              ltac:(vm_compute; reflexivity) eq_refl)
    as [_ Hred].
  destruct (Hred eq_refl)
    as (state & w1 & o1 & f1 & H1 & H2 & _ & _ & _ & H3 & H4 & _ & Hperm).
  destruct (Hperm eq_refl [op_set_transfer_ownership (PyBool false); op_reduce;
                           op_getitem (IInt 1)])
    as (w2 & w3 & H5 & H6 & H7).
  exists state, w1, o1. split; [exact H1|]. split; [exact H2|].
  split; [exact H3|]. split; [exact H4|]. exists w2, w3. auto.
Defined.

(** * Further properties *)

(** ** The materialised tensor, wherever it is read *)

Lemma materialised_data w w' o ino :
  mapping_ok w o = true → handle_inode w o = Some ino →
  fs_inodes w' = fs_inodes w →
  tensor_data w' (materialised w o ino) = mapped_content w o.
Proof.
  intros Hok Hino Hi.
  destruct (mapping_ok_inv w o Hok) as (ino' & d & Hino' & Hd & Hn & Hc).
  assert (ino' = ino) as -> by congruence.
  unfold tensor_data, read_window, materialised. simpl. rewrite drop_0.
  destruct (_device o); simpl.
  - by rewrite Hi, Hd, Hc.
  - rewrite Hc. by rewrite take_take, Nat.min_id.
Qed.

Lemma quiet_Tensor_clone t : quiet (Tensor_clone t).
Proof. unfold Tensor_clone. quiet_tac. Qed.
Lemma quiet_Tensor_detach t : quiet (Tensor_detach t).
Proof. unfold Tensor_detach. quiet_tac. Qed.
Lemma quiet_Tensor_to_device t d : quiet (Tensor_to_device t d).
Proof. unfold Tensor_to_device. quiet_tac. Qed.
Lemma quiet_Tensor_to_dtype t d : quiet (Tensor_to_dtype t d).
Proof. unfold Tensor_to_dtype. quiet_tac. Qed.
Lemma quiet_Tensor_select t d i : quiet (Tensor_select t d i).
Proof. unfold Tensor_select. quiet_tac. Qed.
Hint Resolve quiet_Tensor_clone quiet_Tensor_detach quiet_Tensor_to_device
  quiet_Tensor_to_dtype quiet_Tensor_select : quiet.

Lemma quiet_for_each {A B} (f : A → M B) l :
  (∀ a, quiet (f a)) → quiet (for_each f l).
Proof. intros Hf. induction l; simpl; quiet_tac. Qed.

Lemma quiet_contiguous l : quiet (contiguous l).
Proof. unfold contiguous. quiet_tac. Qed.
Lemma quiet_cpu l : quiet (MemmapTensor_cpu l).
Proof. unfold MemmapTensor_cpu. quiet_tac. Qed.
Lemma quiet_numpy l : quiet (MemmapTensor_numpy l).
Proof. unfold MemmapTensor_numpy. quiet_tac. Qed.
Lemma quiet_unbind l dim : quiet (MemmapTensor_unbind l dim).
Proof.
  unfold MemmapTensor_unbind. apply quiet_bind; [apply quiet_deref|].
  intros o. destruct (tuple_getitem _ _); [|apply quiet_raise].
  apply quiet_for_each. intros i. unfold MemmapTensor___getitem___select.
  quiet_tac.
Qed.
Lemma quiet_to_device td l dest :
  (∀ dt, dest ≠ dest_dtype dt) → quiet (MemmapTensor_to td l dest).
Proof.
  intros Hd. unfold MemmapTensor_to. destruct dest as [v|d|dt].
  - destruct (isinstance _ _); [|apply quiet_raise].
    destruct (td v); quiet_tac.
  - quiet_tac.
  - by destruct (Hd dt).
Qed.

(** ** Copies and views handed out by a handle *)

(** X1.  [contiguous()] returns a snapshot: a tensor in memory of its
    own, with the shape, dtype and device of the handle, holding the
    elements the handle maps at the time of the call.  No file is created
    or changed, and whatever happens to the file later, the tensor keeps
    those elements. *)
Theorem contiguous_snapshot (w : world) (l : nat) (o : MemmapTensor) :
  heap w !! l = Some o → mapping_ok w o = true →
  ∃ t w',
    contiguous l w = (Ok t, w') ∧
    t_storage t = Memory (mapped_content w o) ∧
    t_shape t = np_shape o ∧ t_dtype t = _dtype o ∧ t_device t = _device o ∧
    fs_paths w' = fs_paths w ∧ fs_inodes w' = fs_inodes w ∧
    ∀ w'', tensor_data w'' t = mapped_content w o.
Proof.
  intros Hl Hok.
  destruct (tensor_spec w l o Hl Hok)
    as (w' & mm & Ht & Hino & Hdata & Hp & Hi & _).
  unfold contiguous. rewrite (bind_ok _ _ _ _ _ Ht).
  unfold Tensor_clone. erewrite bind_ok by reflexivity.
  eexists _, w'. split; [reflexivity|]. cbn [t_storage t_shape t_dtype t_device].
  rewrite Hdata. do 6 (split; [done|]).
  intros w''. unfold tensor_data, read_window. simpl. rewrite drop_0.
  apply take_ge. by rewrite (mapped_content_length w o Hok).
Qed.

Lemma contiguous_snapshot_witness :
  ∃ t w',
    contiguous 0 demo_world_matrix = (Ok t, w') ∧
    t_storage t = Memory [1; 2; 3; 4; 5; 6]%Z ∧ t_shape t = [2; 3].
Proof.
  destruct (contiguous_snapshot demo_world_matrix 0 _ eq_refl eq_refl)
    as (t & w' & H1 & H2 & H3 & _).
  exists t, w'. split; [exact H1|]. split; [exact H2|exact H3].
Defined.

(** X2.  [cpu()] returns a CPU tensor with the elements the handle maps.
    For a handle whose device is the CPU it is a view of the file itself:
    in any later world it holds what the file holds then.  For a handle on
    another device it is a copy, which later writes do not reach. *)
Theorem cpu_view_or_copy (w : world) (l : nat) (o : MemmapTensor) :
  heap w !! l = Some o → mapping_ok w o = true →
  ∃ t w' ino,
    MemmapTensor_cpu l w = (Ok t, w') ∧
    handle_inode w o = Some ino ∧
    t_device t = cpu ∧ t_shape t = np_shape o ∧ t_dtype t = _dtype o ∧
    tensor_data w' t = mapped_content w o ∧
    fs_paths w' = fs_paths w ∧ fs_inodes w' = fs_inodes w ∧
    (_device o = cpu →
       ∀ w'', tensor_data w'' t
              = take (numel (np_shape o)) (storage_data w'' (Mapped ino))) ∧
    (_device o ≠ cpu → ∀ w'', tensor_data w'' t = mapped_content w o).
Proof.
  intros Hl Hok.
  destruct (tensor_spec w l o Hl Hok)
    as (w' & mm & Ht & Hino & Hdata & Hp & Hi & _).
  pose proof (mapped_content_length w o Hok) as Hlen.
  unfold MemmapTensor_cpu. rewrite (bind_ok _ _ _ _ _ Ht).
  unfold Tensor_cpu. unfold materialised at 1. cbn [t_device].
  destruct (_device o) as [|k] eqn:Hdev.
  - eexists _, w', (mm_ino mm). split; [reflexivity|].
    split; [exact Hino|].
    unfold materialised at 1 2 3. cbn [t_device t_shape t_dtype].
    rewrite Hdev. do 3 (split; [done|]). split; [exact Hdata|].
    do 2 (split; [done|]). split; [|done].
    intros _ w''. unfold tensor_data, read_window, materialised. simpl.
    rewrite Hdev. by rewrite drop_0.
  - erewrite bind_ok by reflexivity.
    eexists _, w', (mm_ino mm). split; [reflexivity|].
    split; [exact Hino|]. cbn [t_device t_shape t_dtype].
    do 3 (split; [done|]).
    assert (Hcopy : ∀ w'',
              tensor_data w''
                (mkTensor (Memory (tensor_data w' (materialised w o (mm_ino mm)))) 0
                   (t_shape (materialised w o (mm_ino mm)))
                   (t_dtype (materialised w o (mm_ino mm))) cpu
                   (t_requires_grad (materialised w o (mm_ino mm))))
              = mapped_content w o).
    { intros w''. unfold tensor_data at 1, read_window. simpl.
      rewrite drop_0, Hdata. apply take_ge. by rewrite Hlen. }
    split; [apply Hcopy|]. do 2 (split; [done|]). split; [done|].
    intros _. apply Hcopy.
Qed.

Lemma cpu_view_or_copy_witness :
  (∃ t w' ino,
     MemmapTensor_cpu 0 demo_world = (Ok t, w') ∧
     tensor_data w' t = [1; 2]%Z ∧
     ∀ w'', tensor_data w'' t = take 2 (storage_data w'' (Mapped ino))) ∧
  (∃ t w',
     MemmapTensor_cpu 0 demo_world_cuda = (Ok t, w') ∧
     t_device t = cpu ∧ ∀ w'', tensor_data w'' t = [1; 2]%Z).
Proof.
  split.
  - destruct (cpu_view_or_copy demo_world 0 _ eq_refl eq_refl)
      as (t & w' & ino & H1 & _ & _ & _ & _ & H2 & _ & _ & H3 & _).
    exists t, w', ino. split; [exact H1|]. split; [exact H2|exact (H3 eq_refl)].
  - destruct (cpu_view_or_copy demo_world_cuda 0 _ eq_refl eq_refl)
      as (t & w' & ino & H1 & _ & H2 & _ & _ & _ & _ & _ & _ & H3).
    exists t, w'. split; [exact H1|]. split; [exact H2|].
    exact (H3 ltac:(discriminate)).
Defined.

(** X3.  [numpy()] only works for a handle whose device is the CPU: it
    then returns an array over the mapped file itself, holding the mapped
    elements.  For a handle on any other device it raises [TypeError]
    (torch does not convert a device tensor to numpy), after the mapping
    was opened; no directory entry and no file content changes. *)
Theorem numpy_cpu_only (w : world) (l : nat) (o : MemmapTensor) :
  heap w !! l = Some o → mapping_ok w o = true →
  (_device o = cpu →
     ∃ w' ino,
       MemmapTensor_numpy l w
         = (Ok (mkNdarray (Mapped ino) 0 (np_shape o) (_dtype o)), w') ∧
       handle_inode w o = Some ino ∧
       ndarray_data w' (mkNdarray (Mapped ino) 0 (np_shape o) (_dtype o))
         = mapped_content w o ∧
       fs_paths w' = fs_paths w ∧ fs_inodes w' = fs_inodes w) ∧
  (_device o ≠ cpu →
     ∃ w',
       MemmapTensor_numpy l w = (Raise TypeError, w') ∧
       fs_paths w' = fs_paths w ∧ fs_inodes w' = fs_inodes w).
Proof.
  intros Hl Hok.
  destruct (tensor_spec w l o Hl Hok)
    as (w' & mm & Ht & Hino & Hdata & Hp & Hi & _).
  unfold MemmapTensor_numpy. rewrite (bind_ok _ _ _ _ _ Ht).
  unfold Tensor_numpy, materialised.
  cbn [t_requires_grad t_device t_storage t_offset t_shape t_dtype].
  split; intros Hdev.
  - unfold tensor_data, materialised in Hdata. rewrite Hdev in *.
    exists w', (mm_ino mm). split; [reflexivity|].
    split; [exact Hino|]. split; [|done]. exact Hdata.
  - destruct (_device o); [done|]. by exists w'.
Qed.

Lemma numpy_cpu_only_witness :
  (∃ a w', MemmapTensor_numpy 0 demo_world = (Ok a, w') ∧
           ndarray_data w' a = [1; 2]%Z) ∧
  (∃ w', MemmapTensor_numpy 0 demo_world_cuda = (Raise TypeError, w')).
Proof.
  split.
  - destruct (numpy_cpu_only demo_world 0 _ eq_refl eq_refl) as [H _].
    destruct (H eq_refl) as (w' & ino & H1 & _ & H2 & _).
    eexists _, w'. split; [exact H1|exact H2].
  - destruct (numpy_cpu_only demo_world_cuda 0 _ eq_refl eq_refl) as [_ H].
    destruct (H ltac:(discriminate)) as (w' & H1 & _).
    exists w'. exact H1.
Defined.

(** ** [to] *)

(** X4.  How [to] reads its argument.  Anything that is not an int, a
    string, a device or a dtype is refused with [NotImplementedError]
    before the handle is touched; an int or a string is first made a
    device by [torch.device], and when that fails nothing was opened or
    changed either; once it is a device, the call is [to] for that
    device. *)
Theorem to_dispatch (torch_device : pyval → result device) (w : world)
    (l : nat) (v : pyval) :
  (isinstance v [C_int; C_str] = false →
     MemmapTensor_to torch_device l (dest_value v) w
       = (Raise NotImplementedError, w)) ∧
  (isinstance v [C_int; C_str] = true →
     (∀ e, torch_device v = Raise e →
        MemmapTensor_to torch_device l (dest_value v) w = (Raise e, w)) ∧
     (∀ d, torch_device v = Ok d →
        MemmapTensor_to torch_device l (dest_value v) w
          = MemmapTensor_to torch_device l (dest_device d) w)).
Proof.
  unfold MemmapTensor_to. split; intros Hi; rewrite Hi; [done|].
  split; intros ? ->; reflexivity.
Qed.

Lemma to_dispatch_witness :
  MemmapTensor_to (λ _, Ok cpu) 0 (dest_value (PyFloat 1)) demo_world
    = (Raise NotImplementedError, demo_world) ∧
  MemmapTensor_to (λ _, Raise RuntimeError) 0 (dest_value (PyStr "gpu")) demo_world
    = (Raise RuntimeError, demo_world).
Proof.
  split.
  - exact (proj1 (to_dispatch (λ _, Ok cpu) demo_world 0 (PyFloat 1)) eq_refl).
  - exact (proj1 (proj2 (to_dispatch (λ _, Raise RuntimeError) demo_world 0
                           (PyStr "gpu")) eq_refl) RuntimeError eq_refl).
Defined.

(** X5.  [to(device)] returns a tensor on that device with the shape,
    dtype and elements of the handle, and leaves every file as it is.
    When the device is not the handle's own, the tensor is a copy that
    later writes to the file do not reach. *)
Theorem to_device_spec (torch_device : pyval → result device) (w : world)
    (l : nat) (o : MemmapTensor) (d : device) :
  heap w !! l = Some o → mapping_ok w o = true →
  ∃ t w',
    MemmapTensor_to torch_device l (dest_device d) w = (Ok (inl t), w') ∧
    t_device t = d ∧ t_shape t = np_shape o ∧ t_dtype t = _dtype o ∧
    tensor_data w' t = mapped_content w o ∧
    fs_paths w' = fs_paths w ∧ fs_inodes w' = fs_inodes w ∧
    (d ≠ _device o → ∀ w'', tensor_data w'' t = mapped_content w o).
Proof.
  intros Hl Hok.
  destruct (tensor_spec w l o Hl Hok)
    as (w' & mm & Ht & Hino & Hdata & Hp & Hi & _).
  pose proof (mapped_content_length w o Hok) as Hlen.
  unfold MemmapTensor_to. rewrite (bind_ok _ _ _ _ _ Ht).
  unfold Tensor_to_device. unfold materialised at 1. cbn [t_device].
  destruct (decide (_device o = d)) as [<-|Hne].
  - erewrite bind_ok by reflexivity.
    eexists _, w'. split; [reflexivity|]. by repeat split.
  - erewrite bind_ok; [|erewrite bind_ok by reflexivity; reflexivity].
    eexists _, w'. split; [reflexivity|]. cbn [t_device t_shape t_dtype].
    do 3 (split; [done|]).
    assert (Hcopy : ∀ w'',
              tensor_data w''
                (mkTensor (Memory (tensor_data w' (materialised w o (mm_ino mm)))) 0
                   (t_shape (materialised w o (mm_ino mm)))
                   (t_dtype (materialised w o (mm_ino mm))) d
                   (t_requires_grad (materialised w o (mm_ino mm))))
              = mapped_content w o).
    { intros w''. unfold tensor_data at 1, read_window. simpl.
      rewrite drop_0, Hdata. apply take_ge. by rewrite Hlen. }
    split; [apply Hcopy|]. do 2 (split; [done|]). intros _. apply Hcopy.
Qed.

Lemma to_device_spec_witness :
  ∃ t w',
    MemmapTensor_to (λ _, Ok cpu) 0 (dest_device (cuda 1)) demo_world
      = (Ok (inl t), w') ∧
    t_device t = cuda 1 ∧ ∀ w'', tensor_data w'' t = [1; 2]%Z.
Proof.
  destruct (to_device_spec (λ _, Ok cpu) demo_world 0 _ (cuda 1) eq_refl eq_refl)
    as (t & w' & H1 & H2 & _ & _ & _ & _ & _ & H3).
  exists t, w'. split; [exact H1|]. split; [exact H2|].
  exact (H3 ltac:(discriminate)).
Defined.

(** X6.  [to(dtype)] builds a new [MemmapTensor] over a file of its own
    (a name that was free before the call), with the shape and device of
    the handle, the requested dtype and the handle's elements converted
    to that dtype.  The new handle owns its file and has
    [transfer_ownership] false.  The handle itself and the elements it
    maps are as before. *)
Theorem to_dtype_spec (torch_device : pyval → result device) (w : world)
    (l : nat) (o : MemmapTensor) (dt : dtype) :
  heap w !! l = Some o → mapping_ok w o = true → np_shape o ≠ [] →
  ∃ l2 w2 o1 o2,
    MemmapTensor_to torch_device l (dest_dtype dt) w = (Ok (inr l2), w2) ∧
    l2 ≠ l ∧
    heap w2 !! l = Some o1 ∧ heap w2 !! l2 = Some o2 ∧
    same_but_memmap_array o o1 ∧
    mapped_content w2 o1 = mapped_content w o ∧
    mapped_content w2 o2 = convert (_dtype o) dt <$> mapped_content w o ∧
    _dtype o2 = dt ∧ np_shape o2 = np_shape o ∧ _shape o2 = np_shape o ∧
    _device o2 = _device o ∧
    fs_paths w !! filename o2 = None ∧
    fs_paths w2 !! filename o2 = handle_inode w2 o2 ∧
    handle_inode w2 o2 ≠ handle_inode w2 o1 ∧
    mapping_ok w2 o2 = true ∧ handle_ok o2 = true ∧
    _has_ownership o2 = true ∧ transfer_ownership o2 = false.
Proof.
  intros Hl Hok Hshape.
  destruct (tensor_spec w l o Hl Hok)
    as (w' & mm & Ht & Hino & Hdata & Hp & Hi & Hnext & Hh & Hok' & Hmc').
  pose proof (mapped_content_length w o Hok) as Hlen.
  destruct (mapping_ok_inv w o Hok) as (ino & c & Hino' & Hc & Hn & Hmc).
  assert (ino = mm_ino mm) as -> by congruence.
  set (o' := with__memmap_array (Some mm) o) in *.
  set (t := materialised w o (mm_ino mm)) in *.
  (* the converted tensor *)
  assert (Hconv : ∃ t',
            Tensor_to_dtype t dt w' = (Ok t', w') ∧
            t_shape t' = np_shape o ∧ t_dtype t' = dt ∧
            t_device t' = _device o ∧ t_requires_grad t' = false ∧
            tensor_data w' t' = convert (_dtype o) dt <$> mapped_content w o).
  { unfold Tensor_to_dtype. subst t. unfold materialised at 1.
    cbn [t_dtype]. destruct (decide (_dtype o = dt)) as [E|E].
    - eexists. split; [reflexivity|]. repeat split; try done.
      rewrite Hdata, <- E. by rewrite convert_same.
    - erewrite bind_ok by reflexivity. eexists. split; [reflexivity|].
      cbn [t_shape t_dtype t_device t_requires_grad]. repeat split; try done.
      unfold tensor_data at 1, read_window. simpl. rewrite drop_0, Hdata.
      rewrite take_ge by (by rewrite length_fmap, Hlen).
      apply list_fmap_ext. intros _ x _. unfold convert.
      by rewrite decide_False. }
  destruct Hconv as (t' & Hto & Hts & Htd & Htdev & Htg & Htdata).
  assert (Hlen' : length (tensor_data w' t') = numel (t_shape t'))
    by (by rewrite Htdata, length_fmap, Hlen, Hts).
  assert (Hnew := construct_from_tensor w' t' false Htg
                    ltac:(by rewrite Hts) ltac:(rewrite Hts; lia) Hlen').
  unfold MemmapTensor_to. rewrite (bind_ok _ _ _ _ _ Ht).
  rewrite (bind_ok _ _ _ _ _ Hto), (bind_ok _ _ _ _ _ Hnew).
  set (l2 := fresh (dom (heap w'))) in *.
  assert (Hl' : heap w' !! l = Some o') by (rewrite Hh; apply lookup_insert_eq).
  assert (Hne : l2 ≠ l).
  { intros E. pose proof (fresh_loc_free w') as Hf. fold l2 in Hf.
    rewrite E in Hf. congruence. }
  assert (Hine : fresh (dom (fs_inodes w')) ≠ mm_ino mm).
  { intros E. pose proof (fresh_inode_free w') as Hf. rewrite E, Hi in Hf.
    congruence. }
  eexists l2, _, o', (constructed w' t' false).
  split; [reflexivity|]. split; [exact Hne|]. cbn [heap fs_paths fs_inodes].
  split; [by rewrite lookup_insert_ne|]. split; [apply lookup_insert_eq|].
  split; [reflexivity|].
  split.
  { rewrite <- Hmc'. unfold mapped_content, handle_inode, storage_data.
    cbn [_memmap_array o' with__memmap_array fs_inodes].
    by rewrite lookup_insert_ne. }
  split.
  { rewrite <- Htdata.
    unfold mapped_content, handle_inode, storage_data, constructed.
    cbn [_memmap_array mm_ino fs_inodes np_shape].
    rewrite lookup_insert_eq. cbn [default from_option id].
    apply take_ge. lia. }
  do 4 (split; [done|]).
  split; [cbn [constructed filename]; rewrite <- Hp; apply fresh_path_free|].
  split.
  { unfold handle_inode, constructed. cbn. apply lookup_insert_eq. }
  split.
  { unfold handle_inode, constructed. cbn. congruence. }
  split.
  { unfold mapping_ok, handle_inode, constructed.
    cbn [_memmap_array mm_ino fs_inodes np_shape mm_shape mm_dtype mm_mode
         mm_id _dtype next_id].
    rewrite lookup_insert_eq.
    rewrite !bool_decide_eq_true_2; [done| |rewrite Hlen', Hts; lia].
    repeat split; lia. }
  split; [apply constructed_ok|]. done.
Qed.

Lemma to_dtype_spec_witness :
  ∃ l2 w2 o2,
    MemmapTensor_to (λ _, Ok cpu) 0 (dest_dtype torch_bool) demo_world
      = (Ok (inr l2), w2) ∧
    heap w2 !! l2 = Some o2 ∧
    mapped_content w2 o2 = [1; 1]%Z ∧ _dtype o2 = torch_bool.
Proof.
  destruct (to_dtype_spec (λ _, Ok cpu) demo_world 0 _ torch_bool eq_refl eq_refl
              ltac:(discriminate))
    as (l2 & w2 & o1 & o2 & H1 & _ & _ & H2 & _ & _ & H3 & H4 & _).
  exists l2, w2, o2. split; [exact H1|]. split; [exact H2|].
  split; [exact H3|exact H4].
Defined.

(** ** [unbind] *)

Lemma numel_cons n s : numel (n :: s) = n * numel s.
Proof. reflexivity. Qed.

Lemma numel_app a b : numel (a ++ b) = numel a * numel b.
Proof.
  induction a as [|n a IH]; [unfold numel; simpl; lia|].
  change ((n :: a) ++ b) with (n :: (a ++ b)). rewrite !numel_cons, IH. lia.
Qed.

Lemma numel_split shape d n :
  shape !! d = Some n →
  numel shape = numel (take d shape) * n * numel (drop (S d) shape).
Proof.
  intros Hd. rewrite <- (take_drop_middle shape d n Hd) at 1.
  rewrite numel_app, numel_cons. lia.
Qed.

Lemma select_data_length shape d i n (data : list Z) :
  shape !! d = Some n → i < n → length data = numel shape →
  length (select_data shape d i data) = numel (select_shape shape d).
Proof.
  intros Hd Hi Hlen. unfold select_data, select_shape. rewrite Hd. simpl.
  rewrite numel_app. rewrite (numel_split shape d n Hd) in Hlen.
  set (outer := numel (take d shape)) in *.
  set (inner := numel (drop (S d) shape)) in *.
  rewrite (concat_length_uniform _ inner).
  - by rewrite length_fmap, length_seq.
  - apply Forall_fmap, Forall_forall. intros a Ha%elem_of_seq. simpl.
    rewrite length_take, length_drop.
    assert (H1 : a * n + i + 1 ≤ outer * n) by nia.
    assert (H2 : (a * n + i + 1) * inner ≤ outer * n * inner)
      by (apply Nat.mul_le_mono_r; exact H1).
    lia.
Qed.

Lemma select_data_first n rest i (data : list Z) :
  select_data (n :: rest) 0 i data
  = take (numel rest) (drop (i * numel rest) data).
Proof.
  unfold select_data. simpl. rewrite app_nil_r. do 2 f_equal.
Qed.

Lemma for_each_inv {A B} (f : A → M B) (Inv : world → Prop)
    (P : A → B → Prop) l w :
  (∀ a w, a ∈ l → Inv w → ∃ b w', f a w = (Ok b, w') ∧ Inv w' ∧ P a b) →
  Inv w →
  ∃ bs w', for_each f l w = (Ok bs, w') ∧ Inv w' ∧ Forall2 P l bs.
Proof.
  revert w. induction l as [|a l IH]; intros w Hf Hw.
  - exists [], w. by repeat split.
  - destruct (Hf a w ltac:(left) Hw) as (b & w1 & E1 & Hw1 & Hb).
    destruct (IH w1) as (bs & w2 & E2 & Hw2 & Hbs); [|done|].
    { intros a' w' Ha'. apply Hf. by right. }
    exists (b :: bs), w2. simpl. rewrite (bind_ok _ _ _ _ _ E1).
    rewrite (bind_ok _ _ _ _ _ E2). by repeat split; [|constructor].
Qed.

Lemma for_each_raise {A B} (f : A → M B) (Inv : world → Prop) l1 a l2 e w :
  (∀ a w, a ∈ l1 → Inv w → ∃ b w', f a w = (Ok b, w') ∧ Inv w') →
  (∀ w, Inv w → ∃ w', f a w = (Raise e, w') ∧ Inv w') →
  Inv w →
  ∃ w', for_each f (l1 ++ a :: l2) w = (Raise e, w') ∧ Inv w'.
Proof.
  revert w. induction l1 as [|a1 l1 IH]; intros w Hf Ha Hw.
  - destruct (Ha w Hw) as (w' & E & Hw'). exists w'. simpl.
    by rewrite (bind_raise _ _ _ _ _ E).
  - destruct (Hf a1 w ltac:(left) Hw) as (b & w1 & E1 & Hw1).
    destruct (IH w1) as (w2 & E2 & Hw2); [|done|done|].
    { intros a' w' Ha'. apply Hf. by right. }
    exists w2. simpl. rewrite (bind_ok _ _ _ _ _ E1).
    by rewrite (bind_raise _ _ _ _ _ E2).
Qed.

(** The handle at [l] still reads as [o] did in [w0]. *)
Lemma same_but_memmap_array_fields o o' :
  same_but_memmap_array o o' →
  np_shape o' = np_shape o ∧ _shape o' = _shape o ∧ _dtype o' = _dtype o ∧
  _device o' = _device o ∧ filename o' = filename o ∧
  _ndim o' = _ndim o ∧ _numel o' = _numel o ∧
  transfer_ownership o' = transfer_ownership o ∧
  _tensor_dir o' = _tensor_dir o ∧ mode o' = mode o ∧ file o' = file o.
Proof.
  unfold same_but_memmap_array. intros E.
  repeat split;
    [exact (f_equal np_shape E)|exact (f_equal _shape E)
    |exact (f_equal _dtype E)|exact (f_equal _device E)
    |exact (f_equal filename E)|exact (f_equal _ndim E)
    |exact (f_equal _numel E)|exact (f_equal transfer_ownership E)
    |exact (f_equal _tensor_dir E)|exact (f_equal mode E)
    |exact (f_equal file E)].
Qed.

Lemma getitem_select_ok w l o d i n k :
  heap w !! l = Some o → mapping_ok w o = true →
  np_shape o !! d = Some n → normalize_int n i = Some k →
  ∃ w' mm,
    MemmapTensor___getitem___select l d i w
      = (Ok (mkSelectView (materialised w o (mm_ino mm)) d k), w') ∧
    handle_inode w o = Some (mm_ino mm) ∧
    fs_paths w' = fs_paths w ∧ fs_inodes w' = fs_inodes w ∧
    heap w' = <[l := with__memmap_array (Some mm) o]> (heap w) ∧
    mapping_ok w' (with__memmap_array (Some mm) o) = true ∧
    mapped_content w' (with__memmap_array (Some mm) o) = mapped_content w o.
Proof.
  intros Hl Hok Hd Hk.
  destruct (tensor_spec w l o Hl Hok)
    as (w' & mm & Ht & Hino & Hdata & Hp & Hi & Hnext & Hh & Hok' & Hmc').
  exists w', mm. unfold MemmapTensor___getitem___select. fold (_tensor l).
  rewrite (bind_ok _ _ _ _ _ Ht). unfold Tensor_select, materialised.
  cbn [t_shape]. rewrite Hd, Hk. by repeat split.
Qed.

Lemma getitem_select_raise w l o d i n :
  heap w !! l = Some o → mapping_ok w o = true →
  np_shape o !! d = Some n → normalize_int n i = None →
  ∃ w' mm,
    MemmapTensor___getitem___select l d i w = (Raise IndexError, w') ∧
    fs_paths w' = fs_paths w ∧ fs_inodes w' = fs_inodes w ∧
    heap w' = <[l := with__memmap_array (Some mm) o]> (heap w) ∧
    mapping_ok w' (with__memmap_array (Some mm) o) = true ∧
    mapped_content w' (with__memmap_array (Some mm) o) = mapped_content w o.
Proof.
  intros Hl Hok Hd Hk.
  destruct (tensor_spec w l o Hl Hok)
    as (w' & mm & Ht & Hino & Hdata & Hp & Hi & Hnext & Hh & Hok' & Hmc').
  exists w', mm. unfold MemmapTensor___getitem___select. fold (_tensor l).
  rewrite (bind_ok _ _ _ _ _ Ht). unfold Tensor_select, materialised.
  cbn [t_shape]. rewrite Hd, Hk. by repeat split.
Qed.

Lemma normalize_int_nat n i : i < n → normalize_int n (Z.of_nat i) = Some i.
Proof.
  intros Hi. unfold normalize_int.
  destruct (Z.ltb_spec (Z.of_nat i) 0); [lia|].
  rewrite decide_True by lia. by rewrite Nat2Z.id.
Qed.

Lemma normalize_int_nat_out n i : n ≤ i → normalize_int n (Z.of_nat i) = None.
Proof.
  intros Hi. unfold normalize_int.
  destruct (Z.ltb_spec (Z.of_nat i) 0); [lia|].
  by rewrite decide_False by lia.
Qed.

(** The slices [unbind] collects when it indexes along dimension [d]
    with the indices below [count]. *)
Lemma unbind_loop w l o d n count :
  heap w !! l = Some o → mapping_ok w o = true →
  np_shape o !! d = Some n → count ≤ n →
  ∃ vs w' o',
    for_each (λ i, MemmapTensor___getitem___select l d (Z.of_nat i))
      (seq 0 count) w = (Ok vs, w') ∧
    length vs = count ∧
    heap w' !! l = Some o' ∧ same_but_memmap_array o o' ∧
    mapping_ok w' o' = true ∧ mapped_content w' o' = mapped_content w o ∧
    fs_paths w' = fs_paths w ∧ fs_inodes w' = fs_inodes w ∧
    ∀ i v, vs !! i = Some v →
      sv_dim v = d ∧ sv_index v = i ∧
      view_shape v = select_shape (np_shape o) d ∧
      view_data w' v = select_data (np_shape o) d i (mapped_content w o) ∧
      length (view_data w' v) = numel (view_shape v).
Proof.
  intros Hl Hok Hd Hcount.
  set (Inv := λ w1 : world,
         ∃ o1, heap w1 !! l = Some o1 ∧ same_but_memmap_array o o1 ∧
               mapping_ok w1 o1 = true ∧
               mapped_content w1 o1 = mapped_content w o ∧
               fs_paths w1 = fs_paths w ∧ fs_inodes w1 = fs_inodes w).
  set (P := λ (i : nat) (v : SelectView),
         sv_dim v = d ∧ sv_index v = i ∧
         view_shape v = select_shape (np_shape o) d ∧
         (∀ w2, fs_inodes w2 = fs_inodes w →
                view_data w2 v = select_data (np_shape o) d i (mapped_content w o))).
  destruct (for_each_inv
              (λ i, MemmapTensor___getitem___select l d (Z.of_nat i))
              Inv P (seq 0 count) w) as (vs & w' & E & HI & HP).
  { intros i w1 Hi%elem_of_seq (o1 & Hl1 & Hs1 & Hok1 & Hmc1 & Hp1 & Hi1).
    destruct (same_but_memmap_array_fields o o1 Hs1) as (Hnp & _).
    destruct (getitem_select_ok w1 l o1 d (Z.of_nat i) n i Hl1 Hok1
                ltac:(by rewrite Hnp) ltac:(apply normalize_int_nat; lia))
      as (w2 & mm & Hsel & Hino & Hp2 & Hi2 & Hh2 & Hok2 & Hmc2).
    eexists _, w2. split; [exact Hsel|]. split.
    - exists (with__memmap_array (Some mm) o1).
      split; [rewrite Hh2; apply lookup_insert_eq|].
      split; [unfold same_but_memmap_array in *; by rewrite <- Hs1|].
      split; [done|]. split; [congruence|]. split; congruence.
    - unfold P, view_shape, view_data.
      cbn [sv_dim sv_index sv_base]. unfold materialised at 1 2.
      cbn [t_shape]. rewrite Hnp. do 3 (split; [done|]).
      intros w3 Hw3. f_equal. rewrite <- Hmc1.
      apply materialised_data; [done|done|congruence]. }
  { exists o. by repeat split. }
  destruct HI as (o' & Hl' & Hs' & Hok' & Hmc' & Hp' & Hi').
  exists vs, w', o'. split; [exact E|].
  pose proof (Forall2_length _ _ _ HP) as Hlen. rewrite length_seq in Hlen.
  split; [done|]. do 6 (split; [done|]).
  intros i v Hv.
  destruct (Forall2_lookup_r _ _ _ _ _ HP Hv) as (j & Hj & HPj).
  apply lookup_seq in Hj as [-> Hj]. simpl in HPj.
  destruct HPj as (H1 & H2 & H3 & H4).
  do 3 (split; [done|]). rewrite (H4 w' Hi'). split; [done|].
  rewrite H3. apply (select_data_length _ _ _ n); [done|lia|].
  apply mapped_content_length, Hok.
Qed.

Lemma tuple_getitem_nat shape d n :
  shape !! d = Some n → tuple_getitem shape (Z.of_nat d) = Ok n.
Proof.
  intros Hd. unfold tuple_getitem.
  rewrite normalize_int_nat by (by eapply lookup_lt_Some). by rewrite Hd.
Qed.

Lemma tuple_getitem_negative shape dim n :
  (dim < 0)%Z → tuple_getitem shape dim = Ok n →
  shape !! Z.to_nat (dim + Z.of_nat (length shape)) = Some n.
Proof.
  intros Hneg. unfold tuple_getitem, normalize_int.
  destruct (Z.ltb_spec dim 0); [|lia].
  case_decide; [|done]. destruct (shape !! _); [|done]. congruence.
Qed.

(** X7.  [unbind(dim)] for a dimension [0 <= dim < ndim] of size [n]
    returns [n] views, in order; the [i]-th has the shape of the handle
    without that dimension and holds exactly the mapped elements whose
    index along [dim] is [i].  No directory entry and no file content
    changes. *)
Theorem unbind_slices (w : world) (l : nat) (o : MemmapTensor) (d n : nat) :
  heap w !! l = Some o → mapping_ok w o = true → _shape o = np_shape o →
  np_shape o !! d = Some n →
  ∃ vs w',
    unbind l (Z.of_nat d) w = (Ok vs, w') ∧
    length vs = n ∧
    fs_paths w' = fs_paths w ∧ fs_inodes w' = fs_inodes w ∧
    ∀ i v, vs !! i = Some v →
      sv_dim v = d ∧ sv_index v = i ∧
      view_shape v = select_shape (np_shape o) d ∧
      view_data w' v = select_data (np_shape o) d i (mapped_content w o) ∧
      length (view_data w' v) = numel (view_shape v).
Proof.
  intros Hl Hok Hshape Hd.
  destruct (unbind_loop w l o d n n Hl Hok Hd (le_n _))
    as (vs & w' & o' & E & Hlen & _ & _ & _ & _ & Hp & Hi & Hvs).
  exists vs, w'. unfold unbind, MemmapTensor_unbind.
  rewrite (bind_ok _ _ _ _ _ (deref_ok _ _ _ Hl)).
  rewrite Hshape, (tuple_getitem_nat _ _ _ Hd), Nat2Z.id.
  split; [exact E|]. do 3 (split; [done|]). exact Hvs.
Qed.

Lemma unbind_slices_witness :
  ∃ vs w',
    unbind 0 1 demo_world_matrix = (Ok vs, w') ∧
    view_data w' <$> vs = [[1; 4]; [2; 5]; [3; 6]]%Z ∧
    view_shape <$> vs = [[2]; [2]; [2]].
Proof.
  destruct (unbind_slices demo_world_matrix 0 _ 1 3 eq_refl eq_refl eq_refl eq_refl)
    as (vs & w' & H1 & H2 & _ & _ & H3).
  exists vs, w'. split; [exact H1|].
  destruct vs as [|v0 [|v1 [|v2 [|v3 vs]]]]; try discriminate H2.
  destruct (H3 0 v0 eq_refl) as (_ & _ & S0 & D0 & _).
  destruct (H3 1 v1 eq_refl) as (_ & _ & S1 & D1 & _).
  destruct (H3 2 v2 eq_refl) as (_ & _ & S2 & D2 & _).
  split.
  - exact (f_equal3 (λ a b c, [a; b; c]) D0 D1 D2).
  - exact (f_equal3 (λ a b c, [a; b; c]) S0 S1 S2).
Defined.

(** X8.  Along the first dimension, [unbind] agrees with indexing: the
    [i]-th element of [m.unbind(0)] has the shape and the elements of
    [m[i]]. *)
Theorem unbind_0_is_indexing (w : world) (l : nat) (o : MemmapTensor)
    (n : nat) (rest : list nat) :
  heap w !! l = Some o → mapping_ok w o = true → _shape o = np_shape o →
  np_shape o = n :: rest →
  ∃ vs w',
    unbind l 0 w = (Ok vs, w') ∧
    length vs = n ∧
    ∀ i, i < n →
      ∃ v t w2,
        vs !! i = Some v ∧
        MemmapTensor___getitem__ l (IInt (Z.of_nat i)) w' = (Ok t, w2) ∧
        view_shape v = t_shape t ∧
        view_data w' v = tensor_data w2 t.
Proof.
  intros Hl Hok Hshape Hnp.
  assert (Hd : np_shape o !! 0 = Some n) by (by rewrite Hnp).
  destruct (unbind_loop w l o 0 n n Hl Hok Hd (le_n _))
    as (vs & w' & o' & E & Hlen & Hl' & Hs' & Hok' & Hmc' & Hp & Hi & Hvs).
  destruct (same_but_memmap_array_fields o o' Hs') as (Hnp' & _).
  exists vs, w'. split.
  { unfold unbind, MemmapTensor_unbind.
    rewrite (bind_ok _ _ _ _ _ (deref_ok _ _ _ Hl)).
    change 0%Z with (Z.of_nat 0).
    rewrite Hshape, (tuple_getitem_nat _ 0 _ Hd). exact E. }
  split; [done|]. intros i Hi'.
  destruct (lookup_lt_is_Some_2 vs i ltac:(lia)) as [v Hv].
  destruct (Hvs i v Hv) as (_ & _ & Hvs1 & Hvd & _).
  assert (Hix : index_region (np_shape o') 0 (IInt (Z.of_nat i))
                = Ok (0 + i * numel rest, rest)).
  { rewrite Hnp', Hnp. unfold index_region.
    by rewrite normalize_int_nat by lia. }
  destruct (getitem_spec w' l o' _ _ _ Hl' Hok' Hix)
    as (t & w2 & Hget & Hts & _ & _ & Htd & _).
  exists v, t, w2. split; [done|]. split; [exact Hget|].
  split.
  - rewrite Hvs1, Hts, Hnp. reflexivity.
  - rewrite Hvd, Htd, Hmc', Hnp. apply select_data_first.
Qed.

Lemma unbind_0_is_indexing_witness :
  ∃ vs w',
    unbind 0 0 demo_world_matrix = (Ok vs, w') ∧
    length vs = 2 ∧
    ∃ v t w2,
      vs !! 1 = Some v ∧
      MemmapTensor___getitem__ 0 (IInt 1) w' = (Ok t, w2) ∧
      view_data w' v = tensor_data w2 t.
Proof.
  destruct (unbind_0_is_indexing demo_world_matrix 0 _ 2 [3]
              eq_refl eq_refl eq_refl eq_refl)
    as (vs & w' & H1 & H2 & H3).
  exists vs, w'. split; [exact H1|]. split; [exact H2|].
  destruct (H3 1 ltac:(lia)) as (v & t & w2 & Hv & Hg & _ & Hd).
  exists v, t, w2. split; [exact Hv|]. split; [exact Hg|exact Hd].
Defined.

(** X9.  A negative [dim] does not count from the end.  [range(dim)] is
    empty, so each index tuple holds the index alone and selects along
    the FIRST dimension, while the number of slices is still the size
    [n'] of dimension [ndim + dim].  When [n'] is at most the size [n0] of
    the first dimension the result is the first [n'] slices along
    dimension 0; when it is larger, indexing runs past the first
    dimension and [unbind] raises [IndexError].  Either way no file
    changes. *)
Theorem unbind_negative_dim (w : world) (l : nat) (o : MemmapTensor)
    (dim : Z) (n0 : nat) (rest : list nat) (n' : nat) :
  heap w !! l = Some o → mapping_ok w o = true → _shape o = np_shape o →
  np_shape o = n0 :: rest → (dim < 0)%Z →
  tuple_getitem (np_shape o) dim = Ok n' →
  (n' ≤ n0 →
     ∃ vs w',
       unbind l dim w = (Ok vs, w') ∧
       length vs = n' ∧
       fs_paths w' = fs_paths w ∧ fs_inodes w' = fs_inodes w ∧
       ∀ i v, vs !! i = Some v →
         sv_dim v = 0 ∧ sv_index v = i ∧ view_shape v = rest ∧
         view_data w' v
           = take (numel rest) (drop (i * numel rest) (mapped_content w o))) ∧
  (n0 < n' →
     ∃ w',
       unbind l dim w = (Raise IndexError, w') ∧
       fs_paths w' = fs_paths w ∧ fs_inodes w' = fs_inodes w).
Proof.
  intros Hl Hok Hshape Hnp Hneg Hn'.
  assert (Hd : np_shape o !! 0 = Some n0) by (by rewrite Hnp).
  assert (Hun : unbind l dim w
                = for_each (λ i, MemmapTensor___getitem___select l 0 (Z.of_nat i))
                    (seq 0 n') w).
  { unfold unbind, MemmapTensor_unbind.
    rewrite (bind_ok _ _ _ _ _ (deref_ok _ _ _ Hl)).
    rewrite Hshape, Hn'. by replace (Z.to_nat dim) with 0 by lia. }
  rewrite Hun. split; intros Hle.
  - destruct (unbind_loop w l o 0 n0 n' Hl Hok Hd Hle)
      as (vs & w' & o' & E & Hlen & _ & _ & _ & _ & Hp & Hi & Hvs).
    exists vs, w'. do 4 (split; [done|]). intros i v Hv.
    destruct (Hvs i v Hv) as (H1 & H2 & H3 & H4 & _).
    do 2 (split; [done|]). split.
    + by rewrite H3, Hnp.
    + rewrite H4, Hnp. apply select_data_first.
  - set (Inv := λ w1 : world,
           ∃ o1, heap w1 !! l = Some o1 ∧ same_but_memmap_array o o1 ∧
                 mapping_ok w1 o1 = true ∧
                 fs_paths w1 = fs_paths w ∧ fs_inodes w1 = fs_inodes w).
    replace n' with (n0 + S (n' - S n0)) by lia.
    rewrite seq_app. cbn [seq].
    destruct (for_each_raise
                (λ i, MemmapTensor___getitem___select l 0 (Z.of_nat i))
                Inv (seq 0 n0) (0 + n0) (seq (S (0 + n0)) (n' - S n0))
                IndexError w) as (w' & E & (o1 & _ & _ & _ & Hp & Hi)).
    + intros i w1 Hi%elem_of_seq (o1 & Hl1 & Hs1 & Hok1 & Hp1 & Hi1).
      destruct (same_but_memmap_array_fields o o1 Hs1) as (Hnp1 & _).
      destruct (getitem_select_ok w1 l o1 0 (Z.of_nat i) n0 i Hl1 Hok1
                  ltac:(by rewrite Hnp1) ltac:(apply normalize_int_nat; lia))
        as (w2 & mm & Hsel & Hino & Hp2 & Hi2 & Hh2 & Hok2 & Hmc2).
      eexists _, w2. split; [exact Hsel|].
      exists (with__memmap_array (Some mm) o1).
      split; [rewrite Hh2; apply lookup_insert_eq|].
      split; [unfold same_but_memmap_array in *; by rewrite <- Hs1|].
      split; [done|]. split; congruence.
    + intros w1 (o1 & Hl1 & Hs1 & Hok1 & Hp1 & Hi1).
      destruct (same_but_memmap_array_fields o o1 Hs1) as (Hnp1 & _).
      destruct (getitem_select_raise w1 l o1 0 (Z.of_nat (0 + n0)) n0 Hl1 Hok1
                  ltac:(by rewrite Hnp1)
                  ltac:(apply normalize_int_nat_out; lia))
        as (w2 & mm & Hsel & Hp2 & Hi2 & Hh2 & Hok2 & Hmc2).
      exists w2. split; [exact Hsel|].
      exists (with__memmap_array (Some mm) o1).
      split; [rewrite Hh2; apply lookup_insert_eq|].
      split; [unfold same_but_memmap_array in *; by rewrite <- Hs1|].
      split; [done|]. split; congruence.
    + exists o. by repeat split.
    + exists w'. by repeat split.
Qed.

Lemma unbind_negative_dim_witness :
  (∃ w', unbind 0 (-1) demo_world_matrix = (Raise IndexError, w')) ∧
  (∃ vs w', unbind 0 (-2) demo_world_matrix = (Ok vs, w') ∧
            view_data w' <$> vs = [[1; 2; 3]; [4; 5; 6]]%Z).
Proof.
  split.
  - destruct (unbind_negative_dim demo_world_matrix 0 _ (-1) 2 [3] 3
                eq_refl eq_refl eq_refl eq_refl eq_refl eq_refl) as [_ H].
    destruct (H ltac:(lia)) as (w' & H1 & _). exists w'. exact H1.
  - destruct (unbind_negative_dim demo_world_matrix 0 _ (-2) 2 [3] 2
                eq_refl eq_refl eq_refl eq_refl eq_refl eq_refl) as [H _].
    destruct (H ltac:(lia)) as (vs & w' & H1 & H2 & _ & _ & H3).
    exists vs, w'. split; [exact H1|].
    destruct vs as [|v0 [|v1 [|v2 vs]]]; try discriminate H2.
    destruct (H3 0 v0 eq_refl) as (_ & _ & _ & D0).
    destruct (H3 1 v1 eq_refl) as (_ & _ & _ & D1).
    exact (f_equal2 (λ a b, [a; b]) D0 D1).
Defined.

(** X10.  A [dim] outside [-ndim .. ndim - 1] makes [unbind] raise
    [IndexError] from [self.shape[dim]], before the mapping is opened:
    the world is unchanged. *)
Theorem unbind_dim_out_of_range (w : world) (l : nat) (o : MemmapTensor)
    (dim : Z) :
  heap w !! l = Some o →
  (Z.of_nat (length (_shape o)) ≤ dim ∨ dim < - Z.of_nat (length (_shape o)))%Z →
  unbind l dim w = (Raise IndexError, w).
Proof.
  intros Hl Hdim. unfold unbind, MemmapTensor_unbind.
  rewrite (bind_ok _ _ _ _ _ (deref_ok _ _ _ Hl)).
  unfold tuple_getitem, normalize_int.
  destruct (Z.ltb_spec dim 0); by rewrite decide_False by lia.
Qed.

Lemma unbind_dim_out_of_range_witness :
  unbind 0 2 demo_world_matrix = (Raise IndexError, demo_world_matrix) ∧
  unbind 0 (-3) demo_world_matrix = (Raise IndexError, demo_world_matrix).
Proof.
  split.
  - apply (unbind_dim_out_of_range demo_world_matrix 0 _ 2 eq_refl).
    left. vm_compute. discriminate.
  - apply (unbind_dim_out_of_range demo_world_matrix 0 _ (-3) eq_refl).
    right. vm_compute. reflexivity.
Defined.

(** ** [to_numpy] *)



(** ** Methods that only read *)

(** X12.  [__getitem__], [__setitem__], [copy_], [__eq__],
    [contiguous], [cpu], [numpy], [unbind] and [to] for a device never
    create, remove or rename a file, never add or remove a handle, and
    leave every attribute of every handle as it is, apart from the
    mapping a handle caches when it is first opened.  This holds whether
    the call returns or raises.  In particular none of them changes who
    owns a file. *)
Theorem readers_are_quiet (torch_device : pyval → result device) (l : nat) :
  (∀ ix, quiet (MemmapTensor___getitem__ l ix)) ∧
  (∀ ix v, quiet (MemmapTensor___setitem__ l ix v)) ∧
  (∀ other, quiet (copy_ l other)) ∧
  (∀ other, quiet (MemmapTensor___eq__ l other)) ∧
  quiet (contiguous l) ∧ quiet (MemmapTensor_cpu l) ∧
  quiet (MemmapTensor_numpy l) ∧
  (∀ dim, quiet (unbind l dim)) ∧
  (∀ d, quiet (MemmapTensor_to torch_device l (dest_device d))) ∧
  (∀ v, quiet (MemmapTensor_to torch_device l (dest_value v))).
Proof.
  split; [intros; apply quiet___getitem__|].
  split; [intros; apply quiet___setitem__|].
  split; [intros; apply quiet_copy_|].
  split; [intros; apply quiet___eq__|].
  split; [apply quiet_contiguous|].
  split; [apply quiet_cpu|].
  split; [apply quiet_numpy|].
  split; [intros; apply quiet_unbind|].
  split; intros; by apply quiet_to_device.
Qed.

(** ** A construction that fails half-way *)

(** X13.  A source tensor that passes the checks of [__init__] but
    cannot be stored leaves nothing behind.  A 0-d tensor makes
    [memmap_array[:] = ...] raise [IndexError] after the temporary file
    was created and the mapping opened; the exception reaches the caller,
    the temporary file is deleted again and no handle exists. *)
Theorem construction_failure_cleanup (w : world) (x : Tensor) (to : bool) :
  t_requires_grad x = false → t_shape x = [] →
  ∃ w',
    MemmapTensor_new (PyTensor x) to w = (Raise IndexError, w') ∧
    fs_paths w' = fs_paths w ∧ heap w' = heap w.
Proof. apply construct_from_0d. Qed.

Lemma construction_failure_cleanup_witness :
  ∃ w', MemmapTensor_new
          (PyTensor (mkTensor (Memory [7%Z]) 0 [] torch_int64 cpu false))
          false demo_world = (Raise IndexError, w') ∧
        fs_paths w' = fs_paths demo_world ∧ heap w' = heap demo_world.
Proof.
  exact (construction_failure_cleanup demo_world
           (mkTensor (Memory [7%Z]) 0 [] torch_int64 cpu false) false
           eq_refl eq_refl).
Defined.

(** ** More on serialization *)

(** X14.  Restoring a recorded state always leaves one more file behind.
    [__setstate__] makes a new temporary file only to take its file
    object, which it then points at the recorded [filename]; the file
    created under the new name is empty, is not the handle's file, and is
    still there after the handle has been destroyed. *)
Theorem unpickle_leaves_placeholder (w : world) (state : MemmapTensor) :
  file state = None → is_Some (fs_paths w !! filename state) →
  ∃ l2 w2 o2 p ino,
    unpickle state w = (Ok l2, w2) ∧ heap w2 !! l2 = Some o2 ∧
    filename o2 = filename state ∧ p ≠ filename o2 ∧
    fs_paths w !! p = None ∧
    fs_paths w2 !! p = Some ino ∧ fs_inodes w2 !! ino = Some [] ∧
    (∀ q, q ≠ p → fs_paths w2 !! q = fs_paths w !! q) ∧
    ∃ w3, destroy l2 w2 = (Ok tt, w3) ∧ fs_paths w3 !! p = Some ino.
Proof.
  intros Hf [ino0 Hex].
  set (p := fresh (dom (fs_paths w))). set (i := fresh (dom (fs_inodes w))).
  set (l2 := fresh (dom (heap w))).
  assert (Hne : p ≠ filename state).
  { intros E. pose proof (fresh_path_free w) as Hfree. fold p in Hfree.
    rewrite E in Hfree. congruence. }
  pose proof (unpickle_spec w state Hf) as Hun. fold p i l2 in Hun.
  match type of Hun with _ = (_, ?w2') => set (w2 := w2') in * end.
  assert (Hl2 : heap w2 !! l2 = Some (restored state))
    by apply lookup_insert_eq.
  exists l2, w2, (restored state), p, i.
  split; [exact Hun|]. split; [exact Hl2|]. split; [done|].
  split; [exact Hne|]. split; [apply fresh_path_free|].
  split; [apply lookup_insert_eq|]. split; [apply lookup_insert_eq|].
  split; [intros q Hq; unfold w2; cbn; by rewrite lookup_insert_ne|].
  eexists. split; [exact (destroy_spec w2 l2 _ Hl2 (restored_ok state))|].
  cbn [fs_paths set_heap set_paths w2].
  destruct (_has_ownership (restored state)).
  - rewrite lookup_delete_ne by (cbn; congruence). apply lookup_insert_eq.
  - apply lookup_insert_eq.
Qed.

Lemma unpickle_leaves_placeholder_witness :
  MemmapTensor___reduce__ 0 demo_world_transfer
    = (Ok demo_state, demo_world_reduced) ∧
  ∃ l2 w2 p,
    unpickle demo_state demo_world_reduced = (Ok l2, w2) ∧
    fs_paths demo_world_reduced !! p = None ∧ is_Some (fs_paths w2 !! p) ∧
    ∃ w3, destroy l2 w2 = (Ok tt, w3) ∧ is_Some (fs_paths w3 !! p).
Proof.
  split; [vm_compute; reflexivity|].
  destruct (unpickle_leaves_placeholder demo_world_reduced demo_state
              eq_refl ltac:(vm_compute; eauto))
    as (l2 & w2 & o2 & p & ino & H1 & _ & _ & _ & H2 & H3 & _ & _ & w3 & H4 & H5).
  exists l2, w2, p. split; [exact H1|]. split; [exact H2|].
  split; [by exists ino|]. exists w3. split; [exact H4|by exists ino].
Defined.

(** X15.  Ownership is not exclusive.  A state recorded from an owner
    with [transfer_ownership] set can be restored any number of times,
    and every handle restored from it owns the same file.  Destroying
    one of two such handles removes the file from under the other; the
    other's own destruction then finds nothing to unlink, the error is
    dropped inside [__del__], and the object goes away all the same. *)
Theorem restore_twice_both_own (w : world) (state : MemmapTensor) :
  file state = None → transfer_ownership state = true →
  _has_ownership state = true →
  ∃ l2 w2 l3 w3 o2 o3,
    unpickle state w = (Ok l2, w2) ∧ unpickle state w2 = (Ok l3, w3) ∧
    l2 ≠ l3 ∧
    heap w3 !! l2 = Some o2 ∧ heap w3 !! l3 = Some o3 ∧
    _has_ownership o2 = true ∧ _has_ownership o3 = true ∧
    filename o2 = filename state ∧ filename o3 = filename state ∧
    ∃ w4 w5,
      destroy l2 w3 = (Ok tt, w4) ∧
      fs_paths w4 !! filename state = None ∧
      heap w4 !! l3 = Some o3 ∧
      destroy l3 w4 = (Ok tt, w5) ∧
      heap w5 !! l3 = None ∧ fs_paths w5 = fs_paths w4.
Proof.
  intros Hf Ht Hown.
  pose proof (unpickle_spec w state Hf) as Hun2.
  match type of Hun2 with _ = (Ok ?l2', ?w2') =>
    set (l2 := l2') in *; set (w2 := w2') in * end.
  pose proof (unpickle_spec w2 state Hf) as Hun3.
  match type of Hun3 with _ = (Ok ?l3', ?w3') =>
    set (l3 := l3') in *; set (w3 := w3') in * end.
  assert (Hl2 : heap w2 !! l2 = Some (restored state)) by apply lookup_insert_eq.
  assert (Hne : l2 ≠ l3).
  { intros E. pose proof (fresh_loc_free w2) as Hfree. fold l3 in Hfree.
    rewrite <- E in Hfree. congruence. }
  assert (Hl32 : heap w3 !! l2 = Some (restored state)).
  { unfold w3. cbn [heap set_heap]. by rewrite lookup_insert_ne. }
  assert (Hl33 : heap w3 !! l3 = Some (restored state)) by apply lookup_insert_eq.
  assert (Hro : _has_ownership (restored state) = true).
  { unfold restored. cbn. by rewrite Ht, Hown. }
  exists l2, w2, l3, w3, (restored state), (restored state).
  do 5 (split; [done|]). do 2 (split; [exact Hro|]). do 2 (split; [done|]).
  pose proof (destroy_spec w3 l2 _ Hl32 (restored_ok state)) as Hd2.
  rewrite Hro in Hd2.
  match type of Hd2 with _ = (_, ?w4') => set (w4 := w4') in * end.
  assert (Hl43 : heap w4 !! l3 = Some (restored state)).
  { unfold w4. cbn [heap set_heap]. by rewrite lookup_delete_ne. }
  pose proof (destroy_spec w4 l3 _ Hl43 (restored_ok state)) as Hd3.
  rewrite Hro in Hd3.
  eexists w4, _. split; [exact Hd2|].
  split; [unfold w4; cbn; apply lookup_delete_eq|].
  split; [exact Hl43|]. split; [exact Hd3|].
  cbn [heap fs_paths set_heap set_paths].
  split; [apply lookup_delete_eq|].
  apply delete_id. unfold w4. cbn. apply lookup_delete_eq.
Qed.

Lemma restore_twice_both_own_witness :
  MemmapTensor___reduce__ 0 demo_world_transfer
    = (Ok demo_state, demo_world_reduced) ∧
  ∃ l2 w2 l3 w3 w4 w5,
    unpickle demo_state demo_world_reduced = (Ok l2, w2) ∧
    unpickle demo_state w2 = (Ok l3, w3) ∧
    destroy l2 w3 = (Ok tt, w4) ∧ destroy l3 w4 = (Ok tt, w5) ∧
    fs_paths w4 !! filename demo_state = None ∧ fs_paths w5 = fs_paths w4.
Proof.
  split; [vm_compute; reflexivity|].
  destruct (restore_twice_both_own demo_world_reduced demo_state
              eq_refl eq_refl eq_refl)
    as (l2 & w2 & l3 & w3 & o2 & o3 & H1 & H2 & _ & _ & _ & _ & _ & _ & _
        & w4 & w5 & H3 & H4 & _ & H5 & _ & H6).
  exists l2, w2, l3, w3, w4, w5.
  split; [exact H1|]. split; [exact H2|]. split; [exact H3|].
  split; [exact H5|]. split; [exact H4|exact H6].
Defined.

(** X16.  Ownership leaves with the first serialization only.  For an
    owner with [transfer_ownership] set, the state recorded by a first
    [__reduce__] carries the ownership; the state recorded by a second
    one does not, and a handle restored from it does not own the file. *)
Theorem second_serialization_carries_nothing (w : world) (l : nat)
    (o : MemmapTensor) :
  heap w !! l = Some o → handle_ok o = true →
  transfer_ownership o = true → _has_ownership o = true →
  ∃ s1 w1 s2 w2 l2 w3 o2,
    MemmapTensor___reduce__ l w = (Ok s1, w1) ∧
    MemmapTensor___reduce__ l w1 = (Ok s2, w2) ∧
    _has_ownership s1 = true ∧ _has_ownership s2 = false ∧
    filename s2 = filename o ∧
    unpickle s2 w2 = (Ok l2, w3) ∧ heap w3 !! l2 = Some o2 ∧
    _has_ownership o2 = false ∧ handle_ok o2 = true ∧
    ∃ w4, destroy l2 w3 = (Ok tt, w4) ∧ fs_paths w4 = fs_paths w3.
Proof.
  intros Hl Hok Ht Hown.
  destruct (handle_ok_inv o Hok) as (f & Hf & Hd & Hcd & Hcc & Hcn).
  pose proof (reduce_spec w l o f Hl Hf) as Hr1. rewrite Ht in Hr1.
  match type of Hr1 with _ = (Ok ?s, ?w1') =>
    set (s1 := s) in *; set (w1 := w1') in * end.
  set (o1 := with__has_ownership false (with_file (Some (cleared f)) o)).
  assert (Hl1 : heap w1 !! l = Some o1) by apply lookup_insert_eq.
  pose proof (reduce_spec w1 l o1 (cleared f) Hl1 eq_refl) as Hr2.
  change (transfer_ownership o1) with (transfer_ownership o) in Hr2.
  rewrite Ht in Hr2.
  match type of Hr2 with _ = (Ok ?s, ?w2') =>
    set (s2 := s) in *; set (w2 := w2') in * end.
  pose proof (unpickle_spec w2 s2 eq_refl) as Hun.
  match type of Hun with _ = (Ok ?l2', ?w3') =>
    set (l2 := l2') in *; set (w3 := w3') in * end.
  assert (Hl2 : heap w3 !! l2 = Some (restored s2)) by apply lookup_insert_eq.
  assert (Hro : _has_ownership (restored s2) = false).
  { unfold restored. cbn. apply andb_false_r. }
  exists s1, w1, s2, w2, l2, w3, (restored s2).
  do 2 (split; [done|]). split; [exact Hown|]. do 2 (split; [done|]).
  do 2 (split; [done|]). split; [exact Hro|]. split; [apply restored_ok|].
  pose proof (destroy_spec w3 l2 _ Hl2 (restored_ok s2)) as Hd2.
  rewrite Hro in Hd2. eexists. split; [exact Hd2|]. reflexivity.
Qed.

Lemma second_serialization_carries_nothing_witness :
  ∃ s1 w1 s2 w2,
    MemmapTensor___reduce__ 0 demo_world_transfer = (Ok s1, w1) ∧
    MemmapTensor___reduce__ 0 w1 = (Ok s2, w2) ∧
    _has_ownership s1 = true ∧ _has_ownership s2 = false.
Proof.
  destruct (second_serialization_carries_nothing demo_world_transfer 0 _
              eq_refl eq_refl eq_refl eq_refl)
    as (s1 & w1 & s2 & w2 & l2 & w3 & o2 & H1 & H2 & H3 & H4 & _).
  exists s1, w1, s2, w2. split; [exact H1|]. split; [exact H2|].
  split; [exact H3|exact H4].
Defined.

(** ** Handles that share a file *)

(** What [copy_] does to the world. *)
Lemma copy_spec w l o v d ino :
  heap w !! l = Some o → mapping_ok w o = true → np_shape o ≠ [] →
  t_requires_grad v = false →
  length (tensor_data w v) = numel (t_shape v) →
  broadcast_to (t_shape v) (np_shape o) (tensor_data w v) = Some d →
  handle_inode w o = Some ino →
  ∃ w1 mm c c',
    copy_ l (AL_Tensor v) w = (Ok l, w1) ∧ mm_ino mm = ino ∧
    fs_inodes w !! ino = Some c ∧ length c' = length c ∧
    take (numel (np_shape o)) c' = convert (t_dtype v) (_dtype o) <$> d ∧
    fs_inodes w1 = <[ino := c']> (fs_inodes w) ∧
    fs_paths w1 = fs_paths w ∧ next_id w ≤ next_id w1 ∧
    heap w1 = <[l := with__memmap_array (Some mm) o]> (heap w).
Proof.
  intros Hl Hok Hshape Hg Hlen Hbc Hino0.
  destruct (np_shape o) as [|n rest] eqn:Hnp; [done|]. clear Hshape.
  destruct (tensor_to_numpy w v Hg) as (a & Hsrc & Has & Had & Hadata).
  destruct (get_memmap_array_ok w l o Hl Hok)
    as (mm & w' & Hget & Hino & Hms & Hmd & Hmm & Hid & Hnext & Hp & Hi & Hh).
  destruct (mapping_ok_inv w o Hok) as (ino' & c & Hino' & Hc & Hn & Hmc).
  assert (ino' = mm_ino mm) as -> by congruence.
  assert (ino = mm_ino mm) as -> by congruence.
  set (d' := convert (t_dtype v) (_dtype o) <$> d).
  pose proof (broadcast_to_length _ _ _ _ Hbc Hlen) as Hdlen.
  assert (Hd'len : length d' = numel (n :: rest))
    by (subst d'; by rewrite length_fmap).
  set (c' := write_window c 0 d').
  set (w1 := set_inodes (<[mm_ino mm := c']> (fs_inodes w')) w').
  assert (Hc1 : fs_inodes w' !! mm_ino mm = Some c) by (by rewrite Hi).
  assert (Hcopy : copy_ l (AL_Tensor v) w = (Ok l, w1)).
  { unfold copy_, _save_item. erewrite bind_ok; [reflexivity|].
    rewrite (bind_ok _ _ _ _ _ Hsrc), (bind_ok _ _ _ _ _ Hget).
    erewrite bind_ok by reflexivity.
    rewrite (memmap_setitem_full w' mm a n rest d Hmm); [|congruence|].
    2:{ rewrite Has, (Hadata Hlen w' Hi). exact Hbc. }
    subst w1 c' d'. unfold storage_data. by rewrite Hc1, Had, Hmd. }
  rewrite Hnp in Hn.
  exists w1, mm, c, c'. split; [exact Hcopy|]. split; [done|].
  split; [exact Hc|].
  split; [subst c'; apply write_window_length; lia|].
  split.
  { rewrite <- Hd'len, <- (drop_0 c'). subst c'.
    apply read_write_window. lia. }
  subst w1. cbn [fs_inodes fs_paths heap next_id set_inodes].
  rewrite Hi. by repeat split.
Qed.

(** X17.  Two handles over one file see each other's writes.  When the
    handles at [l] and [l2] read and write the same file and have the
    same shape, [copy_] through [l] changes what [l2] maps: afterwards
    [l2] maps the copied elements, and indexing [l2] returns the
    corresponding part of them. *)
Theorem copy_visible_through_alias (w : world) (l l2 : nat)
    (o o2 : MemmapTensor) (v : Tensor) (d : list Z) :
  heap w !! l = Some o → heap w !! l2 = Some o2 → l2 ≠ l →
  mapping_ok w o = true → mapping_ok w o2 = true →
  handle_inode w o2 = handle_inode w o → np_shape o2 = np_shape o →
  np_shape o ≠ [] → t_requires_grad v = false →
  length (tensor_data w v) = numel (t_shape v) →
  broadcast_to (t_shape v) (np_shape o) (tensor_data w v) = Some d →
  ∃ w1,
    copy_ l (AL_Tensor v) w = (Ok l, w1) ∧
    heap w1 !! l2 = Some o2 ∧
    mapped_content w1 o2 = convert (t_dtype v) (_dtype o) <$> d ∧
    ∀ ix off s,
      index_region (np_shape o2) 0 ix = Ok (off, s) →
      ∃ t w2,
        MemmapTensor___getitem__ l2 ix w1 = (Ok t, w2) ∧
        tensor_data w2 t
          = take (numel s) (drop off (convert (t_dtype v) (_dtype o) <$> d)).
Proof.
  intros Hl Hl2 Hne Hok Hok2 Halias Hnp Hshape Hg Hlen Hbc.
  destruct (mapping_ok_inv w o Hok) as (ino & c0 & Hino & Hc0 & _ & _).
  destruct (copy_spec w l o v d ino Hl Hok Hshape Hg Hlen Hbc Hino)
    as (w1 & mm & c & c' & Hcopy & Hmm & Hc & Hc'len & Htake & Hi1 & Hp1
        & Hnext & Hh1).
  assert (Hl21 : heap w1 !! l2 = Some o2).
  { by rewrite Hh1, lookup_insert_ne. }
  destruct (mapping_ok_rewritten w w1 o2 ino c c' Hok2 ltac:(congruence) Hc Hp1
              ltac:(rewrite Hi1; apply lookup_insert_eq) Hc'len Hnext)
    as (Hok21 & Hino21 & Hmc21).
  assert (Hcontent : mapped_content w1 o2 = convert (t_dtype v) (_dtype o) <$> d)
    by (by rewrite Hmc21, Hnp).
  exists w1. split; [exact Hcopy|]. split; [exact Hl21|].
  split; [exact Hcontent|]. intros ix off s Hix.
  destruct (getitem_spec w1 l2 o2 ix off s Hl21 Hok21 Hix)
    as (t & w2 & Hget & _ & _ & _ & Htd & _).
  exists t, w2. split; [exact Hget|]. by rewrite Htd, Hcontent.
Qed.

Lemma copy_visible_through_alias_witness :
  ∃ w1 o2 t w2,
    copy_ 0 (AL_Tensor sevens) demo_world_shared = (Ok 0, w1) ∧
    heap w1 !! 1 = Some o2 ∧
    mapped_content w1 o2 = [7; 7]%Z ∧
    MemmapTensor___getitem__ 1 (IInt 1) w1 = (Ok t, w2) ∧
    tensor_data w2 t = [7]%Z.
Proof.
  destruct (copy_visible_through_alias demo_world_shared 0 1 _ _ sevens
              [7; 7]%Z eq_refl eq_refl ltac:(discriminate) eq_refl eq_refl
              eq_refl eq_refl ltac:(discriminate) eq_refl eq_refl eq_refl)
    as (w1 & H1 & H2 & H3 & H4).
  destruct (H4 (IInt 1) 1 [] eq_refl) as (t & w2 & H5 & H6).
  eexists w1, _, t, w2. split; [exact H1|]. split; [exact H2|].
  split; [exact H3|]. split; [exact H5|exact H6].
Defined.

(** X18.  Serialization round trip.  A handle restored from the state
    that [__reduce__] records names the same file and answers the same
    shape, dtype, device, [ndimension()] and [numel()]; it has no mapping
    open yet, and once materialised it gives the same elements as the
    original.  The content was not copied: both handles read and write
    one file. *)
Theorem pickle_roundtrip (w : world) (l : nat) (o : MemmapTensor) (ino : nat) :
  heap w !! l = Some o → handle_ok o = true → mapping_ok w o = true →
  mode o = mode_rplus →
  handle_inode w o = Some ino → fs_paths w !! filename o = Some ino →
  ∃ state w1 l2 w2 o1 o2 t w3,
    MemmapTensor___reduce__ l w = (Ok state, w1) ∧
    unpickle state w1 = (Ok l2, w2) ∧ l2 ≠ l ∧
    heap w2 !! l = Some o1 ∧ heap w2 !! l2 = Some o2 ∧
    filename o2 = filename o ∧ _memmap_array o2 = None ∧
    _shape o2 = _shape o ∧ _dtype o2 = _dtype o ∧ _device o2 = _device o ∧
    _ndim o2 = _ndim o ∧ _numel o2 = _numel o ∧ np_shape o2 = np_shape o ∧
    mapping_ok w2 o1 = true ∧ mapping_ok w2 o2 = true ∧
    handle_inode w2 o1 = Some ino ∧ handle_inode w2 o2 = Some ino ∧
    mapped_content w2 o2 = mapped_content w o ∧
    _tensor l2 w2 = (Ok t, w3) ∧
    tensor_data w3 t = mapped_content w o ∧
    t_shape t = np_shape o ∧ t_dtype t = _dtype o ∧ t_device t = _device o.
Proof.
  intros Hl Hok Hmok Hmode Hino Hpath.
  destruct (handle_ok_inv o Hok) as (f & Hf & _).
  pose proof (reduce_spec w l o f Hl Hf) as Hred.
  match type of Hred with _ = (Ok ?s, ?w1') =>
    set (state := s) in *; set (w1 := w1') in * end.
  pose proof (unpickle_spec w1 state eq_refl) as Hun.
  match type of Hun with _ = (Ok ?l2', ?w2') =>
    set (l2 := l2') in *; set (w2 := w2') in * end.
  set (o1 := if transfer_ownership o
             then with__has_ownership false (with_file (Some (cleared f)) o)
             else with__has_ownership (tempfile.delete f) o).
  assert (Hl1 : heap w1 !! l = Some o1) by apply lookup_insert_eq.
  assert (Hne : l2 ≠ l).
  { intros E. pose proof (fresh_loc_free w1) as Hfree. fold l2 in Hfree.
    rewrite E in Hfree. congruence. }
  destruct (mapping_ok_inv w o Hmok) as (ino' & c & Hino' & Hc & Hn & Hmc).
  assert (ino' = ino) as -> by congruence.
  assert (Hpne : fresh (dom (fs_paths w1)) ≠ filename o).
  { intros E. pose proof (fresh_path_free w1) as Hfree. rewrite E in Hfree.
    cbn in Hfree. congruence. }
  assert (Hine : fresh (dom (fs_inodes w1)) ≠ ino).
  { intros E. pose proof (fresh_inode_free w1) as Hfree. rewrite E in Hfree.
    cbn in Hfree. congruence. }
  assert (Hp2 : fs_paths w2 !! filename o = Some ino).
  { unfold w2. cbn. by rewrite lookup_insert_ne. }
  assert (Hi2 : fs_inodes w2 !! ino = Some c).
  { unfold w2. cbn. by rewrite lookup_insert_ne. }
  assert (Hino1 : handle_inode w2 o1 = Some ino).
  { unfold o1. unfold handle_inode in Hino |- *.
    destruct (transfer_ownership o);
      cbn [_memmap_array filename with__has_ownership with_file];
      (destruct (_memmap_array o); [done|exact Hp2]). }
  assert (Hok1 : mapping_ok w2 o1 = true).
  { unfold mapping_ok in Hmok |- *. rewrite Hino1, Hi2.
    rewrite Hino, Hc in Hmok.
    unfold o1. destruct (transfer_ownership o); exact Hmok. }
  assert (Hl22 : heap w2 !! l2 = Some (restored state)) by apply lookup_insert_eq.
  assert (Hino2 : handle_inode w2 (restored state) = Some ino) by exact Hp2.
  assert (Hok2 : mapping_ok w2 (restored state) = true).
  { unfold mapping_ok. rewrite Hino2, Hi2. cbn.
    apply andb_true_iff. split; apply bool_decide_eq_true; done. }
  assert (Hmc2 : mapped_content w2 (restored state) = mapped_content w o).
  { rewrite Hmc. unfold mapped_content, storage_data. rewrite Hino2, Hi2. done. }
  destruct (tensor_spec w2 l2 _ Hl22 Hok2)
    as (w3 & mm & Ht & _ & Hdata & _).
  eexists state, w1, l2, w2, o1, (restored state), _, w3.
  split; [exact Hred|]. split; [exact Hun|]. split; [exact Hne|].
  split; [unfold w2; cbn; by rewrite lookup_insert_ne|].
  split; [exact Hl22|]. do 8 (split; [reflexivity|]).
  do 5 (split; [done|]). split; [exact Ht|].
  split; [by rewrite Hdata|]. done.
Qed.

Lemma pickle_roundtrip_witness :
  ∃ state w1 l2 w2 t w3,
    MemmapTensor___reduce__ 0 demo_world = (Ok state, w1) ∧
    unpickle state w1 = (Ok l2, w2) ∧
    _tensor l2 w2 = (Ok t, w3) ∧ tensor_data w3 t = [1; 2]%Z.
Proof.
  destruct (pickle_roundtrip demo_world 0 _ 0 eq_refl eq_refl eq_refl eq_refl
              eq_refl eq_refl)
    as (state & w1 & l2 & w2 & o1 & o2 & t & w3 & H1 & H2 & _ & _ & _ & _ & _
        & _ & _ & _ & _ & _ & _ & _ & _ & _ & _ & _ & H3 & H4 & _).
  exists state, w1, l2, w2, t, w3.
  split; [exact H1|]. split; [exact H2|]. split; [exact H3|exact H4].
Defined.

(** ** Shape, dtype and device never change *)

Lemma same_metadata_refl o : same_metadata o o.
Proof. by repeat split. Qed.

Lemma same_metadata_trans o1 o2 o3 :
  same_metadata o1 o2 → same_metadata o2 o3 → same_metadata o1 o3.
Proof.
  unfold same_metadata. intros (?&?&?&?&?&?&?) (?&?&?&?&?&?&?).
  repeat split; congruence.
Qed.

Lemma quiet_metadata {A} (m : M A) l w o :
  quiet m → heap w !! l = Some o →
  ∃ o', heap (m w).2 !! l = Some o' ∧ same_metadata o o'.
Proof.
  intros Hq Hl. destruct (Hq w) as (_ & Hobj & _).
  destruct (Hobj l o Hl) as (o' & Hl' & E). exists o'. split; [done|].
  destruct (same_but_memmap_array_fields o o' E)
    as (?&?&?&?&?&?&?&_). by repeat split.
Qed.

Lemma set_transfer_ownership_metadata l v w o :
  heap w !! l = Some o →
  ∃ o', heap (MemmapTensor_set_transfer_ownership l v w).2 !! l = Some o' ∧
        same_metadata o o'.
Proof.
  intros Hl. unfold MemmapTensor_set_transfer_ownership.
  destruct (negb (isinstance v [C_bool]));
    [exists o; split; [done|apply same_metadata_refl]|].
  destruct v; try (exists o; split; [done|apply same_metadata_refl]).
  rewrite (bind_ok _ _ _ _ _ (deref_ok _ _ _ Hl)).
  unfold setobj, modify, mbind, M_bind, mret, M_ret, set_heap. cbn.
  eexists. rewrite lookup_insert_eq. split; [done|]. by repeat split.
Qed.

Lemma reduce_metadata l w o :
  heap w !! l = Some o →
  ∃ o', heap (MemmapTensor___reduce__ l w).2 !! l = Some o' ∧
        same_metadata o o'.
Proof.
  intros Hl. destruct (file o) as [f|] eqn:Hf.
  - rewrite (reduce_spec w l o f Hl Hf). cbn. rewrite lookup_insert_eq.
    eexists. split; [done|]. destruct (transfer_ownership o); by repeat split.
  - exists o. split; [|apply same_metadata_refl].
    unfold MemmapTensor___reduce__.
    rewrite (bind_ok _ _ _ _ _ (deref_ok _ _ _ Hl)). rewrite Hf.
    destruct (transfer_ownership o); [done|].
    erewrite bind_ok by reflexivity.
    unfold object___reduce__, MemmapTensor___getstate__.
    rewrite (bind_ok _ _ _ _ _ (deref_ok _ _ _ Hl)). by rewrite Hf.
Qed.

Lemma run_op_metadata l op w o :
  heap w !! l = Some o →
  ∃ w' o', run_op l op w = (Ok tt, w') ∧ heap w' !! l = Some o' ∧
           same_metadata o o'.
Proof.
  intros Hl.
  assert (Hgen : ∀ (m : M unit),
            (∃ o', heap (m w).2 !! l = Some o' ∧ same_metadata o o') →
            ∃ w' o', catch m (λ _, mret tt) w = (Ok tt, w') ∧
                     heap w' !! l = Some o' ∧ same_metadata o o').
  { intros m (o' & H1 & H2). unfold catch.
    destruct (m w) as [[[]|e] w']; by exists w', o'. }
  assert (Hbind : ∀ {A} (m : M A),
            (∃ o', heap (m w).2 !! l = Some o' ∧ same_metadata o o') →
            ∃ o', heap ((m ≫= λ _, mret tt) w).2 !! l = Some o' ∧
                  same_metadata o o').
  { intros A m H. unfold mbind, M_bind. by destruct (m w) as [[a|e] w']. }
  unfold run_op. destruct op; apply Hgen.
  - by apply Hbind, set_transfer_ownership_metadata.
  - by apply Hbind, reduce_metadata.
  - apply Hbind, quiet_metadata; [apply quiet_copy_|done].
  - apply Hbind, quiet_metadata; [apply quiet___getitem__|done].
  - apply quiet_metadata; [apply quiet___setitem__|done].
  - apply Hbind, quiet_metadata; [apply quiet___eq__|done].
Qed.

Lemma run_ops_metadata l ops w o :
  heap w !! l = Some o →
  ∃ w' o', run_ops l ops w = (Ok tt, w') ∧ heap w' !! l = Some o' ∧
           same_metadata o o'.
Proof.
  revert w o. induction ops as [|op ops IH]; intros w o Hl.
  - exists w, o. split; [done|]. split; [done|apply same_metadata_refl].
  - destruct (run_op_metadata l op w o Hl) as (w1 & o1 & E1 & Hl1 & M1).
    destruct (IH w1 o1 Hl1) as (w2 & o2 & E2 & Hl2 & M2).
    exists w2, o2. cbn. rewrite (bind_ok _ _ _ _ _ E1). split; [done|].
    split; [done|]. by eapply same_metadata_trans.
Qed.

Lemma describe_spec w l o :
  heap w !! l = Some o →
  describe l w = (Ok (_shape o, _dtype o, _device o, _ndim o, _numel o), w).
Proof.
  intros Hl.
  unfold describe, MemmapTensor_shape, MemmapTensor_dtype, MemmapTensor_device,
    ndimension, MemmapTensor_numel.
  repeat (erewrite bind_ok;
          [|rewrite (bind_ok _ _ _ _ _ (deref_ok _ _ _ Hl)); reflexivity]).
  reflexivity.
Qed.

(** X19.  The accessors of a handle built from a tensor [x] answer the
    shape, dtype and device of [x], its number of dimensions and its
    number of elements, and go on doing so whatever is done with the
    handle: no sequence of [set_transfer_ownership], [__reduce__],
    [copy_], [__getitem__], [__setitem__] and [__eq__] calls, successful
    or not, changes these answers. *)
Theorem accessors_stable (w : world) (x : Tensor) (to : bool) :
  supported w x = true →
  ∃ l w1,
    MemmapTensor_new (PyTensor x) to w = (Ok l, w1) ∧
    ∀ ops, ∃ w2,
      run_ops l ops w1 = (Ok tt, w2) ∧
      describe l w2
        = (Ok (t_shape x, t_dtype x, t_device x, length (t_shape x),
               numel (t_shape x)), w2).
Proof.
  intros Hsup. destruct (supported_inv w x Hsup) as (Hg & Hs & Hn & Hlen).
  pose proof (construct_from_tensor w x to Hg Hs Hn Hlen) as Hnew.
  match type of Hnew with _ = (_, ?w1') => set (w1 := w1') in * end.
  exists (fresh (dom (heap w))), w1. split; [exact Hnew|]. intros ops.
  destruct (run_ops_metadata (fresh (dom (heap w))) ops w1 (constructed w x to)
              ltac:(apply lookup_insert_eq))
    as (w2 & o2 & Hrun & Hl2 & (E1 & E2 & E3 & E4 & E5 & _)).
  exists w2. split; [exact Hrun|].
  rewrite (describe_spec w2 _ o2 Hl2), E1, E2, E3, E4, E5. reflexivity.
Qed.

Lemma accessors_stable_witness :
  ∃ l w1 w2,
    MemmapTensor_new (PyTensor demo_matrix) false empty_world = (Ok l, w1) ∧
    run_ops l [op_copy_ (AL_Tensor sevens); op_reduce; op_getitem (IInt 5)] w1
      = (Ok tt, w2) ∧
    describe l w2 = (Ok ([2; 3], torch_int64, cpu, 2, 6), w2).
Proof.
  destruct (accessors_stable empty_world demo_matrix false eq_refl)
    as (l & w1 & H1 & H2).
  destruct (H2 [op_copy_ (AL_Tensor sevens); op_reduce; op_getitem (IInt 5)])
    as (w2 & H3 & H4).
  exists l, w1, w2. split; [exact H1|]. split; [exact H3|exact H4].
Defined.

(** ** Reading and writing through a handle *)

(** X20.  [m[ix]] reads the file and nothing else.  For an index that
    selects the window [(off, s)] of the handle's shape it returns a
    tensor of shape [s], with the dtype and device of the handle, holding
    the [numel s] mapped elements from [off] on; an index that the shape
    does not admit (an int outside [-n .. n-1]) raises the indexing
    error.  In both cases no directory entry and no file content
    changes. *)
Theorem getitem_reads_window (w : world) (l : nat) (o : MemmapTensor)
    (ix : index) :
  heap w !! l = Some o → mapping_ok w o = true →
  (∀ off s, index_region (np_shape o) 0 ix = Ok (off, s) →
     ∃ t w',
       MemmapTensor___getitem__ l ix w = (Ok t, w') ∧
       t_shape t = s ∧ t_dtype t = _dtype o ∧ t_device t = _device o ∧
       tensor_data w' t = take (numel s) (drop off (mapped_content w o)) ∧
       fs_paths w' = fs_paths w ∧ fs_inodes w' = fs_inodes w) ∧
  (∀ e, index_region (np_shape o) 0 ix = Raise e →
     ∃ w',
       MemmapTensor___getitem__ l ix w = (Raise e, w') ∧
       fs_paths w' = fs_paths w ∧ fs_inodes w' = fs_inodes w).
Proof.
  intros Hl Hok. split.
  - intros off s Hix. exact (getitem_spec w l o ix off s Hl Hok Hix).
  - intros e Hix.
    destruct (tensor_spec w l o Hl Hok) as (w' & mm & Ht & _ & _ & Hp & Hi & _).
    exists w'. unfold MemmapTensor___getitem__. fold (_tensor l).
    rewrite (bind_ok _ _ _ _ _ Ht). unfold Tensor___getitem__, materialised.
    cbn [t_shape t_offset]. rewrite Hix. by repeat split.
Qed.

Lemma getitem_reads_window_witness :
  (∃ t w', MemmapTensor___getitem__ 0 (IInt (-1)) demo_world_matrix = (Ok t, w') ∧
           t_shape t = [3] ∧ tensor_data w' t = [4; 5; 6]%Z) ∧
  (∃ w', MemmapTensor___getitem__ 0 (IInt 2) demo_world_matrix
           = (Raise IndexError, w') ∧
         fs_inodes w' = fs_inodes demo_world_matrix).
Proof.
  destruct (getitem_reads_window demo_world_matrix 0 _ (IInt (-1)) eq_refl eq_refl)
    as [H _].
  destruct (getitem_reads_window demo_world_matrix 0 _ (IInt 2) eq_refl eq_refl)
    as [_ H'].
  split.
  - destruct (H 3 [3] eq_refl) as (t & w' & H1 & H2 & _ & _ & H3 & _).
    exists t, w'. split; [exact H1|]. split; [exact H2|exact H3].
  - destruct (H' IndexError eq_refl) as (w' & H1 & _ & H2).
    exists w'. split; [exact H1|exact H2].
Defined.

(** X21.  On the CPU an indexed assignment goes through the view into
    the file: [m[ix] = v] followed by [m[ix]] returns [v], broadcast to
    the shape of the window and converted to the dtype of the handle. *)
Theorem setitem_visible_on_cpu (w : world) (l : nat) (o : MemmapTensor)
    (ix : index) (v : Tensor) (off : nat) (s : list nat) (d : list Z) :
  heap w !! l = Some o → mapping_ok w o = true → _device o = cpu →
  index_region (np_shape o) 0 ix = Ok (off, s) →
  length (tensor_data w v) = numel (t_shape v) →
  broadcast_to (t_shape v) s (tensor_data w v) = Some d →
  ∃ w1 t w2,
    MemmapTensor___setitem__ l ix v w = (Ok tt, w1) ∧
    MemmapTensor___getitem__ l ix w1 = (Ok t, w2) ∧
    t_shape t = s ∧
    tensor_data w2 t = convert (t_dtype v) (_dtype o) <$> d.
Proof. apply setitem_then_getitem_cpu. Qed.

Lemma setitem_visible_on_cpu_witness :
  ∃ w1 t w2,
    MemmapTensor___setitem__ 0 (ISlice (Some 1%Z) None) (seven cpu)
      demo_world_matrix = (Ok tt, w1) ∧
    MemmapTensor___getitem__ 0 (ISlice (Some 1%Z) None) w1 = (Ok t, w2) ∧
    t_shape t = [1; 3] ∧ tensor_data w2 t = [7; 7; 7]%Z.
Proof.
  exact (setitem_visible_on_cpu demo_world_matrix 0 _ (ISlice (Some 1%Z) None)
           (seven cpu) 3 [1; 3] [7; 7; 7]%Z
           eq_refl eq_refl eq_refl eq_refl eq_refl eq_refl).
Defined.

(** X22.  For a handle on a device other than the CPU an indexed
    assignment that torch accepts changes no file at all: [m[ix] = v]
    succeeds, every file is as before, and [m[ix]] still returns the old
    elements. *)
Theorem setitem_invisible_off_cpu (w : world) (l : nat) (o : MemmapTensor)
    (k : nat) (ix : index) (v : Tensor) (off : nat) (s : list nat)
    (d : list Z) :
  heap w !! l = Some o → mapping_ok w o = true → _device o = cuda k →
  index_region (np_shape o) 0 ix = Ok (off, s) →
  broadcast_to (t_shape v) s (tensor_data w v) = Some d →
  ∃ w1 t w2,
    MemmapTensor___setitem__ l ix v w = (Ok tt, w1) ∧
    fs_inodes w1 = fs_inodes w ∧
    MemmapTensor___getitem__ l ix w1 = (Ok t, w2) ∧
    tensor_data w2 t = take (numel s) (drop off (mapped_content w o)).
Proof. apply setitem_then_getitem_off_cpu. Qed.

Lemma setitem_invisible_off_cpu_witness :
  ∃ w1 t w2,
    MemmapTensor___setitem__ 0 (IInt 0) (seven (cuda 0)) demo_world_cuda
      = (Ok tt, w1) ∧
    fs_inodes w1 = fs_inodes demo_world_cuda ∧
    MemmapTensor___getitem__ 0 (IInt 0) w1 = (Ok t, w2) ∧
    tensor_data w2 t = [1]%Z.
Proof.
  exact (setitem_invisible_off_cpu demo_world_cuda 0 _ 0 (IInt 0)
           (seven (cuda 0)) 0 [] [7]%Z eq_refl eq_refl eq_refl eq_refl eq_refl).
Defined.

(** X23.  [copy_] writes into the mapping itself, on every device: after
    [m.copy_(v)] the handle maps [v], broadcast to the handle's shape and
    converted to its dtype, and [m[ix]] returns the corresponding part of
    it. *)
Theorem copy_then_read (w : world) (l : nat) (o : MemmapTensor) (v : Tensor)
    (d : list Z) (ix : index) (off : nat) (s : list nat) :
  heap w !! l = Some o → mapping_ok w o = true → np_shape o ≠ [] →
  t_requires_grad v = false →
  length (tensor_data w v) = numel (t_shape v) →
  broadcast_to (t_shape v) (np_shape o) (tensor_data w v) = Some d →
  index_region (np_shape o) 0 ix = Ok (off, s) →
  ∃ w1 o1 t w2,
    copy_ l (AL_Tensor v) w = (Ok l, w1) ∧
    heap w1 !! l = Some o1 ∧
    mapped_content w1 o1 = convert (t_dtype v) (_dtype o) <$> d ∧
    MemmapTensor___getitem__ l ix w1 = (Ok t, w2) ∧
    t_shape t = s ∧
    tensor_data w2 t
      = take (numel s) (drop off (convert (t_dtype v) (_dtype o) <$> d)).
Proof. apply copy_then_getitem_spec. Qed.

Lemma copy_then_read_witness :
  ∃ w1 o1 t w2,
    copy_ 0 (AL_Tensor (mkTensor (Memory [8; 9]%Z) 0 [2] torch_int64 (cuda 0) false))
      demo_world_cuda = (Ok 0, w1) ∧
    heap w1 !! 0 = Some o1 ∧
    mapped_content w1 o1 = [8; 9]%Z ∧
    MemmapTensor___getitem__ 0 (IInt 1) w1 = (Ok t, w2) ∧
    tensor_data w2 t = [9]%Z.
Proof.
  destruct (copy_then_read demo_world_cuda 0 _
              (mkTensor (Memory [8; 9]%Z) 0 [2] torch_int64 (cuda 0) false)
              [8; 9]%Z (IInt 1) 1 []
              eq_refl eq_refl ltac:(discriminate) eq_refl eq_refl eq_refl eq_refl)
    as (w1 & o1 & t & w2 & H1 & H2 & H3 & H4 & _ & H5).
  exists w1, o1, t, w2. split; [exact H1|]. split; [exact H2|].
  split; [exact H3|]. split; [exact H4|exact H5].
Defined.

(** X24.  A [copy_] that cannot be carried out changes no data.  A
    source that tracks gradients is refused with [RuntimeError] before
    the mapping is opened, the world unchanged; a source whose shape does
    not broadcast to the shape of the handle is refused with
    [ValueError], every file as before. *)
Theorem copy_refused (w : world) (l : nat) (o : MemmapTensor) (v : Tensor) :
  heap w !! l = Some o → mapping_ok w o = true → np_shape o ≠ [] →
  (t_requires_grad v = true →
     copy_ l (AL_Tensor v) w = (Raise RuntimeError, w)) ∧
  (t_requires_grad v = false →
   length (tensor_data w v) = numel (t_shape v) →
   broadcast_to (t_shape v) (np_shape o) (tensor_data w v) = None →
     ∃ w',
       copy_ l (AL_Tensor v) w = (Raise ValueError, w') ∧
       fs_paths w' = fs_paths w ∧ fs_inodes w' = fs_inodes w).
Proof.
  intros Hl Hok Hshape. split.
  - intros Hg. unfold copy_, _save_item. erewrite bind_raise; [reflexivity|].
    erewrite bind_raise; [reflexivity|].
    assert (Hcpu : ∃ t', Tensor_cpu v w = (Ok t', w) ∧ t_requires_grad t' = true).
    { unfold Tensor_cpu. destruct (t_device v); [by exists v|].
      erewrite bind_ok by reflexivity. by eexists. }
    destruct Hcpu as (t' & Hcpu & Hg').
    rewrite (bind_ok _ _ _ _ _ Hcpu). erewrite bind_raise; [reflexivity|].
    unfold Tensor_numpy. by rewrite Hg'.
  - intros Hg Hlen Hbc.
    destruct (np_shape o) as [|n rest] eqn:Hnp; [done|].
    destruct (tensor_to_numpy w v Hg) as (a & Hsrc & Has & Had & Hadata).
    destruct (get_memmap_array_ok w l o Hl Hok)
      as (mm & w' & Hget & Hino & Hms & Hmd & Hmm & Hid & Hnext & Hp & Hi & Hh).
    exists w'. split; [|done].
    unfold copy_, _save_item. erewrite bind_raise; [reflexivity|].
    rewrite (bind_ok _ _ _ _ _ Hsrc), (bind_ok _ _ _ _ _ Hget).
    erewrite bind_ok by reflexivity.
    unfold memmap_setitem. rewrite Hmm, Hms, Hnp, index_region_full.
    erewrite bind_ok by reflexivity.
    by rewrite Has, (Hadata Hlen w' Hi), Hbc.
Qed.

Lemma copy_refused_witness :
  copy_ 0 (AL_Tensor (mkTensor (Memory [8; 9]%Z) 0 [2] torch_int64 cpu true))
    demo_world = (Raise RuntimeError, demo_world) ∧
  ∃ w',
    copy_ 0 (AL_Tensor (mkTensor (Memory [7; 8; 9]%Z) 0 [3] torch_int64 cpu false))
      demo_world = (Raise ValueError, w') ∧
    fs_inodes w' = fs_inodes demo_world.
Proof.
  split.
  - exact (proj1 (copy_refused demo_world 0 _
                    (mkTensor (Memory [8; 9]%Z) 0 [2] torch_int64 cpu true)
                    eq_refl eq_refl ltac:(discriminate)) eq_refl).
  - destruct (proj2 (copy_refused demo_world 0 _
                       (mkTensor (Memory [7; 8; 9]%Z) 0 [3] torch_int64 cpu false)
                       eq_refl eq_refl ltac:(discriminate))
                eq_refl eq_refl eq_refl) as (w' & H1 & _ & H2).
    exists w'. split; [exact H1|exact H2].
Defined.

(** ** Construction and cloning *)

(** X25.  Construction creates exactly one file and touches nothing
    else.  For a supported tensor, [MemmapTensor(x, transfer_ownership)]
    returns a new object whose file name and inode were both unused;
    every other directory entry, file content and object is as before.
    The new handle owns its file, carries the requested
    [transfer_ownership], and destroying it right away removes the file
    again, which restores every directory entry and object. *)
Theorem construction_makes_owner (w : world) (x : Tensor) (to : bool) :
  supported w x = true →
  ∃ l w1 o ino,
    MemmapTensor_new (PyTensor x) to w = (Ok l, w1) ∧
    heap w !! l = None ∧ heap w1 !! l = Some o ∧
    fs_paths w !! filename o = None ∧
    fs_paths w1 !! filename o = Some ino ∧
    fs_inodes w !! ino = None ∧
    fs_inodes w1 !! ino = Some (tensor_data w x) ∧
    (∀ p, p ≠ filename o → fs_paths w1 !! p = fs_paths w !! p) ∧
    (∀ j, j ≠ ino → fs_inodes w1 !! j = fs_inodes w !! j) ∧
    (∀ l', l' ≠ l → heap w1 !! l' = heap w !! l') ∧
    handle_ok o = true ∧ _has_ownership o = true ∧
    transfer_ownership o = to ∧
    ∃ w2, destroy l w1 = (Ok tt, w2) ∧
          fs_paths w2 = fs_paths w ∧ heap w2 = heap w.
Proof.
  intros Hsup. destruct (supported_inv w x Hsup) as (Hg & Hs & Hn & Hlen).
  pose proof (construct_from_tensor w x to Hg Hs Hn Hlen) as Hnew.
  match type of Hnew with _ = (Ok ?l', ?w1') =>
    set (l := l') in *; set (w1 := w1') in * end.
  assert (Hl1 : heap w1 !! l = Some (constructed w x to))
    by apply lookup_insert_eq.
  exists l, w1, (constructed w x to), (fresh (dom (fs_inodes w))).
  split; [exact Hnew|]. split; [apply fresh_loc_free|]. split; [exact Hl1|].
  split; [apply fresh_path_free|]. split; [apply lookup_insert_eq|].
  split; [apply fresh_inode_free|]. split; [apply lookup_insert_eq|].
  split; [intros p Hp; unfold w1; cbn; by rewrite lookup_insert_ne|].
  split; [intros j Hj; unfold w1; cbn; by rewrite lookup_insert_ne|].
  split; [intros l' Hl'; unfold w1; cbn; by rewrite lookup_insert_ne|].
  split; [apply constructed_ok|]. do 2 (split; [reflexivity|]).
  eexists. split; [exact (destroy_spec w1 l _ Hl1 (constructed_ok w x to))|].
  cbn [fs_paths heap set_heap set_paths _has_ownership constructed w1 filename].
  split.
  - rewrite delete_insert_eq. apply delete_id, fresh_path_free.
  - rewrite delete_insert_eq. apply delete_id, fresh_loc_free.
Qed.

Lemma construction_makes_owner_witness :
  ∃ l w1 o w2,
    MemmapTensor_new (PyTensor sevens) true demo_world = (Ok l, w1) ∧
    heap w1 !! l = Some o ∧ fs_paths demo_world !! filename o = None ∧
    _has_ownership o = true ∧
    destroy l w1 = (Ok tt, w2) ∧ fs_paths w2 = fs_paths demo_world.
Proof.
  destruct (construction_makes_owner demo_world sevens true eq_refl)
    as (l & w1 & o & ino & H1 & _ & H2 & H3 & _ & _ & _ & _ & _ & _ & _ & H4
        & _ & w2 & H5 & H6 & _).
  exists l, w1, o, w2. split; [exact H1|]. split; [exact H2|].
  split; [exact H3|]. split; [exact H4|]. split; [exact H5|exact H6].
Defined.

(** X26.  [clone()] of a handle built from a tensor, whose file is still
    in place, returns a new handle over a new file (its name was unused)
    with the same elements, shape, dtype and device.  The clone owns its
    file and has [transfer_ownership] false, whatever the source has.
    The two handles do not share storage: [copy_] or an indexed
    assignment through either one, whatever its arguments and outcome,
    leaves what the other maps as it was. *)
Theorem clone_is_independent (w : world) (l : nat) (o : MemmapTensor)
    (ino : nat) :
  heap w !! l = Some o → mapping_ok w o = true →
  "requires_grad" ∈ _tensor_dir o →
  _shape o = np_shape o → np_shape o ≠ [] →
  handle_inode w o = Some ino → fs_paths w !! filename o = Some ino →
  ∃ l2 w1 o1 o2,
    clone l w = (Ok l2, w1) ∧ l2 ≠ l ∧
    heap w1 !! l = Some o1 ∧ heap w1 !! l2 = Some o2 ∧
    fs_paths w !! filename o2 = None ∧
    filename o2 ≠ filename o1 ∧
    handle_inode w1 o2 ≠ handle_inode w1 o1 ∧
    mapped_content w1 o2 = mapped_content w o ∧
    mapped_content w1 o1 = mapped_content w o ∧
    _shape o2 = _shape o ∧ _dtype o2 = _dtype o ∧ _device o2 = _device o ∧
    _ndim o2 = _ndim o ∧ _numel o2 = _numel o ∧
    handle_ok o2 = true ∧ _has_ownership o2 = true ∧
    transfer_ownership o2 = false ∧
    (∀ v, mapped_content (copy_ l2 (AL_Tensor v) w1).2 o1 = mapped_content w1 o1) ∧
    (∀ ix v, mapped_content (MemmapTensor___setitem__ l2 ix v w1).2 o1
             = mapped_content w1 o1) ∧
    (∀ v, mapped_content (copy_ l (AL_Tensor v) w1).2 o2 = mapped_content w1 o2) ∧
    (∀ ix v, mapped_content (MemmapTensor___setitem__ l ix v w1).2 o2
             = mapped_content w1 o2).
Proof.
  intros Hl Hok Hdir Hshape Hnil Hino Hpath.
  destruct (clone_spec w l o ino Hl Hok Hdir Hshape Hnil Hino Hpath)
    as (l2 & w1 & o1 & o2 & ino2 & Hclone & Hne & Hl1 & Hl2 & Hf1 & Hf2 & Hfree
        & Hi1 & Hi2 & Hino2 & Hok1 & Hok2 & Hc1 & Hc2 & _ & Hdt & Hdev
        & Hhok & Hown & Hto & _ & Hsh & Hnd & Hnu & _).
  exists l2, w1, o1, o2. split; [exact Hclone|]. split; [exact Hne|].
  split; [exact Hl1|]. split; [exact Hl2|]. split; [exact Hfree|].
  split; [congruence|]. split; [congruence|].
  split; [exact Hc2|]. split; [exact Hc1|].
  do 8 (split; [done|]).
  split; [|split; [|split]].
  - intros v.
    exact (proj2 (mapped_content_frame w1 _ l2 ino2 o1 ino
                    (copy_frame w1 l2 o2 ino2 v Hl2 Hok2 Hi2) Hi1
                    ltac:(congruence))).
  - intros ix v.
    exact (proj2 (mapped_content_frame w1 _ l2 ino2 o1 ino
                    (setitem_frame w1 l2 o2 ino2 ix v Hl2 Hok2 Hi2) Hi1
                    ltac:(congruence))).
  - intros v.
    exact (proj2 (mapped_content_frame w1 _ l ino o2 ino2
                    (copy_frame w1 l o1 ino v Hl1 Hok1 Hi1) Hi2 Hino2)).
  - intros ix v.
    exact (proj2 (mapped_content_frame w1 _ l ino o2 ino2
                    (setitem_frame w1 l o1 ino ix v Hl1 Hok1 Hi1) Hi2 Hino2)).
Qed.

Lemma clone_is_independent_witness :
  ∃ l2 w1 o1 o2,
    clone 0 demo_world_transfer = (Ok l2, w1) ∧
    heap w1 !! 0 = Some o1 ∧ heap w1 !! l2 = Some o2 ∧
    transfer_ownership o1 = true ∧ transfer_ownership o2 = false ∧
    mapped_content w1 o2 = [1; 2]%Z ∧
    mapped_content (copy_ 0 (AL_Tensor sevens) w1).2 o2 = mapped_content w1 o2.
Proof.
  destruct (clone_is_independent demo_world_transfer 0 _ 0 eq_refl eq_refl
              ltac:(apply (bool_decide_unpack _); vm_compute; exact I)
              eq_refl ltac:(discriminate) eq_refl eq_refl)
    as (l2 & w1 & o1 & o2 & H1 & _ & H2 & H3 & _ & _ & _ & H4 & _ & _ & _ & _
        & _ & _ & _ & _ & H5 & _ & _ & H6 & _).
  exists l2, w1, o1, o2. split; [exact H1|]. split; [exact H2|].
  split; [exact H3|]. split.
  { clear -H1 H2. vm_compute in H1. injection H1 as <- <-.
    vm_compute in H2. by injection H2 as <-. }
  split; [exact H5|]. split; [exact H4|exact (H6 sevens)].
Defined.

(** X27.  A clone is a second-class handle.  [__init__] records [dir] of
    its source as [_tensor_dir]; for a clone that is [dir] of a
    [MemmapTensor], so the clone answers no tensor attribute any more:
    every name that the class itself does not define raises
    [AttributeError] without the mapping being read.  In particular the
    clone cannot be cloned: [clone()] on it raises [AttributeError] and
    changes nothing. *)
Theorem clone_cannot_be_cloned (w : world) (l : nat) (o : MemmapTensor)
    (ino : nat) :
  heap w !! l = Some o → mapping_ok w o = true →
  "requires_grad" ∈ _tensor_dir o →
  _shape o = np_shape o → np_shape o ≠ [] →
  handle_inode w o = Some ino → fs_paths w !! filename o = Some ino →
  ∃ l2 w1,
    clone l w = (Ok l2, w1) ∧
    clone l2 w1 = (Raise AttributeError, w1) ∧
    ∀ attr, attr ∉ MemmapTensor___dir__ →
      MemmapTensor___getattr__ l2 attr w1 = (Raise AttributeError, w1).
Proof.
  intros Hl Hok Hdir Hshape Hnil Hino Hpath.
  destruct (clone_spec w l o ino Hl Hok Hdir Hshape Hnil Hino Hpath)
    as (l2 & w1 & o1 & o2 & ino2 & Hclone & _ & _ & Hl2 & _ & _ & _ & _ & _ & _
        & _ & _ & _ & _ & _ & _ & _ & _ & _ & _ & Htd & _).
  exists l2, w1. split; [exact Hclone|].
  split; [exact (clone_of_MemmapTensor_built w1 l2 o2 Hl2 Htd)|].
  intros attr Hattr. unfold MemmapTensor___getattr__.
  rewrite (bind_ok _ _ _ _ _ (deref_ok _ _ _ Hl2)).
  rewrite decide_False by done. rewrite Htd. by rewrite decide_True.
Qed.

Lemma clone_cannot_be_cloned_witness :
  ∃ l2 w1,
    clone 0 demo_world = (Ok l2, w1) ∧
    clone l2 w1 = (Raise AttributeError, w1) ∧
    MemmapTensor___getattr__ l2 "requires_grad" w1 = (Raise AttributeError, w1).
Proof.
  destruct (clone_cannot_be_cloned demo_world 0 _ 0 eq_refl eq_refl
              ltac:(apply (bool_decide_unpack _); vm_compute; exact I)
              eq_refl ltac:(discriminate) eq_refl eq_refl)
    as (l2 & w1 & H1 & H2 & H3).
  exists l2, w1. split; [exact H1|]. split; [exact H2|].
  apply H3. apply (bool_decide_unpack _). vm_compute. exact I.
Defined.

(** ** The attribute fallback *)

(** X28.  [__getattr__] for a name the class does not define.  A name
    that is not in the handle's [_tensor_dir] raises [AttributeError]
    and the mapping is not even opened.  A name in [_tensor_dir] that is
    one of the tensor attributes of [Tensor___dir__] is looked up on the
    materialised tensor: [requires_grad] is then always [False], and any
    other is that attribute of the materialised tensor.  No directory
    entry and no file content changes. *)
Theorem getattr_fallback (w : world) (l : nat) (o : MemmapTensor)
    (attr : string) :
  heap w !! l = Some o → attr ∉ MemmapTensor___dir__ →
  (attr ∉ _tensor_dir o →
     MemmapTensor___getattr__ l attr w = (Raise AttributeError, w)) ∧
  (attr ∈ _tensor_dir o → attr ∈ Tensor___dir__ →
   mapping_ok w o = true →
     ∃ w' ino,
       MemmapTensor___getattr__ l attr w
         = (Ok (if decide (attr = "requires_grad") then PyBool false
                else PyAttr (materialised w o ino) attr), w') ∧
       handle_inode w o = Some ino ∧
       fs_paths w' = fs_paths w ∧ fs_inodes w' = fs_inodes w).
Proof.
  intros Hl Hattr. split.
  - intros Hnot. unfold MemmapTensor___getattr__.
    rewrite (bind_ok _ _ _ _ _ (deref_ok _ _ _ Hl)).
    rewrite decide_False by done. by rewrite decide_True.
  - intros Hin Hdir Hok.
    destruct (tensor_spec w l o Hl Hok) as (w' & mm & Ht & Hino & _ & Hp & Hi & _).
    exists w', (mm_ino mm). split; [|done].
    unfold MemmapTensor___getattr__.
    rewrite (bind_ok _ _ _ _ _ (deref_ok _ _ _ Hl)).
    rewrite decide_False by done.
    rewrite (decide_False (P := attr ∉ _tensor_dir o)) by auto.
    rewrite (bind_ok _ _ _ _ _ Ht). unfold Tensor_getattr.
    destruct (decide (attr = "requires_grad")); [reflexivity|].
    by rewrite decide_True.
Qed.

Lemma getattr_fallback_witness :
  MemmapTensor___getattr__ 0 "no_such_attribute" demo_world
    = (Raise AttributeError, demo_world) ∧
  (∃ w', MemmapTensor___getattr__ 0 "requires_grad" demo_world
           = (Ok (PyBool false), w')) ∧
  (∃ w' t, MemmapTensor___getattr__ 0 "__array__" demo_world
             = (Ok (PyAttr t "__array__"), w') ∧
           tensor_data w' t = [1; 2]%Z).
Proof.
  split; [|split].
  - apply (proj1 (getattr_fallback demo_world 0 _ "no_such_attribute" eq_refl
                    ltac:(apply (bool_decide_unpack _); vm_compute; exact I))).
    apply (bool_decide_unpack _). vm_compute. exact I.
  - destruct (proj2 (getattr_fallback demo_world 0 _ "requires_grad" eq_refl
                       ltac:(apply (bool_decide_unpack _); vm_compute; exact I))
                ltac:(apply (bool_decide_unpack _); vm_compute; exact I)
                ltac:(apply (bool_decide_unpack _); vm_compute; exact I)
                eq_refl) as (w' & ino & H & _).
    exists w'. exact H.
  - destruct (proj2 (getattr_fallback demo_world 0 _ "__array__" eq_refl
                       ltac:(apply (bool_decide_unpack _); vm_compute; exact I))
                ltac:(apply (bool_decide_unpack _); vm_compute; exact I)
                ltac:(apply (bool_decide_unpack _); vm_compute; exact I)
                eq_refl) as (w' & ino & H & _).
    exists w'. eexists. split; [exact H|].
    vm_compute in H. injection H as <- <-. vm_compute. reflexivity.
Defined.

(** ** A handle whose file was deleted by its owner *)

(** X29.  Deleting the owner pulls the directory entry from under every
    other handle on the same file.  A handle that had its mapping open
    keeps working: it still materialises the same elements, since the
    mapping outlives the directory entry.  A handle that had not opened
    its mapping yet (one just restored from a recorded state, say) can no
    longer do so: materialising it raises [FileNotFoundError]. *)
Theorem use_after_owner_deleted (w : world) (l l2 : nat) (o o2 : MemmapTensor) :
  heap w !! l = Some o → heap w !! l2 = Some o2 → l2 ≠ l →
  handle_ok o = true → _has_ownership o = true →
  filename o2 = filename o → mapping_ok w o2 = true →
  ∃ w1,
    destroy l w = (Ok tt, w1) ∧
    fs_paths w1 !! filename o2 = None ∧
    (is_Some (_memmap_array o2) →
       ∃ t, _tensor l2 w1 = (Ok t, w1) ∧
            tensor_data w1 t = mapped_content w o2) ∧
    (_memmap_array o2 = None →
       _tensor l2 w1 = (Raise FileNotFoundError, w1)).
Proof.
  intros Hl Hl2 Hne Hok Hown Hfn Hmok.
  pose proof (destroy_spec w l o Hl Hok) as Hd. rewrite Hown in Hd.
  match type of Hd with _ = (_, ?w1') => set (w1 := w1') in * end.
  assert (Hl21 : heap w1 !! l2 = Some o2).
  { unfold w1. cbn. by rewrite lookup_delete_ne. }
  assert (Hgone : fs_paths w1 !! filename o2 = None).
  { unfold w1. cbn. rewrite Hfn. apply lookup_delete_eq. }
  exists w1. split; [exact Hd|]. split; [exact Hgone|]. split.
  - intros [mm Hmm].
    assert (Hmok1 : mapping_ok w1 o2 = true).
    { unfold mapping_ok, handle_inode in *. by rewrite Hmm in *. }
    assert (Hmc1 : mapped_content w1 o2 = mapped_content w o2).
    { unfold mapped_content, handle_inode. by rewrite Hmm. }
    destruct (tensor_spec w1 l2 o2 Hl21 Hmok1)
      as (w' & mm' & Ht & Hino & Hdata & Hp & Hi & Hnext & Hh & _).
    destruct (tensor_cached w1 l2 o2 mm Hl21 Hmm) as (t & Ht' & _).
    rewrite Ht' in Ht. injection Ht as -> <-.
    exists (materialised w1 o2 (mm_ino mm')). split; [exact Ht'|].
    by rewrite Hdata.
  - intros Hnone. unfold _tensor, _load_item.
    erewrite bind_raise; [reflexivity|]. erewrite bind_raise; [reflexivity|].
    unfold _get_memmap_array.
    rewrite (bind_ok _ _ _ _ _ (deref_ok _ _ _ Hl21)). rewrite Hnone.
    erewrite bind_raise; [reflexivity|]. unfold np_memmap. by rewrite Hgone.
Qed.

Lemma use_after_owner_deleted_witness :
  ∃ w1,
    destroy 1 demo_world_shared = (Ok tt, w1) ∧
    ∃ t, _tensor 0 w1 = (Ok t, w1) ∧ tensor_data w1 t = [1; 2]%Z.
Proof.
  destruct (use_after_owner_deleted demo_world_shared 1 0 _ _
              eq_refl eq_refl ltac:(discriminate) eq_refl eq_refl eq_refl eq_refl)
    as (w1 & H1 & _ & H2 & _).
  exists w1. split; [exact H1|].
  destruct (H2 ltac:(vm_compute; eauto)) as (t & H3 & H4).
  exists t. split; [exact H3|exact H4].
Defined.
